(** * Route discovery, set grouping, path versioning and orchestration guards
    of the Metashape M3M automation scripts

    A shallow embedding of the repository's own logic: the folder-name and
    file-name grammars, the glob tiers of the image classifiers, the
    multispectral set grouper, the project path versioner, the merge
    validation, the project-save wrapper and the argument defaulting of the
    multi-route entry points.  The photogrammetry engine and the operating
    system are external collaborators: the engine appears as a record of
    operations that may raise, the file system as the data the scripts read
    from it.

    Conventions.
    - Python [str] values are [string]; file and folder names are taken to be
      ASCII (the regular expressions' [\d] and [\w] and [str.upper] are
      modelled on ASCII characters only).
    - A Python call that may raise returns an [outcome].
    - A [dict] whose iteration order matters is an insertion-ordered
      association list ([PyDict]). *)

From Stdlib Require Import Ascii String.
From stdpp Require Import gmap strings list pretty sorting.

Local Open Scope string_scope.
Local Open Scope list_scope.
Local Open Scope nat_scope.

(* ===================================================================== *)
(** * Part I: the embedding *)
(* ===================================================================== *)

(** ** Python values shared by all scripts *)

Module Py.

(** Exceptions the modelled code can see. *)
Inductive exn :=
| NotADirectoryError (path : string)
| FileNotFoundError (msg : string)
| RuntimeError (msg : string)
| EngineError (msg : string).

(** Result of a call that may raise. *)
Inductive outcome (A : Type) :=
| Return (a : A)
| Raise (e : exn).
Arguments Return {A} a.
Arguments Raise {A} e.

Definition code (c : ascii) : nat := nat_of_ascii c.

Definition is_digit (c : ascii) : bool :=
  (48 <=? code c)%nat && (code c <=? 57)%nat.
Definition is_upper (c : ascii) : bool :=
  (65 <=? code c)%nat && (code c <=? 90)%nat.
Definition is_lower (c : ascii) : bool :=
  (97 <=? code c)%nat && (code c <=? 122)%nat.
(** [\w] on ASCII: letters, digits and the underscore. *)
Definition is_word (c : ascii) : bool :=
  is_digit c || is_upper c || is_lower c || (code c =? 95)%nat.

Definition upper_char (c : ascii) : ascii :=
  if is_lower c then ascii_of_nat (code c - 32) else c.
Definition lower_char (c : ascii) : ascii :=
  if is_upper c then ascii_of_nat (code c + 32) else c.

Fixpoint map_string (f : ascii -> ascii) (s : string) : string :=
  match s with
  | EmptyString => EmptyString
  | String c s' => String (f c) (map_string f s')
  end.

(** [str.upper] and [str.lower]. *)
Definition upper : string -> string := map_string upper_char.
Definition lower : string -> string := map_string lower_char.

Fixpoint forallb_string (p : ascii -> bool) (s : string) : bool :=
  match s with
  | EmptyString => true
  | String c s' => p c && forallb_string p s'
  end.

Definition char_eqb (a b : ascii) : bool := (code a =? code b)%nat.

(** [s.startswith(p)], returning the rest of [s] after the prefix. *)
Fixpoint strip_prefix (p s : string) : option string :=
  match p, s with
  | EmptyString, _ => Some s
  | String a p', String b s' => if char_eqb a b then strip_prefix p' s' else None
  | String _ _, EmptyString => None
  end.

Definition startswith (s p : string) : bool :=
  match strip_prefix p s with Some _ => true | None => false end.

(** Same, ignoring ASCII case (a literal under [re.IGNORECASE]). *)
Fixpoint strip_prefix_ci (p s : string) : option string :=
  match p, s with
  | EmptyString, _ => Some s
  | String a p', String b s' =>
      if char_eqb (lower_char a) (lower_char b) then strip_prefix_ci p' s' else None
  | String _ _, EmptyString => None
  end.

(** The longest prefix of [s] whose characters satisfy [p], and the rest:
    what a greedy [\d+] or [\w+] consumes before any backtracking. *)
Fixpoint span (p : ascii -> bool) (s : string) : string * string :=
  match s with
  | EmptyString => (EmptyString, EmptyString)
  | String c s' =>
      if p c then let '(a, b) := span p s' in (String c a, b)
      else (EmptyString, s)
  end.

(** [p in s] for strings: substring test. *)
Fixpoint contains (s p : string) : bool :=
  startswith s p ||
  match s with
  | EmptyString => false
  | String _ s' => contains s' p
  end.

Fixpoint rev_string_onto (s acc : string) : string :=
  match s with
  | EmptyString => acc
  | String c s' => rev_string_onto s' (String c acc)
  end.
Definition rev_string (s : string) : string := rev_string_onto s EmptyString.

(** [s.endswith(p)]. *)
Definition endswith (s p : string) : bool :=
  startswith (rev_string s) (rev_string p).

(** Comparison of [str] values: lexicographic on code points. *)
Fixpoint str_ltb (a b : string) : bool :=
  match a, b with
  | _, EmptyString => false
  | EmptyString, String _ _ => true
  | String x a', String y b' =>
      if (code x <? code y)%nat then true
      else if (code x =? code y)%nat then str_ltb a' b'
      else false
  end.
Definition str_leb (a b : string) : bool := negb (str_ltb b a).

(** [sorted(l, key=key)] with string keys: Python's sort is stable, so the
    result is the stable insertion sort of [l]. *)
Fixpoint insert_by {A} (key : A -> string) (x : A) (l : list A) : list A :=
  match l with
  | [] => [x]
  | y :: l' =>
      if str_ltb (key y) (key x) then y :: insert_by key x l'
      else x :: l
  end.
Definition sorted {A} (key : A -> string) (l : list A) : list A :=
  foldr (insert_by key) [] l.

(** [sep.join(parts)]. *)
Fixpoint join_with (sep : string) (parts : list string) : string :=
  match parts with
  | [] => ""
  | [p] => p
  | p :: rest => p +:+ sep +:+ join_with sep rest
  end.

(** [str(n)] for a non-negative [int]. *)
Definition str_of_nat (n : nat) : string := pretty n.

(** [int(s)] for a string of ASCII digits. *)
Fixpoint nat_of_digits_acc (s : string) (acc : nat) : nat :=
  match s with
  | EmptyString => acc
  | String c s' => nat_of_digits_acc s' (10 * acc + (code c - 48))
  end.
Definition nat_of_digits (s : string) : nat := nat_of_digits_acc s 0.

(** The line feed that starts some of the printed messages. *)
Definition nl : string := String (ascii_of_nat 10) EmptyString.

(** Truthiness of an optional string argument: [None] and [''] are falsy. *)
Definition truthy (o : option string) : bool :=
  match o with
  | Some s => negb (String.eqb s "")
  | None => false
  end.

End Py.

(** ** Insertion-ordered dictionaries *)

Module PyDict.

Definition t (V : Type) := list (string * V).

Fixpoint get {V} (k : string) (d : t V) : option V :=
  match d with
  | [] => None
  | (k', v) :: d' => if String.eqb k k' then Some v else get k d'
  end.

(** [d[k] = v]: an existing key keeps its position, a new key goes last. *)
Fixpoint set {V} (k : string) (v : V) (d : t V) : t V :=
  match d with
  | [] => [(k, v)]
  | (k', v') :: d' =>
      if String.eqb k k' then (k, v) :: d' else (k', v') :: set k v d'
  end.

Definition mem {V} (k : string) (d : t V) : bool :=
  match get k d with Some _ => true | None => false end.

Definition keys {V} (d : t V) : list string := map fst d.

End PyDict.

(** ** [os.path] and [glob] *)

Module Os.

Import Py.

(** [glob] and [os.path] differ between the two platforms the scripts can
    run on: the separator, and whether [fnmatch] folds case. *)
Variant platform := Posix | Windows.

Definition sep (pf : platform) : string :=
  match pf with Posix => "/" | Windows => "\" end.

Definition is_sep (pf : platform) (c : ascii) : bool :=
  match pf with
  | Posix => char_eqb c "/"
  | Windows => char_eqb c "/" || char_eqb c "\"
  end.

Definition last_char (s : string) : option ascii :=
  match rev_string s with
  | EmptyString => None
  | String c _ => Some c
  end.

(** [os.path.join(a, b)] for a relative second component without drive
    letter, which is all the scripts ever pass (a directory entry, a glob
    pattern or a generated project name). *)
Definition join (pf : platform) (a b : string) : string :=
  match last_char a with
  | None => b
  | Some c => if is_sep pf c then a +:+ b else a +:+ sep pf +:+ b
  end.

(** [os.path.basename]: what follows the last separator. *)
Fixpoint basename_from (pf : platform) (s cur : string) : string :=
  match s with
  | EmptyString => rev_string cur
  | String c s' =>
      if is_sep pf c then basename_from pf s' EmptyString
      else basename_from pf s' (String c cur)
  end.
Definition basename (pf : platform) (p : string) : string :=
  basename_from pf p EmptyString.

(** [os.path.normcase] as [fnmatch.filter] applies it to names and
    patterns (names of directory entries contain no separator). *)
Definition normcase (pf : platform) (s : string) : string :=
  match pf with Posix => s | Windows => lower s end.

(** [fnmatch] for the patterns the scripts use: literal characters and the
    wildcard [*], which matches any run of characters. *)
Fixpoint fnmatchcase (pat name : string) : bool :=
  match pat with
  | EmptyString => match name with EmptyString => true | _ => false end
  | String p pat' =>
      if char_eqb p "*" then
        (fix star (n : string) : bool :=
           fnmatchcase pat' n ||
           match n with
           | EmptyString => false
           | String _ n' => star n'
           end) name
      else
        match name with
        | EmptyString => false
        | String c name' => char_eqb p c && fnmatchcase pat' name'
        end
  end.

Definition fnmatch (pf : platform) (pat name : string) : bool :=
  fnmatchcase (normcase pf pat) (normcase pf name).

(** [glob] hides dot-files from a pattern that does not start with a dot. *)
Definition is_hidden (name : string) : bool := startswith name ".".

(** The names of one directory listing selected by a pattern, in listing
    order. *)
Definition glob_names (pf : platform) (pat : string) (names : list string)
  : list string :=
  filter (fun n => (is_hidden pat || negb (is_hidden n)) && fnmatch pf pat n) names.

(** What the scripts read from the file system.  [fs_glob dir pat] is
    [glob.glob(os.path.join(dir, pat))]. *)
Record view := {
  fs_exists : string -> bool;
  fs_isdir : string -> bool;
  fs_listdir : string -> outcome (list string);
  fs_glob : string -> string -> list string;
  fs_join : string -> string -> string;
  fs_basename : string -> string
}.

(** A concrete two-level directory: the entries of one DCIM directory,
    each either a regular file ([None]) or a folder with its listing. *)
Definition dcim_tree := list (string * option (list string)).

Fixpoint tree_find (p : string -> bool) (t : dcim_tree)
  : option (string * option (list string)) :=
  match t with
  | [] => None
  | e :: t' => if p (fst e) then Some e else tree_find p t'
  end.

(** The view of a DCIM directory at [root] with entries [t].  Folder paths
    are taken literally (no glob metacharacters in directory names). *)
Definition view_of (pf : platform) (root : string) (t : dcim_tree) : view := {|
  fs_exists := fun p =>
    String.eqb p root ||
    match tree_find (fun n => String.eqb p (join pf root n)) t with
    | Some _ => true | None => false end;
  fs_isdir := fun p =>
    String.eqb p root ||
    match tree_find (fun n => String.eqb p (join pf root n)) t with
    | Some (_, Some _) => true | _ => false end;
  fs_listdir := fun p =>
    if String.eqb p root then Return (map fst t)
    else match tree_find (fun n => String.eqb p (join pf root n)) t with
         | Some (_, Some names) => Return names
         | Some (_, None) => Raise (NotADirectoryError p)
         | None => Raise (FileNotFoundError p)
         end;
  fs_glob := fun dir pat =>
    match tree_find (fun n => String.eqb dir (join pf root n)) t with
    | Some (_, Some names) => map (join pf dir) (glob_names pf pat names)
    | _ => []
    end;
  fs_join := join pf;
  fs_basename := basename pf
|}.

End Os.

(** ** The two file-name grammars *)

Module Grammar.

Import Py.

(** [re.match(r'DJI_\d{12,14}_(\d{3})_.*', folder)], returning group 1.
    [re.match] anchors the start only.  The greedy [\d{12,14}] is followed
    by a literal underscore, so the only way to match is for the whole
    leading digit run to have 12 to 14 digits; no backtracking can succeed
    where this function fails. *)
Definition match_route_folder (folder : string) : option string :=
  match strip_prefix "DJI_" folder with
  | None => None
  | Some r =>
      let '(ts, r1) := span is_digit r in
      if (12 <=? String.length ts)%nat && (String.length ts <=? 14)%nat then
        match r1 with
        | String u (String a (String b (String c (String v _)))) =>
            if char_eqb u "_" && is_digit a && is_digit b && is_digit c
               && char_eqb v "_"
            then Some (String a (String b (String c EmptyString)))
            else None
        | _ => None
        end
      else None
  end.

(** [re.match(r'DJI_(\d{14})_(\d+)_MS_(\w+)\.TIF', filename, re.IGNORECASE)],
    returning groups 1, 2 and 3.  [\d+] is followed by an underscore and
    [\w+] by a dot, neither of which the class itself contains, so each
    consumes its whole run. *)
Definition match_ms_filename (filename : string)
  : option (string * string * string) :=
  match strip_prefix_ci "DJI_" filename with
  | None => None
  | Some r =>
      let '(ts, r1) := span is_digit r in
      if (String.length ts =? 14)%nat then
        match strip_prefix "_" r1 with
        | None => None
        | Some r2 =>
            let '(num, r3) := span is_digit r2 in
            if (1 <=? String.length num)%nat then
              match strip_prefix_ci "_MS_" r3 with
              | None => None
              | Some r4 =>
                  let '(band, r5) := span is_word r4 in
                  if (1 <=? String.length band)%nat then
                    match strip_prefix_ci ".TIF" r5 with
                    | Some _ => Some (ts, num, band)
                    | None => None
                    end
                  else None
              end
            else None
        end
      else None
  end.

End Grammar.

(** ** rgb_single_automation_generic.py: route scan *)

Module RgbSingle.

Import Py Os.

Record route := {
  folder_name : string;
  folder_path : string;
  route_number : string;
  rgb_count : nat;
  image_files : list string
}.

(** The three glob tiers of the loop body: [*_D.JPG], else [*D.JPG], else
    [*.JPG] followed by [*.jpg]. *)
Definition rgb_files_of (fs : view) (folder_path : string) : list string :=
  let rgb_files := fs_glob fs folder_path "*_D.JPG" in
  let rgb_files :=
    match rgb_files with
    | [] => fs_glob fs folder_path "*D.JPG"
    | _ => rgb_files
    end in
  match rgb_files with
  | [] => fs_glob fs folder_path "*.JPG" ++ fs_glob fs folder_path "*.jpg"
  | _ => rgb_files
  end.

(** One iteration of the [for folder in os.listdir(dcim_path)] loop: the
    route it appends, if any. *)
Definition scan_folder (fs : view) (dcim_path folder : string) : option route :=
  let folder_path := fs_join fs dcim_path folder in
  if fs_isdir fs folder_path then
    match Grammar.match_route_folder folder with
    | Some route_number =>
        let rgb_files := rgb_files_of fs folder_path in
        match rgb_files with
        | [] => None
        | _ => Some {| folder_name := folder;
                       folder_path := folder_path;
                       route_number := route_number;
                       rgb_count := length rgb_files;
                       image_files := rgb_files |}
        end
    | None => None
    end
  else None.

Definition scan_loop (fs : view) (dcim_path : string) (names : list string)
  : list route :=
  fold_left
    (fun route_folders folder =>
       match scan_folder fs dcim_path folder with
       | Some r => route_folders ++ [r]
       | None => route_folders
       end)
    names [].

Definition scan_dcim_folders (fs : view) (dcim_path : string)
  : outcome (list route) :=
  if negb (fs_exists fs dcim_path) then Return []
  else
    match fs_listdir fs dcim_path with
    | Raise e => Raise e
    | Return names => Return (sorted route_number (scan_loop fs dcim_path names))
    end.

(** The route numbers of the folders of a listing that the loop
    catalogues, one per catalogued folder, in listing order. *)
Definition catalogued_numbers (fs : view) (dcim_path : string) (names : list string)
  : list string :=
  omap (fun folder => route_number <$> scan_folder fs dcim_path folder) names.

End RgbSingle.

(** ** rgb_combined_automation_generic.py: route scan and route lookup *)

Module RgbCombined.

Import Py Os.

Record route := {
  folder_name : string;
  folder_path : string;
  route_number : string;
  image_count : nat;
  image_files : list string
}.

(** This script has two tiers only: [*.JPG], else [*.jpg]. *)
Definition jpg_files_of (fs : view) (folder_path : string) : list string :=
  let jpg_files := fs_glob fs folder_path "*.JPG" in
  match jpg_files with
  | [] => fs_glob fs folder_path "*.jpg"
  | _ => jpg_files
  end.

Definition scan_folder (fs : view) (dcim_path folder : string) : option route :=
  let folder_path := fs_join fs dcim_path folder in
  if fs_isdir fs folder_path then
    match Grammar.match_route_folder folder with
    | Some route_number =>
        let jpg_files := jpg_files_of fs folder_path in
        match jpg_files with
        | [] => None
        | _ => Some {| folder_name := folder;
                       folder_path := folder_path;
                       route_number := route_number;
                       image_count := length jpg_files;
                       image_files := jpg_files |}
        end
    | None => None
    end
  else None.

Definition scan_loop (fs : view) (dcim_path : string) (names : list string)
  : list route :=
  fold_left
    (fun route_folders folder =>
       match scan_folder fs dcim_path folder with
       | Some r => route_folders ++ [r]
       | None => route_folders
       end)
    names [].

Definition scan_dcim_folders (fs : view) (dcim_path : string)
  : outcome (list route) :=
  if negb (fs_exists fs dcim_path) then Return []
  else
    match fs_listdir fs dcim_path with
    | Raise e => Raise e
    | Return names => Return (sorted route_number (scan_loop fs dcim_path names))
    end.

End RgbCombined.

(** ** Looking routes up in a catalog (shared by the three multi-route
    scripts, whose [find_routes_by_numbers] differ only in the scan they call
    and in what they print) *)

Module Lookup.

Section Lookup.
Context {R : Type} (route_number : R -> string).

(** The inner [for route in all_routes: if ...: ...; break]. *)
Definition first_route (route_num : string) (all_routes : list R) : option R :=
  find (fun route => String.eqb (route_number route) route_num) all_routes.

(** The outer [for route_num in route_numbers] with its [append]. *)
Definition collect (route_numbers : list string) (all_routes : list R) : list R :=
  fold_left
    (fun found_routes route_num =>
       match first_route route_num all_routes with
       | Some route => found_routes ++ [route]
       | None => found_routes
       end)
    route_numbers [].

(** The body of [find_routes_by_numbers] after the scan. *)
Definition find_in_catalog (route_numbers : list string) (all_routes : list R)
  : list R :=
  match all_routes with
  | [] => []
  | _ =>
      let found_routes := collect route_numbers all_routes in
      if length found_routes <? 2 then [] else found_routes
  end.

(** How many of the requested route numbers the catalog resolves
    (counting a number as often as it is requested). *)
Definition resolved_count (route_numbers : list string) (all_routes : list R) : nat :=
  length (filter (fun n => existsb (fun r => String.eqb (route_number r) n) all_routes)
                 route_numbers).
End Lookup.

End Lookup.

Module RgbCombinedLookup.

Import Py Os RgbCombined.

Definition find_routes_by_numbers (fs : view) (route_numbers : list string)
    (dcim_path : string) : outcome (list route) :=
  match scan_dcim_folders fs dcim_path with
  | Raise e => Raise e
  | Return all_routes =>
      Return (Lookup.find_in_catalog route_number route_numbers all_routes)
  end.

End RgbCombinedLookup.

(** ** ms_combined_automation_generic.py: route scan and route lookup *)

Module MsCombined.

Import Py Os.

Record band_tally := { n_G : nat; n_R : nat; n_RE : nat; n_NIR : nat }.

Record route := {
  folder_name : string;
  folder_path : string;
  route_number : string;
  image_count : nat;
  image_files : list string;
  bands : band_tally
}.

Definition glob_all (fs : view) (folder_path : string) (pats : list string)
  : list string :=
  fold_left (fun ms_files pat => ms_files ++ fs_glob fs folder_path pat) pats [].

(** Exact band patterns, else their lower-case variants, else any
    [*MS*.TIF] / [*ms*.tif]. *)
Definition ms_files_of (fs : view) (folder_path : string) : list string :=
  let ms_files :=
    glob_all fs folder_path ["*_MS_G.TIF"; "*_MS_R.TIF"; "*_MS_RE.TIF"; "*_MS_NIR.TIF"] in
  let ms_files :=
    match ms_files with
    | [] => glob_all fs folder_path ["*_ms_g.tif"; "*_ms_r.tif"; "*_ms_re.tif"; "*_ms_nir.tif"]
    | _ => ms_files
    end in
  match ms_files with
  | [] => fs_glob fs folder_path "*MS*.TIF" ++ fs_glob fs folder_path "*ms*.tif"
  | _ => ms_files
  end.

Definition tally (fs : view) (ms_files : list string) : band_tally :=
  fold_left
    (fun b img =>
       let img_name := upper (fs_basename fs img) in
       if contains img_name "_MS_G." then
         {| n_G := S (n_G b); n_R := n_R b; n_RE := n_RE b; n_NIR := n_NIR b |}
       else if contains img_name "_MS_R." then
         {| n_G := n_G b; n_R := S (n_R b); n_RE := n_RE b; n_NIR := n_NIR b |}
       else if contains img_name "_MS_RE." then
         {| n_G := n_G b; n_R := n_R b; n_RE := S (n_RE b); n_NIR := n_NIR b |}
       else if contains img_name "_MS_NIR." then
         {| n_G := n_G b; n_R := n_R b; n_RE := n_RE b; n_NIR := S (n_NIR b) |}
       else b)
    ms_files {| n_G := 0; n_R := 0; n_RE := 0; n_NIR := 0 |}.

Definition scan_folder (fs : view) (dcim_path folder : string) : option route :=
  let folder_path := fs_join fs dcim_path folder in
  if fs_isdir fs folder_path then
    match Grammar.match_route_folder folder with
    | Some route_number =>
        let ms_files := ms_files_of fs folder_path in
        match ms_files with
        | [] => None
        | _ => Some {| folder_name := folder;
                       folder_path := folder_path;
                       route_number := route_number;
                       image_count := length ms_files;
                       image_files := ms_files;
                       bands := tally fs ms_files |}
        end
    | None => None
    end
  else None.

Definition scan_loop (fs : view) (dcim_path : string) (names : list string)
  : list route :=
  fold_left
    (fun route_folders folder =>
       match scan_folder fs dcim_path folder with
       | Some r => route_folders ++ [r]
       | None => route_folders
       end)
    names [].

Definition scan_dcim_folders_ms (fs : view) (dcim_path : string)
  : outcome (list route) :=
  if negb (fs_exists fs dcim_path) then Return []
  else
    match fs_listdir fs dcim_path with
    | Raise e => Raise e
    | Return names => Return (sorted route_number (scan_loop fs dcim_path names))
    end.

Definition find_routes_by_numbers (fs : view) (route_numbers : list string)
    (dcim_path : string) : outcome (list route) :=
  match scan_dcim_folders_ms fs dcim_path with
  | Raise e => Raise e
  | Return all_routes =>
      Return (Lookup.find_in_catalog route_number route_numbers all_routes)
  end.

End MsCombined.

(** ** rgb_ms_combined_automation_generic.py: route scan and route lookup *)

Module RgbMsCombined.

Import Py Os.

Record route := {
  folder_name : string;
  folder_path : string;
  route_number : string;
  rgb_count : nat;
  ms_count : nat;
  total_count : nat;
  image_files : list string;
  rgb_files : list string;
  ms_files : list string
}.

Definition rgb_files_of (fs : view) (folder_path : string) : list string :=
  let rgb_files := fs_glob fs folder_path "*_D.JPG" in
  let rgb_files :=
    match rgb_files with
    | [] => fs_glob fs folder_path "*D.JPG"
    | _ => rgb_files
    end in
  match rgb_files with
  | [] => fs_glob fs folder_path "*.JPG" ++ fs_glob fs folder_path "*.jpg"
  | _ => rgb_files
  end.

Definition scan_folder (fs : view) (dcim_path folder : string) : option route :=
  let folder_path := fs_join fs dcim_path folder in
  if fs_isdir fs folder_path then
    match Grammar.match_route_folder folder with
    | Some route_number =>
        let rgb_files := rgb_files_of fs folder_path in
        let ms_files := MsCombined.ms_files_of fs folder_path in
        match rgb_files, ms_files with
        | _ :: _, _ :: _ =>
            let all_images := rgb_files ++ ms_files in
            Some {| folder_name := folder;
                    folder_path := folder_path;
                    route_number := route_number;
                    rgb_count := length rgb_files;
                    ms_count := length ms_files;
                    total_count := length all_images;
                    image_files := all_images;
                    rgb_files := rgb_files;
                    ms_files := ms_files |}
        | _, _ => None
        end
    | None => None
    end
  else None.

Definition scan_loop (fs : view) (dcim_path : string) (names : list string)
  : list route :=
  fold_left
    (fun route_folders folder =>
       match scan_folder fs dcim_path folder with
       | Some r => route_folders ++ [r]
       | None => route_folders
       end)
    names [].

Definition scan_dcim_folders_combined (fs : view) (dcim_path : string)
  : outcome (list route) :=
  if negb (fs_exists fs dcim_path) then Return []
  else
    match fs_listdir fs dcim_path with
    | Raise e => Raise e
    | Return names => Return (sorted route_number (scan_loop fs dcim_path names))
    end.

Definition find_routes_by_numbers (fs : view) (route_numbers : list string)
    (dcim_path : string) : outcome (list route) :=
  match scan_dcim_folders_combined fs dcim_path with
  | Raise e => Raise e
  | Return all_routes =>
      Return (Lookup.find_in_catalog route_number route_numbers all_routes)
  end.

End RgbMsCombined.

(** ** rgb_ms_single_automation_generic.py: image selection *)

Module RgbMsSingle.

Import Py.

(** [[f for f in files if f.lower().endswith('.jpg') and
     ('D' in f.upper() or 'RGB' in f.upper())]]: one predicate, no tiers. *)
Definition rgb_images_of (files : list string) : list string :=
  filter (fun f => endswith (lower f) ".jpg"
                   && (contains (upper f) "D" || contains (upper f) "RGB"))
         files.

End RgbMsSingle.

(** ** config_tool_generic.py: route preview and input validation *)

Module ConfigTool.

Import Py Os.

Definition find_rgb_files (fs : view) (folder_path : string) : list string :=
  let rgb_files := fs_glob fs folder_path "*_D.JPG" in
  let rgb_files :=
    match rgb_files with
    | [] => fs_glob fs folder_path "*D.JPG"
    | _ => rgb_files
    end in
  match rgb_files with
  | [] => fs_glob fs folder_path "*.JPG" ++ fs_glob fs folder_path "*.jpg"
  | _ => rgb_files
  end.

(** The form fields [validate_inputs] reads; [selected_routes] holds the
    route numbers of the selected catalog rows. *)
Record form := {
  script_base_path : string;
  dcim_path : string;
  gcp_path : string;
  output_path : string;
  selected_routes : list string;
  route_mode : string
}.

Definition nonempty (s : string) : bool := negb (String.eqb s "").

(** Returns the boolean result and the error dialog shown, if any. *)
Definition validate_inputs (f : form) : bool * option string :=
  if negb (nonempty (script_base_path f)) then
    (false, Some "Please select script folder")
  else if negb (nonempty (dcim_path f)) then
    (false, Some "Please select DCIM folder")
  else if negb (nonempty (gcp_path f)) then
    (false, Some "Please select GCP folder")
  else if negb (nonempty (output_path f)) then
    (false, Some "Please select output folder")
  else
    match selected_routes f with
    | [] => (false, Some "Please select at least one route")
    | _ =>
        if String.eqb (route_mode f) "Multiple"
           && (length (selected_routes f) <? 2)
        then (false, Some "Multiple route mode requires at least 2 routes")
        else (true, None)
    end.

End ConfigTool.

(** ** ms_automation_generic.py: the multispectral set grouper

    The part of [scan_dcim_folders_ms] that handles one route folder (the
    body under [if match:]).  The enclosing loop is not embedded: its inner
    [for pattern in ms_patterns] rebinds the variable that holds the folder
    regular expression, so from the second matching folder on the script
    matches folder names against a glob path. *)

Module MsSingle.

Import Py Os.

Record route := {
  folder_name : string;
  folder_path : string;
  route_number : string;
  ms_captures : nat;
  ms_files_count : nat;
  band_counts : PyDict.t nat;
  image_files : list string;
  complete_sets : nat
}.

Definition required_bands : list string := ["G"; "NIR"; "R"; "RE"].

Definition ms_files_of (fs : view) (folder_path : string) : list string :=
  fold_left (fun ms_files pat => ms_files ++ fs_glob fs folder_path pat)
            ["*_MS_*.TIF"; "*_MS_*.tif"] [].

(** [capture_groups]: capture key to (band to file path). *)
Definition groups := PyDict.t (PyDict.t string).

(** The capture key and band of one file, when its name follows the
    grammar. *)
Definition capture_of (fs : view) (file_path : string) : option (string * string) :=
  match Grammar.match_ms_filename (fs_basename fs file_path) with
  | Some (timestamp, image_num, band) =>
      Some (timestamp +:+ "_" +:+ image_num, upper band)
  | None => None
  end.

(** One iteration of [for file_path in ms_files]. *)
Definition add_file (fs : view) (st : groups * PyDict.t nat) (file_path : string)
  : groups * PyDict.t nat :=
  let '(capture_groups, band_counts) := st in
  match capture_of fs file_path with
  | Some (capture_key, band) =>
      let capture_groups :=
        if PyDict.mem capture_key capture_groups then capture_groups
        else PyDict.set capture_key [] capture_groups in
      let bands := default [] (PyDict.get capture_key capture_groups) in
      let capture_groups :=
        PyDict.set capture_key (PyDict.set band file_path bands) capture_groups in
      let band_counts :=
        match PyDict.get band band_counts with
        | Some n => PyDict.set band (S n) band_counts
        | None => band_counts
        end in
      (capture_groups, band_counts)
  | None => st
  end.

Definition group_files (fs : view) (ms_files : list string)
  : groups * PyDict.t nat :=
  fold_left (add_file fs) ms_files
            ([], [("G", 0); ("NIR", 0); ("R", 0); ("RE", 0)]).

(** [len(bands) == 4 and all(band in bands for band in ['G','NIR','R','RE'])]. *)
Definition is_complete (bands : PyDict.t string) : bool :=
  (length bands =? 4) && forallb (fun band => PyDict.mem band bands) required_bands.

(** [bands[band]] for the four required bands, in that order. *)
Definition ordered_files (bands : PyDict.t string) : list string :=
  omap (fun band => PyDict.get band bands) required_bands.

(** The loop over [capture_groups.items()]: the number of complete
    captures and their files. *)
Definition complete_of (capture_groups : groups) : nat * list string :=
  fold_left
    (fun acc kv =>
       let '(complete_captures, all_ms_files) := acc in
       if is_complete (snd kv)
       then (S complete_captures, all_ms_files ++ ordered_files (snd kv))
       else acc)
    capture_groups (0, []).

(** What the grouper computes from the list of globbed files. *)
Record grouped := {
  g_complete_sets : nat;
  g_image_files : list string;
  g_ms_files_count : nat;
  g_band_counts : PyDict.t nat
}.

Definition group_ms_files (fs : view) (ms_files : list string) : grouped :=
  let '(capture_groups, band_counts) := group_files fs ms_files in
  let '(complete_captures, all_ms_files) := complete_of capture_groups in
  {| g_complete_sets := complete_captures;
     g_image_files := all_ms_files;
     g_ms_files_count := length ms_files;
     g_band_counts := band_counts |}.

(** The grouping in the specification's words: a capture key has a band
    when some file of the list carries that key and band, and it is
    complete when the bands it has are exactly the four required ones. *)
Definition has_band (fs : view) (ms_files : list string) (key band : string) : Prop :=
  exists f, f ∈ ms_files /\ capture_of fs f = Some (key, band).

Definition complete_key (fs : view) (ms_files : list string) (key : string) : Prop :=
  forall band, has_band fs ms_files key band <-> band ∈ required_bands.

(** What [add_file] does to [capture_groups] alone. *)
Definition add_group (fs : view) (capture_groups : groups) (file_path : string) : groups :=
  (add_file fs (capture_groups, []) file_path).1.

(** [capture_groups] after the loop over the files. *)
Definition groups_of (fs : view) (ms_files : list string) : groups :=
  fold_left (add_group fs) ms_files [].

(** [capture_groups[key][band]], if present. *)
Definition file_of (capture_groups : groups) (key band : string) : option string :=
  PyDict.get key capture_groups ≫= PyDict.get band.

(** The groups that pass the completeness test, in dictionary order. *)
Definition complete_groups (fs : view) (ms_files : list string)
  : list (string * PyDict.t string) :=
  List.filter (fun kv => is_complete kv.2) (groups_of fs ms_files).

(** The file recorded for a key and band after the loop (the empty string
    if there is none). *)
Definition emitted (fs : view) (ms_files : list string) (key band : string) : string :=
  default "" (file_of (groups_of fs ms_files) key band).

(** The body of the folder loop of [scan_dcim_folders_ms] for one folder
    whose name matched: its catalog entry, if it has a complete capture.
    The loop itself is not embedded: its inner [for pattern in ms_patterns]
    rebinds the variable that holds the folder regex, so that every folder
    after the first matching one is tested against a glob path read as a
    regular expression. *)
Definition route_entry (fs : view) (folder folder_path route_number : string)
  : option route :=
  let ms_files := ms_files_of fs folder_path in
  let g := group_ms_files fs ms_files in
  if 0 <? g_complete_sets g then
    Some {| folder_name := folder;
            folder_path := folder_path;
            route_number := route_number;
            ms_captures := g_complete_sets g;
            ms_files_count := g_ms_files_count g;
            band_counts := g_band_counts g;
            image_files := g_image_files g;
            complete_sets := g_complete_sets g |}
  else None.

End MsSingle.

(** ** The project path versioners *)

Module Versioner.

Import Py Os.

(** What sits at a child of the output directory. *)
Inductive node :=
| File
| Dir (entries : list string).

(** The children of the output base directory, by name.  The generated
    names are single path components, so [os.path.exists] of the joined
    path is a lookup here. *)
Abbreviation outdir := (gmap string node).

Section Probe.
Variables (out : outdir) (output_base : string) (pf : platform).

(** The [while True] loop of [create_project_structure] and its four
    copies, from the state [(version, project_folder, project_file)];
    [base] is [base_project_folder].  [None] is an exhausted fuel. *)
Fixpoint probe (base : string) (fuel version : nat)
    (project_folder project_file : string)
  : option (outcome (nat * string * string)) :=
  match fuel with
  | 0 => None
  | S fuel' =>
      match out !! project_folder with
      | Some (Dir (_ :: _)) =>
          let version := version + 1 in
          probe base fuel' version
                (base +:+ "_v" +:+ str_of_nat version)
                (base +:+ "_v" +:+ str_of_nat version +:+ ".psx")
      | Some (Dir []) => Some (Return (version, project_folder, project_file))
      | Some File =>
          Some (Raise (NotADirectoryError (join pf output_base project_folder)))
      | None => Some (Return (version, project_folder, project_file))
      end
  end.

(** The loop of the RGB+MS single-route script: any existing entry makes
    it move on. *)
Fixpoint probe_absent (base : string) (fuel version : nat) : option (nat * string) :=
  match fuel with
  | 0 => None
  | S fuel' =>
      let project_folder_name :=
        if version =? 1 then base else base +:+ "_v" +:+ str_of_nat version in
      match out !! project_folder_name with
      | None => Some (version, project_folder_name)
      | Some _ => probe_absent base fuel' (version + 1)
      end
  end.
End Probe.

Record project := {
  project_folder : string;
  project_file : string;
  project_path : string;
  project_full_path : string;
  version : nat
}.

(** The folder and file names tried at a version: the base name at
    version 1, then [<base>_v2], [<base>_v3], ... *)
Definition folder_at (base : string) (version : nat) : string :=
  if version =? 1 then base else base +:+ "_v" +:+ str_of_nat version.
Definition file_at (base : string) (version : nat) : string :=
  if version =? 1 then base +:+ ".psx"
  else base +:+ "_v" +:+ str_of_nat version +:+ ".psx".

(** An existing folder that has entries. *)
Definition occupied (out : outdir) (name : string) : Prop :=
  exists e es, out !! name = Some (Dir (e :: es)).

(** The project returned at a version. *)
Definition project_at (pf : platform) (output_base base : string) (v : nat) : project :=
  {| project_folder := folder_at base v;
     project_file := file_at base v;
     project_path := join pf output_base (folder_at base v);
     project_full_path := join pf (join pf output_base (folder_at base v)) (file_at base v);
     version := v |}.

(** Loop, then [os.makedirs(project_path, exist_ok=True)], in an output
    base that is a directory in which folders can be created (for one that
    is not, see [Makedirs.versioned_on]).  Returns the project and the
    output directory afterwards. *)
Definition versioned (pf : platform) (output_base base : string) (fuel : nat)
    (out : outdir) : option (outcome (project * outdir)) :=
  match probe out output_base pf base fuel 1 base (base +:+ ".psx") with
  | None => None
  | Some (Raise e) => Some (Raise e)
  | Some (Return (version, project_folder, project_file)) =>
      let project_path := join pf output_base project_folder in
      Some (Return
        ({| project_folder := project_folder;
            project_file := project_file;
            project_path := project_path;
            project_full_path := join pf project_path project_file;
            version := version |},
         match out !! project_folder with
         | Some _ => out
         | None => <[project_folder := Dir []]> out
         end))
  end.

(** Enough iterations for any output directory: one more than it has
    entries. *)
Definition enough (out : outdir) : nat := S (size out).

End Versioner.

Module RgbSingleVersioner.
Import Py Os Versioner.
Definition create_project_structure (pf : platform) (route_number output_base : string)
    (out : outdir) : option (outcome (project * outdir)) :=
  versioned pf output_base ("route_" +:+ route_number +:+ "_RGB") (enough out) out.
End RgbSingleVersioner.

Module MsSingleVersioner.
Import Py Os Versioner.
Definition create_project_structure_ms (pf : platform) (route_number output_base : string)
    (out : outdir) : option (outcome (project * outdir)) :=
  versioned pf output_base ("route_" +:+ route_number +:+ "_MS") (enough out) out.
End MsSingleVersioner.

Module RgbCombinedVersioner.
Import Py Os Versioner.
Definition create_combined_project_structure (pf : platform) (output_base : string)
    (route_numbers : list string) (out : outdir) : option (outcome (project * outdir)) :=
  versioned pf output_base
    ("combined_routes_" +:+ join_with "_" route_numbers +:+ "_RGB") (enough out) out.
End RgbCombinedVersioner.

Module MsCombinedVersioner.
Import Py Os Versioner.
Definition create_combined_project_structure (pf : platform) (output_base : string)
    (route_numbers : list string) (out : outdir) : option (outcome (project * outdir)) :=
  versioned pf output_base
    ("combined_routes_" +:+ join_with "_" route_numbers +:+ "_MS") (enough out) out.
End MsCombinedVersioner.

Module RgbMsCombinedVersioner.
Import Py Os Versioner.
Definition create_combined_project_structure (pf : platform) (output_base : string)
    (route_numbers : list string) (out : outdir) : option (outcome (project * outdir)) :=
  versioned pf output_base
    ("combined_routes_" +:+ join_with "_" route_numbers +:+ "_RGB_MS") (enough out) out.
End RgbMsCombinedVersioner.

Module RgbMsSingleVersioner.
Import Py Os Versioner.

Definition subfolders : list string := ["orthomosaic"; "dem"; "pointcloud"; "report"].

(** Returns [(project_folder, project_folder_name)] and the output
    directory afterwards: the new folder holds its four subfolders. *)
Definition create_project_structure (pf : platform) (base_path route_name : string)
    (out : outdir) : option ((string * string) * outdir) :=
  match probe_absent out ("route_" +:+ route_name +:+ "_Combined") (enough out) 1 with
  | None => None
  | Some (_, project_folder_name) =>
      Some ((join pf base_path project_folder_name, project_folder_name),
            <[project_folder_name := Dir subfolders]> out)
  end.
End RgbMsSingleVersioner.

(** ** The engine as the scripts use it *)

Module Engine.

Import Py.

Record marker := {
  marker_label : string;
  marker_projections : nat;       (* len(marker.projections) *)
  marker_enabled : bool
}.

Record chunk := {
  chunk_id : nat;                 (* object identity *)
  chunk_label : string;
  chunk_cameras : nat;            (* len(chunk.cameras) *)
  chunk_markers : list marker;
  chunk_crs : option string       (* str(chunk.crs) when chunk.crs is truthy *)
}.

(** [doc.chunks]. *)
Definition document := list chunk.

(** The document operations of the merge step; each yields the document
    afterwards or raises. *)
Record api := {
  alignChunks : document -> list chunk -> outcome document;
  mergeChunks : document -> list chunk -> outcome document;
  remove : document -> chunk -> outcome document
}.

Definition same_chunk (a b : chunk) : bool := chunk_id a =? chunk_id b.

(** [chunk in doc.chunks]. *)
Definition in_document (c : chunk) (doc : document) : bool :=
  existsb (same_chunk c) doc.

Definition with_label (l : string) (c : chunk) : chunk :=
  {| chunk_id := chunk_id c; chunk_label := l; chunk_cameras := chunk_cameras c;
     chunk_markers := chunk_markers c; chunk_crs := chunk_crs c |}.

Definition total_projections (c : chunk) : nat :=
  foldr (fun m acc => marker_projections m + acc) 0 (chunk_markers c).

(** [str(e)]. *)
Definition message (e : exn) : string :=
  match e with
  | NotADirectoryError p => p
  | FileNotFoundError m => m
  | RuntimeError m => m
  | EngineError m => m
  end.

(** The calls [enhanced_save_project] makes on the document. *)
Inductive call :=
| Append                                  (* doc.append(chunk) *)
| SaveScoped (project_path : string)      (* doc.save(path, chunks=[chunk], archive=True) *)
| SavePlain (project_path : string).      (* doc.save(path) *)

(** A document with state [S]: whether the chunk is in it, and how it
    answers a call ([None]: no exception). *)
Record saver (S : Type) := {
  chunk_in_doc : S -> bool;
  run : S -> call -> S * option exn
}.
Arguments chunk_in_doc {S} _ _.
Arguments run {S} _ _ _.

End Engine.

(** ** enhanced_save_project *)

Module Save.

Import Py Engine.

Definition after (step_name : string) : string :=
  if String.eqb step_name "" then "" else " after " +:+ step_name.

(** What a call of [enhanced_save_project] leaves behind: the document
    state, the document calls made in order, each with the exception it
    raised if any, the console output, and the result. *)
Record result (S : Type) := {
  final : S;
  calls : list (call * option exn);
  printed : list string;
  returned : outcome bool
}.
Arguments final {S} _.
Arguments calls {S} _.
Arguments printed {S} _.
Arguments returned {S} _.

Section Variants.
Context {S : Type} (E : saver S).

(** The [except Exception as e] branch of the single-route scripts. *)
Definition fallback (s : S) (made : list (call * option exn)) (out : list string)
    (e : exn) (project_path step_name : string) : result S :=
  let out := out ++ ["ERROR saving project" +:+ after step_name +:+ ": " +:+ message e] in
  let '(s', r) := run E s (SavePlain project_path) in
  match r with
  | None =>
      {| final := s'; calls := made ++ [(SavePlain project_path, r)];
         printed := out ++ ["Fallback save successful"];
         returned := Return true |}
  | Some e2 =>
      {| final := s'; calls := made ++ [(SavePlain project_path, r)];
         printed := out ++ ["Fallback save also failed: " +:+ message e2];
         returned := Return false |}
  end.

(** rgb_single, ms_automation and rgb_ms_single. *)
Definition enhanced_save_project_single (s : S) (project_path step_name : string)
  : result S :=
  let out := ["Saving project" +:+ after step_name +:+ "..."] in
  let '(s1, made, out, raised) :=
    if chunk_in_doc E s then (s, [], out, None)
    else
      let '(s', r) := run E s Append in
      (s', [(Append, r)],
       out ++ ["WARNING: Chunk not in document, adding it..."], r) in
  match raised with
  | Some e => fallback s1 made out e project_path step_name
  | None =>
      let '(s2, r) := run E s1 (SaveScoped project_path) in
      let made := made ++ [(SaveScoped project_path, r)] in
      match r with
      | None =>
          {| final := s2; calls := made;
             printed := out ++ ["Project saved successfully" +:+ after step_name];
             returned := Return true |}
      | Some e => fallback s2 made out e project_path step_name
      end
  end.

(** rgb_combined, ms_combined and rgb_ms_combined. *)
Definition enhanced_save_project_combined (s : S) (project_path step_name : string)
  : result S :=
  let out := ["Saving project" +:+ after step_name +:+ "..."] in
  let '(s', r) := run E s (SavePlain project_path) in
  match r with
  | None =>
      {| final := s'; calls := [(SavePlain project_path, r)];
         printed := out ++ ["Project saved successfully" +:+ after step_name];
         returned := Return true |}
  | Some e =>
      {| final := s'; calls := [(SavePlain project_path, r)];
         printed := out ++ ["ERROR saving project" +:+ after step_name +:+ ": " +:+ message e];
         returned := Return false |}
  end.
End Variants.

(** The six scripts and the wrapper each defines. *)
Variant script :=
| rgb_single | ms_single | rgb_ms_single
| rgb_combined | ms_combined | rgb_ms_combined.

Definition enhanced_save_project {S} (v : script) (E : saver S) (s : S)
    (project_path step_name : string) : result S :=
  match v with
  | rgb_single | ms_single | rgb_ms_single =>
      enhanced_save_project_single E s project_path step_name
  | rgb_combined | ms_combined | rgb_ms_combined =>
      enhanced_save_project_combined E s project_path step_name
  end.

Definition is_plain_save (c : call * option exn) : bool :=
  match fst c with SavePlain _ => true | _ => false end.

(** Whether a call went through. *)
Definition succeeded (r : option exn) : bool :=
  match r with None => true | Some _ => false end.

(** The save policy in the specification's words: never raises; a failed
    primary attempt is followed by exactly one save without the chunk
    argument; [True] exactly when the last call made succeeded; [False]
    only after the primary attempt and the fallback both failed; at most
    one save without the chunk argument is ever made. *)
Definition one_level_fallback {S} (res : result S) (project_path : string) : Prop :=
  (exists b, returned res = Return b)
  /\ (forall pre c e post,
        calls res = pre ++ (c, Some e) :: post ->
        is_plain_save (c, Some e) = false ->
        exists r, post = [(SavePlain project_path, r)])
  /\ (returned res = Return true <-> exists pre c, calls res = pre ++ [(c, None)])
  /\ (returned res = Return false ->
        exists pre c e e2,
          calls res = pre ++ [(c, Some e); (SavePlain project_path, Some e2)]
          /\ is_plain_save (c, Some e) = false)
  /\ length (List.filter is_plain_save (calls res)) <= 1.

(** A document whose save fails the first time it is asked and succeeds
    from then on; the state counts the calls answered so far. *)
Definition busy_once : saver nat :=
  {| chunk_in_doc := fun _ => true;
     run := fun n c =>
       (S n, match n with
             | 0 => Some (EngineError "project file is busy")
             | _ => None
             end) |}.

End Save.

(** ** merge_chunks_with_validation (identical in the three multi-route
    scripts up to the words it prints) *)

Module Merge.

Import Py Engine.

Record wording := {
  tag : string;              (* "RGB", "MS" or "RGB+MS" *)
  merged_label : string;
  list_remaining : bool      (* the RGB+MS script also lists leftover chunks *)
}.

Definition rgb_wording : wording :=
  {| tag := "RGB"; merged_label := "Merged_RGB_Routes"; list_remaining := false |}.
Definition ms_wording : wording :=
  {| tag := "MS"; merged_label := "Merged_MS_Routes"; list_remaining := false |}.
Definition rgb_ms_wording : wording :=
  {| tag := "RGB+MS"; merged_label := "Merged_RGB_MS_Routes"; list_remaining := true |}.

Definition num (n : nat) : string := str_of_nat n.

Definition total_cameras (cs : list chunk) : nat :=
  foldr (fun c acc => chunk_cameras c + acc) 0 cs.
Definition total_markers (cs : list chunk) : nat :=
  foldr (fun c acc => length (chunk_markers c) + acc) 0 cs.
Definition total_projections_of (cs : list chunk) : nat :=
  foldr (fun c acc => total_projections c + acc) 0 cs.

Definition coordinate_systems (cs : list chunk) : gset string :=
  list_to_set (omap chunk_crs cs).

Definition camera_mismatch_warning (expected got : nat) : string :=
  "  WARNING: Camera count mismatch! Expected " +:+ num expected +:+ ", got " +:+ num got.
Definition camera_validated (n : nat) : string :=
  "  Camera count validated: " +:+ num n.

(** [doc.chunks[-1].label = merged_label]. *)
Fixpoint relabel_last (l : string) (doc : document) : document :=
  match doc with
  | [] => []
  | [c] => [with_label l c]
  | c :: doc' => c :: relabel_last l doc'
  end.

(** The removal loop, with its per-chunk [try]. *)
Definition remove_all (E : api) (doc : document) (out : list string)
    (chunks_to_remove : list chunk) : document * list string :=
  fold_left
    (fun st chunk_to_remove =>
       let '(doc, out) := st in
       match remove E doc chunk_to_remove with
       | Return doc' => (doc', out ++ ["    Removed: " +:+ chunk_label chunk_to_remove])
       | Raise e =>
           (doc, out ++ ["    Error removing " +:+ chunk_label chunk_to_remove
                          +:+ ": " +:+ message e])
       end)
    (rev chunks_to_remove) (doc, out).

(** The validation after the cleanup: everything from [merged_markers = ...]
    to the [return].  The counts are those of the chunk as the merge
    produced it. *)
Definition validate (w : wording) (doc : document) (out : list string)
    (merged_chunk : chunk)
    (total_cameras_before total_markers_before : nat)
  : document * list string * outcome chunk :=
  let merged_markers := length (chunk_markers merged_chunk) in
  let merged_cameras := chunk_cameras merged_chunk in
  let merged_projections := total_projections merged_chunk in
  let out := out ++
    ["  Final result: " +:+ num (length doc) +:+ " chunk, " +:+ num merged_cameras
     +:+ " cameras, " +:+ num merged_markers +:+ " markers, "
     +:+ num merged_projections +:+ " total projections"] in
  let out := out ++
    [if negb (merged_cameras =? total_cameras_before)
     then camera_mismatch_warning total_cameras_before merged_cameras
     else camera_validated merged_cameras] in
  let out := out ++
    ["  Marker consolidation: " +:+ num total_markers_before +:+ " -> "
     +:+ num merged_markers +:+ " (duplicates merged)"] in
  if merged_projections =? 0 then
    (doc, out, Raise (RuntimeError "No marker projections found after merge!"))
  else
    (doc, out ++ ["  " +:+ tag w +:+ " merge validation completed successfully"],
     Return merged_chunk).

(** The body of the [try]. *)
Definition merge_body (w : wording) (E : api) (doc : document) (out : list string)
    (chunks_to_merge : list chunk) (chunks_before_merge : nat)
    (total_cameras_before total_markers_before : nat)
  : document * list string * outcome chunk :=
  let aligned :=
    if 1 <? size (coordinate_systems chunks_to_merge) then
      let out := out ++ ["  Aligning chunks (multiple coordinate systems detected)..."] in
      match alignChunks E doc chunks_to_merge with
      | Return doc' => (doc', out ++ ["  Chunks aligned successfully"], None)
      | Raise e => (doc, out, Some e)
      end
    else (doc, out ++ ["  All chunks use same coordinate system - no alignment needed"], None) in
  let '(doc, out, raised) := aligned in
  match raised with
  | Some e => (doc, out, Raise e)
  | None =>
      match mergeChunks E doc chunks_to_merge with
      | Raise e => (doc, out, Raise e)
      | Return doc =>
          let out := out ++ ["  " +:+ tag w +:+ " chunks merged successfully"] in
          let chunks_after_merge := length doc in
          let out := out ++
            ["  Chunks after merge: " +:+ num chunks_after_merge
             +:+ " (was " +:+ num chunks_before_merge +:+ ")"] in
          if chunks_after_merge <=? chunks_before_merge then
            (doc, out, Raise (RuntimeError "No new chunk created during merge!"))
          else
            let doc := relabel_last (merged_label w) doc in
            match last doc with
            | None => (doc, out, Raise (RuntimeError "list index out of range"))
            | Some merged_chunk =>
                let out := out ++
                  ["  New merged " +:+ tag w +:+ " chunk created: " +:+ chunk_label merged_chunk;
                   "  Removing " +:+ num (length chunks_to_merge) +:+ " original chunks..."] in
                let chunks_to_remove :=
                  filter (fun original_chunk => in_document original_chunk doc)
                         chunks_to_merge in
                let '(doc, out) := remove_all E doc out chunks_to_remove in
                let out := out ++
                  ["  Successfully removed " +:+ num (length chunks_to_remove)
                   +:+ " original chunks"] in
                let final_chunk_count := length doc in
                let out :=
                  if negb (final_chunk_count =? 1) then
                    out ++ ["  WARNING: Expected 1 chunk after cleanup, found "
                            +:+ num final_chunk_count]
                        ++ (if list_remaining w
                            then "  Remaining chunks:" ::
                                 imap (fun i c => "    " +:+ num (i + 1) +:+ ". " +:+ chunk_label c) doc
                            else [])
                  else
                    out ++ ["  Cleanup verified: Only merged " +:+ tag w +:+ " chunk remains"] in
                validate w doc out merged_chunk total_cameras_before total_markers_before
            end
      end
  end.

(** Returns the document afterwards, the console output and the result. *)
Definition merge_chunks_with_validation (w : wording) (E : api) (doc : document)
    (chunks_to_merge : list chunk) : document * list string * outcome chunk :=
  let out := [nl +:+ "Merging " +:+ num (length chunks_to_merge) +:+ " " +:+ tag w
            +:+ " chunks..."] in
  let total_markers_before := total_markers chunks_to_merge in
  let total_projections_before := total_projections_of chunks_to_merge in
  let total_cameras_before := total_cameras chunks_to_merge in
  let chunks_before_merge := length doc in
  let out := out ++
    ["  Before merge: " +:+ num (length chunks_to_merge) +:+ " chunks, "
     +:+ num total_cameras_before +:+ " cameras, " +:+ num total_markers_before
     +:+ " markers, " +:+ num total_projections_before +:+ " total projections"] in
  let systems := coordinate_systems chunks_to_merge in
  let out := out ++
    ["  Coordinate systems found: " +:+ num (size systems)]
    ++ map (fun crs => "    " +:+ crs) (elements systems) in
  match merge_body w E doc out chunks_to_merge chunks_before_merge
                   total_cameras_before total_markers_before with
  | (doc, out, Return merged_chunk) => (doc, out, Return merged_chunk)
  | (doc, out, Raise e) =>
      (doc, out, Raise (RuntimeError (tag w +:+ " chunk merge failed: " +:+ message e)))
  end.

(** The merge step of [process_combined_routes]: either the merged chunk
    to go on with, or [return False]. *)
Definition merge_step (w : wording) (E : api) (doc : document)
    (imported_chunks : list chunk) : list string * (chunk + bool) :=
  match merge_chunks_with_validation w E doc imported_chunks with
  | (_, out, Return merged_chunk) => (out, inl merged_chunk)
  | (_, out, Raise e) =>
      (out ++ ["ERROR during " +:+ tag w +:+ " chunk merge: " +:+ message e;
               "Stopping processing due to merge failure."],
       inr false)
  end.

End Merge.

(** ** Two engines for the merge examples *)

Module MergeScenario.

Import Py Engine.

Definition gcp (l : string) (n : nat) : marker :=
  {| marker_label := l; marker_projections := n; marker_enabled := true |}.

Definition route_chunk (id cams : nat) (l : string) (ms : list marker) : chunk :=
  {| chunk_id := id; chunk_label := l; chunk_cameras := cams;
     chunk_markers := ms; chunk_crs := Some "EPSG::4258" |}.

Definition imported : list chunk :=
  [ route_chunk 1 10 "Route_001_RGB" [gcp "P1" 3; gcp "P2" 2];
    route_chunk 2 12 "Route_002_RGB" [gcp "P1" 4] ].

(** An engine whose merge appends one chunk with the given cameras and
    markers, and whose other operations succeed. *)
Definition merging_to (cams : nat) (ms : list marker) : api :=
  {| alignChunks := fun doc _ => Return doc;
     mergeChunks := fun doc _ =>
       Return (doc ++ [{| chunk_id := 100; chunk_label := "Merged Chunk";
                          chunk_cameras := cams; chunk_markers := ms;
                          chunk_crs := Some "EPSG::4258" |}]);
     remove := fun doc c => Return (List.filter (fun d => negb (same_chunk c d)) doc) |}.

(** All cameras and projections arrive. *)
Definition faithful : api := merging_to 22 [gcp "P1" 7; gcp "P2" 2].
(** Two cameras and all projections are lost. *)
Definition lossy : api := merging_to 20 [gcp "P1" 0; gcp "P2" 0].

End MergeScenario.

(** ** process_combined_routes: argument defaults and Step 0 *)

Module Entry.

Import Py Os.

(** The module-level configuration of a multi-route script. *)
Record globals := {
  dcim_base_path : option string;
  gcp_base_path : option string;
  output_base_path : option string;
  routes_to_combine : list string
}.

(** The keyword arguments; [None] is an omitted (or explicit [None])
    argument. *)
Record arguments := {
  route_numbers : option (list string);
  dcim_path : option string;
  gcp_path : option string;
  output_path : option string
}.

(** The four local variables after the [if ... is None] lines. *)
Record resolved := {
  r_route_numbers : list string;
  r_dcim_path : option string;
  r_gcp_path : option string;
  r_output_path : option string
}.

Definition or_else {A} (arg : option A) (fallback : option A) : option A :=
  match arg with
  | None => fallback
  | Some _ => arg
  end.

(** rgb_combined_automation_generic.py and ms_combined_automation_generic.py. *)
Definition resolve_with_gcp_base (g : globals) (a : arguments) : resolved :=
  let route_numbers := default (routes_to_combine g) (route_numbers a) in
  let dcim_path := or_else (dcim_path a) (dcim_base_path g) in
  let gcp_path := or_else (gcp_path a) (gcp_base_path g) in
  let output_path := or_else (output_path a) (output_base_path g) in
  {| r_route_numbers := route_numbers; r_dcim_path := dcim_path;
     r_gcp_path := gcp_path; r_output_path := output_path |}.

(** rgb_ms_combined_automation_generic.py:
    [if gcp_path is None: gcp_path = output_path], executed before
    [output_path] receives its own default. *)
Definition resolve_rgb_ms (g : globals) (a : arguments) : resolved :=
  let route_numbers := default (routes_to_combine g) (route_numbers a) in
  let dcim_path := or_else (dcim_path a) (dcim_base_path g) in
  let gcp_path := or_else (gcp_path a) (output_path a) in
  let output_path := or_else (output_path a) (output_base_path g) in
  {| r_route_numbers := route_numbers; r_dcim_path := dcim_path;
     r_gcp_path := gcp_path; r_output_path := output_path |}.

(** [not dcim_path or not gcp_path or not output_path or not route_numbers]. *)
Definition incomplete (r : resolved) : bool :=
  negb (truthy (r_dcim_path r)) || negb (truthy (r_gcp_path r))
  || negb (truthy (r_output_path r))
  || match r_route_numbers r with [] => true | _ => false end.

(** Why [process_combined_routes] returned [False] before creating the
    engine document. *)
Variant stop :=
| ConfigurationIncomplete
| RouteDiscoveryFailed
| RouteValidationFailed
| FatalError (e : exn).

(** A route that passed [validate_routes_and_gcps]. *)
Record validated (R : Type) := {
  v_route : R;
  v_gcp_path : string;
  v_name : string
}.
Arguments v_route {R} _.
Arguments v_gcp_path {R} _.
Arguments v_name {R} _.

Section Step0.
Context {R : Type} (route_number : R -> string).
(** The script's [find_routes_by_numbers], the suffix of its GCP file
    names and of its chunk names. *)
Variable find_routes_by_numbers : view -> list string -> string -> outcome (list R).
Variables (gcp_suffix name_suffix : string).

Definition get_gcp_file_path (fs : view) (route_number gcp_base_path : string) : string :=
  fs_join fs gcp_base_path ("gcp_route_" +:+ route_number +:+ gcp_suffix +:+ ".xml").

Definition validate_routes_and_gcps (fs : view) (routes : list R)
    (gcp_base_path : string) : list (validated R) :=
  fold_left
    (fun valid_routes route =>
       let route_num := route_number route in
       let gcp_path := get_gcp_file_path fs route_num gcp_base_path in
       if negb (fs_exists fs gcp_path) then valid_routes
       else valid_routes ++
              [{| v_route := route; v_gcp_path := gcp_path;
                  v_name := "Route_" +:+ route_num +:+ name_suffix |}])
    routes [].

(** From the configuration check to the end of the route validation.
    [inl] is a [return False] reached before any engine call; [inr] holds
    the routes that passed the validation.  The script goes on with them to
    set up its project folder ([CombinedRun.process_combined_routes]). *)
Definition step0 (fs : view) (r : resolved)
  : stop + (resolved * list (validated R)) :=
  if incomplete r then inl ConfigurationIncomplete
  else
    match r_dcim_path r, r_gcp_path r with
    | Some dcim_path, Some gcp_path =>
        match find_routes_by_numbers fs (r_route_numbers r) dcim_path with
        | Raise e => inl (FatalError e)
        | Return [] => inl RouteDiscoveryFailed
        | Return found_routes =>
            match validate_routes_and_gcps fs found_routes gcp_path with
            | [] => inl RouteValidationFailed
            | valid_routes => inr (r, valid_routes)
            end
        end
    | _, _ => inl ConfigurationIncomplete
    end.
End Step0.

End Entry.

Module RgbCombinedEntry.
Import Py Os Entry.
Definition process_combined_routes (fs : view) (g : globals) (a : arguments) :=
  step0 RgbCombined.route_number RgbCombinedLookup.find_routes_by_numbers "" "_RGB"
        fs (resolve_with_gcp_base g a).
End RgbCombinedEntry.

Module MsCombinedEntry.
Import Py Os Entry.
Definition process_combined_routes (fs : view) (g : globals) (a : arguments) :=
  step0 MsCombined.route_number MsCombined.find_routes_by_numbers "_MS" "_MS"
        fs (resolve_with_gcp_base g a).
End MsCombinedEntry.

Module RgbMsCombinedEntry.
Import Py Os Entry.
Definition process_combined_routes (fs : view) (g : globals) (a : arguments) :=
  step0 RgbMsCombined.route_number RgbMsCombined.find_routes_by_numbers "" "_RGB_MS"
        fs (resolve_rgb_ms g a).
End RgbMsCombinedEntry.

(** ** The naming grammar and the tier policy in the specification's words *)

Module Policy.

Import Py Os.

Definition all_digits (s : string) : Prop := forallb_string is_digit s = true.

(** [folder] reads [DJI_<12 to 14 digits>_<3 digits>_<anything>] and
    [route] is its 3-digit part. *)
Definition route_folder_name (folder route : string) : Prop :=
  exists ts tail,
    folder = "DJI_" +:+ ts +:+ "_" +:+ route +:+ "_" +:+ tail
    /\ all_digits ts /\ 12 <= String.length ts <= 14
    /\ all_digits route /\ String.length route = 3.

(** The first non-empty tier, and nothing from the tiers after it. *)
Fixpoint first_nonempty {A} (tiers : list (list A)) : list A :=
  match tiers with
  | [] => []
  | [] :: rest => first_nonempty rest
  | t :: _ => t
  end.

(** The three RGB tiers: [*_D.JPG], then [*D.JPG], then [*.JPG] plus
    [*.jpg]. *)
Definition rgb_tiers (fs : view) (folder_path : string) : list (list string) :=
  [ fs_glob fs folder_path "*_D.JPG";
    fs_glob fs folder_path "*D.JPG";
    fs_glob fs folder_path "*.JPG" ++ fs_glob fs folder_path "*.jpg" ].

End Policy.

(** ** The multispectral file grammar and the capture sets in the
    specification's words *)

Module MsPolicy.

Import Py Os.

Definition all_word (s : string) : Prop := forallb_string is_word s = true.

(** [name] reads [DJI_<14 digits>_<digits>_MS_<band>.TIF<anything>], its
    letters in either case; [timestamp], [sequence] and [band] are the
    three parts as they are written in the name. *)
Definition ms_file_name (name timestamp sequence band : string) : Prop :=
  exists dji ms tif tail,
    name = dji +:+ timestamp +:+ "_" +:+ sequence +:+ ms +:+ band +:+ tif +:+ tail
    /\ lower dji = "dji_" /\ lower ms = "_ms_" /\ lower tif = ".tif"
    /\ Policy.all_digits timestamp /\ String.length timestamp = 14
    /\ Policy.all_digits sequence /\ sequence <> ""
    /\ all_word band /\ band <> "".

(** The file at [file_path] is an image of band [band], in upper case, of
    the capture [(timestamp, sequence)]. *)
Definition shows (fs : view) (file_path timestamp sequence band : string) : Prop :=
  exists b, ms_file_name (fs_basename fs file_path) timestamp sequence b
            /\ upper b = band.

(** Some listed file is an image of that band of that capture. *)
Definition has_band (fs : view) (ms_files : list string)
    (timestamp sequence band : string) : Prop :=
  exists f, f ∈ ms_files /\ shows fs f timestamp sequence band.

(** The four bands of a complete capture set, in their canonical order. *)
Definition bands : list string := ["G"; "NIR"; "R"; "RE"].

(** The bands of the capture among the listed files are exactly the four. *)
Definition complete (fs : view) (ms_files : list string)
    (timestamp sequence : string) : Prop :=
  forall band, has_band fs ms_files timestamp sequence band <-> band ∈ bands.

(** [n] of the listed files are images of band [band], of whatever
    capture. *)
Inductive band_count (fs : view) (band : string) : list string -> nat -> Prop :=
| count_nil : band_count fs band [] 0
| count_in f l n :
    (exists timestamp sequence, shows fs f timestamp sequence band) ->
    band_count fs band l n -> band_count fs band (f :: l) (S n)
| count_out f l n :
    ~ (exists timestamp sequence, shows fs f timestamp sequence band) ->
    band_count fs band l n -> band_count fs band (f :: l) n.

End MsPolicy.

(** ** The camera check of the merge in the specification's words *)

Module MergePolicy.

Import Py.

(** The cameras of the chunks that go into the merge. *)
Definition cameras_before (chunks : list Engine.chunk) : nat :=
  list_sum (map Engine.chunk_cameras chunks).

(** A console line that reports on the camera count across the merge: the
    mismatch warning or the confirmation. *)
Definition is_camera_report (line : string) : bool :=
  startswith line "  WARNING: Camera count mismatch!"
  || startswith line "  Camera count validated:".

End MergePolicy.

(** ** Concrete directories used in the examples *)

Module Scenario.

Import Py Os.

(** An output directory in which route 005 was processed before. *)
Definition processed_005 : Versioner.outdir :=
  {[ "route_005_RGB" := Versioner.Dir ["route_005_RGB.psx"; "route_005_RGB.files"] ]}.

(** An output directory holding an empty folder for route 005. *)
Definition empty_005_combined : Versioner.outdir :=
  {[ "route_005_Combined" := Versioner.Dir [] ]}.

Definition dcim_root : string := "/data/DCIM".

(** Route 001 with ten RGB images, route 002 without images, and a file. *)
Definition survey : dcim_tree :=
  [ ("DJI_202401010800_001_x",
     Some ["DJI_20240101080001_0001_D.JPG"; "DJI_20240101080002_0002_D.JPG";
           "DJI_20240101080003_0003_D.JPG"; "DJI_20240101080004_0004_D.JPG";
           "DJI_20240101080005_0005_D.JPG"; "DJI_20240101080006_0006_D.JPG";
           "DJI_20240101080007_0007_D.JPG"; "DJI_20240101080008_0008_D.JPG";
           "DJI_20240101080009_0009_D.JPG"; "DJI_20240101080010_0010_D.JPG"]);
    ("DJI_202401010800_002_x", Some []);
    ("notes.txt", None) ].

(** Two flights of the same route on different days. *)
Definition repeated_route : dcim_tree :=
  [ ("DJI_202401010800_001_a", Some ["DJI_20240101080001_0001_D.JPG"]);
    ("DJI_202401020900_001_b", Some ["DJI_20240102090001_0001_D.JPG"]) ].

(** A folder holding one [_D] image and one other JPG. *)
Definition mixed_jpgs : dcim_tree :=
  [ ("DJI_202401010800_001_x",
     Some ["DJI_20240101080001_0001_D.JPG"; "preview.JPG"]) ].

(** Two capture sets of four bands each. *)
Definition eight_bands : list string :=
  ["DJI_20240101080001_0001_MS_G.TIF"; "DJI_20240101080001_0001_MS_NIR.TIF";
   "DJI_20240101080001_0001_MS_R.TIF"; "DJI_20240101080001_0001_MS_RE.TIF";
   "DJI_20240101080002_0002_MS_G.TIF"; "DJI_20240101080002_0002_MS_NIR.TIF";
   "DJI_20240101080002_0002_MS_R.TIF"; "DJI_20240101080002_0002_MS_RE.TIF"].

(** Routes 001 and 002, each with RGB and multispectral images. *)
Definition two_routes : dcim_tree :=
  [ ("DJI_202401010800_001_x",
     Some ("DJI_20240101080001_0001_D.JPG" :: eight_bands));
    ("DJI_202401010800_002_x",
     Some ("DJI_20240101090001_0001_D.JPG" :: eight_bands)) ].

(** A view in which the given further paths exist as well. *)
Definition also_existing (extra : list string) (v : view) : view :=
  {| fs_exists := fun p => existsb (String.eqb p) extra || fs_exists v p;
     fs_isdir := fs_isdir v;
     fs_listdir := fs_listdir v;
     fs_glob := fs_glob v;
     fs_join := fs_join v;
     fs_basename := fs_basename v |}.

Definition configured : Entry.globals :=
  {| Entry.dcim_base_path := Some dcim_root;
     Entry.gcp_base_path := Some "/data/GCP";
     Entry.output_base_path := Some "/data/out";
     Entry.routes_to_combine := ["001"; "002"] |}.

Definition no_arguments : Entry.arguments :=
  {| Entry.route_numbers := None; Entry.dcim_path := None;
     Entry.gcp_path := None; Entry.output_path := None |}.

End Scenario.

(** ** configure_paths, configure_routes, validate_configuration and the
    run_combined_*_automation entry points of the three multi-route scripts *)

Module Configure.

Import Py Entry.

(** The module-level values when the script has just been loaded. *)
Definition unconfigured : globals :=
  {| dcim_base_path := None; gcp_base_path := None; output_base_path := None;
     routes_to_combine := [] |}.

(** [configure_paths(dcim, gcp, output)]: the three globals are assigned
    whatever is passed ([None] included). *)
Definition configure_paths (dcim gcp output : option string) (g : globals) : globals :=
  {| dcim_base_path := dcim; gcp_base_path := gcp; output_base_path := output;
     routes_to_combine := routes_to_combine g |}.

(** [if arg: global = arg]. *)
Definition updated (arg old : option string) : option string :=
  if truthy arg then arg else old.

(** [configure_routes(route_numbers, dcim_path=None, gcp_path=None,
    output_path=None)]. *)
Definition configure_routes (route_numbers : list string)
    (dcim_path gcp_path output_path : option string) (g : globals) : globals :=
  {| dcim_base_path := updated dcim_path (dcim_base_path g);
     gcp_base_path := updated gcp_path (gcp_base_path g);
     output_base_path := updated output_path (output_base_path g);
     routes_to_combine := route_numbers |}.

(** [validate_configuration()] returns [True] or raises a [ValueError]
    with a message. *)
Variant checked :=
| Valid
| ValueError (message : string).

Definition validate_configuration (g : globals) : checked :=
  if negb (truthy (dcim_base_path g)) then
    ValueError "DCIM path not configured. Use configure_paths() or configure_routes()"
  else if negb (truthy (gcp_base_path g)) then
    ValueError "GCP path not configured. Use configure_paths() or configure_routes()"
  else if negb (truthy (output_base_path g)) then
    ValueError "Output path not configured. Use configure_paths() or configure_routes()"
  else match routes_to_combine g with
       | [] => ValueError "Routes not configured. Use configure_routes()"
       | _ => Valid
       end.

(** A call of [process_combined_routes()] without arguments. *)
Definition omitted : arguments :=
  {| route_numbers := None; dcim_path := None; gcp_path := None; output_path := None |}.

(** [validate_configuration(); return process_combined_routes()]: [inl] is
    the message of the [ValueError] that escapes, [inr] what
    [process_combined_routes()] returned. *)
Definition run_combined {A} (process_combined_routes : globals -> arguments -> A)
    (g : globals) : string + A :=
  match validate_configuration g with
  | ValueError message => inl message
  | Valid => inr (process_combined_routes g omitted)
  end.

Definition run_combined_rgb_automation (fs : Os.view) (g : globals) :=
  run_combined (RgbCombinedEntry.process_combined_routes fs) g.

Definition run_combined_ms_automation (fs : Os.view) (g : globals) :=
  run_combined (MsCombinedEntry.process_combined_routes fs) g.

Definition run_combined_rgb_ms_automation (fs : Os.view) (g : globals) :=
  run_combined (RgbMsCombinedEntry.process_combined_routes fs) g.

End Configure.

(** ** verify_saved_products (identical in the three single-route scripts) *)

Module Verify.

Import Py.

(** What the function reads from [test_doc.chunks[0]]. *)
Record saved_chunk := {
  camera_transforms : list bool;  (* [bool(cam.transform)] for each camera *)
  tie_points : option nat;        (* [tie_points.point_count], [None] when falsy *)
  point_cloud : option nat;       (* [point_cloud.point_count], [None] when falsy *)
  depth_maps : option nat;        (* [len(depth_maps.keys())], [None] when falsy *)
  markers : nat                   (* [len(test_chunk.markers)] *)
}.

Definition missing_unless (present : bool) (product : string) : list string :=
  if present then [] else [product].

Definition positive (count : option nat) : bool :=
  match count with
  | Some n => 0 <? n
  | None => false
  end.

(** [products_missing] after the five checks. *)
Definition products_missing (test_chunk : saved_chunk) : list string :=
  let aligned_cameras := length (filter (fun t => t = true) (camera_transforms test_chunk)) in
  missing_unless (0 <? aligned_cameras) "Camera alignment"
  ++ missing_unless (positive (tie_points test_chunk)) "Tie points"
  ++ missing_unless (positive (point_cloud test_chunk)) "Point cloud"
  ++ missing_unless (positive (depth_maps test_chunk)) "Depth maps"
  ++ missing_unless (0 <? markers test_chunk) "GCP markers".

Definition critical_products : list string := ["Camera alignment"; "Point cloud"].

(** [[p for p in products_missing if any(cp in p for cp in critical_products)]]. *)
Definition critical_missing (test_chunk : saved_chunk) : list string :=
  filter (fun p => existsb (fun cp => contains p cp) critical_products)
         (products_missing test_chunk).

(** The result, given what [test_doc.open(project_path)] and the reads
    that follow produce: the chunks of the reopened project, or an
    exception. *)
Definition verify_saved_products (opened : outcome (list saved_chunk)) : bool :=
  match opened with
  | Raise _ => false
  | Return [] => false
  | Return (test_chunk :: _) =>
      match critical_missing test_chunk with
      | [] => true
      | _ => false
      end
  end.

End Verify.

(** ** The single-route processing functions

    The engine is an oracle over the calls made so far: whether the next
    call raises, and what the script reads from the chunk afterwards.
    Reading an attribute does not raise; console output is left out. *)

Module Pipeline.

Import Py Os.

(** The engine calls of the scripts.  Apart from the downscale of
    [matchPhotos], all scripts pass the same settings to the processing
    calls. *)
Inductive op :=
| NewDocument                                 (* Metashape.Document() *)
| AddChunk                                    (* doc.addChunk() *)
| SetLabel (label : string)                   (* chunk.label = label *)
| SetCrs (definition : string)                (* chunk.crs = CoordinateSystem(definition) *)
| AddPhotos (files : list string)             (* chunk.addPhotos(files) *)
| AddPhotosMulticamera (files : list string)  (* ..., layout=MulticameraLayout *)
| ClearCameraGroup (i : nat)                  (* chunk.cameras[i].group = None *)
| ImportMarkers (path : string)               (* chunk.importMarkers(path=path) *)
| SaveChunk (path : string)                   (* doc.save(path, chunks=[chunk]) *)
| MatchPhotos (downscale : nat)                (* chunk.matchPhotos(downscale=..., ...) *)
| AlignCameras
| BuildDepthMaps
| BuildPointCloud
| BuildModel
| BuildTexture
| BuildDem
| BuildOrthomosaic
| ExportOrthomosaic (path : string)           (* chunk.exportRaster(path, ...) *)
| ExportDem (path : string)                   (* chunk.exportRaster(path, ElevationData, ...) *)
| ExportPoints (path : string)
| ExportReport (path : string)
| OnDocument (c : Engine.call)                (* a call of enhanced_save_project *)
| OpenProject (path : string).                (* Document().open(path) *)

Definition history := list op.

Record engine := {
  raises : history -> op -> option exn;
  cameras : history -> nat;                   (* len(chunk.cameras) *)
  aligned_cameras : history -> nat;           (* cameras with a transform *)
  markers : history -> list bool;             (* marker.reference.enabled, per marker *)
  has_point_cloud : history -> bool;          (* bool(chunk.point_cloud) *)
  chunk_in_doc : history -> bool;             (* chunk in doc.chunks *)
  reopened : history -> string -> outcome (list Verify.saved_chunk)
}.

(** A computation that makes engine calls and returns or raises. *)
Definition M (A : Type) : Type := history -> history * outcome A.

Definition ret {A} (a : A) : M A := fun h => (h, Return a).

Definition raise {A} (e : exn) : M A := fun h => (h, Raise e).

Definition bind {A B} (m : M A) (k : A -> M B) : M B :=
  fun h =>
    match m h with
    | (h', Return a) => k a h'
    | (h', Raise e) => (h', Raise e)
    end.

(** [try: m except Exception as e: handler(e)]. *)
Definition try_except {A} (m : M A) (handler : exn -> M A) : M A :=
  fun h =>
    match m h with
    | (h', Raise e) => handler e h'
    | r => r
    end.

Definition call (E : engine) (o : op) : M unit :=
  fun h =>
    (h ++ [o], match raises E h o with
               | Some e => Raise e
               | None => Return tt
               end).

Definition read {A} (f : history -> A) : M A := fun h => (h, Return (f h)).

Declare Scope pipeline_scope.
Delimit Scope pipeline_scope with pipeline.
Notation "x <- m ;; k" := (bind m (fun x => k))
  (at level 20, m at level 99, k at level 200, only parsing) : pipeline_scope.
Notation "m ;; k" := (bind m (fun _ => k))
  (at level 100, k at level 200, only parsing, right associativity) : pipeline_scope.
Local Open Scope pipeline_scope.

(** [for x in l: f(x)]. *)
Fixpoint for_each {A} (l : list A) (f : A -> M unit) : M unit :=
  match l with
  | [] => ret tt
  | x :: l' => f x ;; for_each l' f
  end.

(** enhanced_save_project of the single-route scripts, on this engine. *)
Definition saver_of (E : engine) : Engine.saver history :=
  {| Engine.chunk_in_doc := chunk_in_doc E;
     Engine.run := fun h c => (h ++ [OnDocument c], raises E h (OnDocument c)) |}.

Definition enhanced_save_project (E : engine) (project_path step_name : string)
  : M bool :=
  fun h =>
    let res := Save.enhanced_save_project_single (saver_of E) h project_path step_name in
    (Save.final res, Save.returned res).

Definition verify_saved_products (E : engine) (project_path : string) : M bool :=
  fun h =>
    (h ++ [OpenProject project_path],
     Return (Verify.verify_saved_products (reopened E h project_path))).

Section Scripts.
Variables (pf : platform) (fs : view) (E : engine).

(** [import_gcps_from_xml] of rgb_single ([kind] and [suffix] empty) and
    [import_gcps_from_xml_ms] of ms_automation ([kind] is ["MS "], [suffix]
    is ["_MS"]). *)
Definition import_gcps (kind suffix route_number gcp_base_path : string)
  : M (nat * nat) :=
  let gcp_filename := "gcp_route_" +:+ route_number +:+ suffix +:+ ".xml" in
  let gcp_file_path := join pf gcp_base_path gcp_filename in
  if negb (fs_exists fs gcp_file_path) then
    raise (FileNotFoundError
             (kind +:+ "GCP file not found for route " +:+ route_number +:+ ": "
              +:+ gcp_file_path))
  else
    try_except
      (call E (ImportMarkers gcp_file_path) ;;
       ms <- read (markers E) ;;
       ret (length ms, length (filter (fun enabled => enabled = true) ms)))
      (fun e =>
         raise (RuntimeError
                  ("Error importing " +:+ kind +:+ "GCPs from " +:+ gcp_file_path
                   +:+ ": " +:+ Engine.message e))).

Definition import_gcps_from_xml := import_gcps "" "".
Definition import_gcps_from_xml_ms := import_gcps "MS " "_MS".

(** The [try] block of [process_rgb_route] with its [except]. *)
Definition process_rgb_route_try (route_number : string) (image_files : list string)
    (gcp_base_path project_path project_full_path : string) : M bool :=
  try_except
    (call E NewDocument ;;
     call E AddChunk ;;
     call E (SetLabel ("Route_" +:+ route_number +:+ "_RGB")) ;;
     call E (SetCrs "EPSG::4326") ;;
     call E (AddPhotos image_files) ;;
     n <- read (cameras E) ;;
     if n =? 0 then ret false
     else
       gcps <- try_except
                 (counts <- import_gcps_from_xml route_number gcp_base_path ;;
                  call E (SetCrs "EPSG::4258") ;;
                  ret (Some counts))
                 (fun gcp_error => ret None) ;;
       match gcps with
       | None => ret false
       | Some _ =>
           call E (SaveChunk project_full_path) ;;
           call E (MatchPhotos 1) ;;
           call E (SaveChunk project_full_path) ;;
           call E AlignCameras ;;
           aligned <- read (aligned_cameras E) ;;
           if aligned =? 0 then
             call E (SaveChunk project_full_path) ;;
             ret false
           else
             call E (SaveChunk project_full_path) ;;
             call E BuildDepthMaps ;;
             call E (SaveChunk project_full_path) ;;
             call E BuildPointCloud ;;
             call E (SaveChunk project_full_path) ;;
             call E (ExportReport (join pf project_path "processing_report_RGB.pdf")) ;;
             save_success <- enhanced_save_project E project_full_path "final processing" ;;
             if negb save_success then ret false
             else
               verify_saved_products E project_full_path ;;
               ret true
       end)
    (fun e => ret false).

(** The [try] block of [process_ms_route] with its [except]. *)
Definition process_ms_route_try (route_number : string) (image_files : list string)
    (gcp_base_path project_path project_full_path : string) : M bool :=
  try_except
    (call E NewDocument ;;
     call E AddChunk ;;
     call E (SetLabel ("Route_" +:+ route_number +:+ "_MS")) ;;
     call E (SetCrs "EPSG::4326") ;;
     call E (AddPhotos image_files) ;;
     listed <- read (cameras E) ;;
     for_each (seq 0 listed) (fun i => call E (ClearCameraGroup i)) ;;
     n <- read (cameras E) ;;
     if n =? 0 then ret false
     else
       gcps <- try_except
                 (counts <- import_gcps_from_xml_ms route_number gcp_base_path ;;
                  call E (SetCrs "EPSG::4258") ;;
                  ret (Some counts))
                 (fun gcp_error => ret None) ;;
       match gcps with
       | None => ret false
       | Some _ =>
           call E (SaveChunk project_full_path) ;;
           call E (MatchPhotos 1) ;;
           call E (SaveChunk project_full_path) ;;
           call E AlignCameras ;;
           call E (SaveChunk project_full_path) ;;
           call E BuildDepthMaps ;;
           call E (SaveChunk project_full_path) ;;
           call E BuildPointCloud ;;
           call E (SaveChunk project_full_path) ;;
           call E (ExportReport (join pf project_path "processing_report_MS.pdf")) ;;
           save_success <- enhanced_save_project E project_full_path "final MS processing" ;;
           if negb save_success then ret false
           else
             verify_saved_products E project_full_path ;;
             ret true
       end)
    (fun e => ret false).

(** [import_gcps_from_xml(chunk, gcp_file_path)] of rgb_ms_single: a
    missing file and a failed import both give [False]. *)
Definition import_gcps_optional (gcp_file_path : string) : M bool :=
  if negb (fs_exists fs gcp_file_path) then ret false
  else
    try_except
      (call E (ImportMarkers gcp_file_path) ;; ret true)
      (fun e => ret false).

(** [process_combined_route] of rgb_ms_single. *)
Definition process_combined_route (route_number : string)
    (rgb_images ms_images : list string) (project_folder gcp_file_path : string)
  : M bool :=
  call E NewDocument ;;
  call E AddChunk ;;
  call E (SetLabel ("Route_" +:+ route_number +:+ "_Combined")) ;;
  let all_images := rgb_images ++ ms_images in
  try_except
    (call E (AddPhotosMulticamera all_images) ;;
     let project_file :=
       join pf project_folder ("route_" +:+ route_number +:+ "_combined.psx") in
     call E (SaveChunk project_file) ;;
     import_gcps_optional gcp_file_path ;;
     call E (SetCrs "EPSG::4326") ;;
     call E (SaveChunk project_file) ;;
     call E (MatchPhotos 1) ;;
     call E AlignCameras ;;
     call E (SaveChunk project_file) ;;
     aligned <- read (aligned_cameras E) ;;
     if aligned =? 0 then ret false
     else
       call E BuildDepthMaps ;;
       call E BuildPointCloud ;;
       call E (SaveChunk project_file) ;;
       call E BuildModel ;;
       call E (SaveChunk project_file) ;;
       call E BuildTexture ;;
       call E (SaveChunk project_file) ;;
       call E BuildDem ;;
       call E (SaveChunk project_file) ;;
       call E BuildOrthomosaic ;;
       call E (SaveChunk project_file) ;;
       call E (ExportOrthomosaic
                 (join pf (join pf project_folder "orthomosaic")
                    ("route_" +:+ route_number +:+ "_combined_orthomosaic.tif"))) ;;
       call E (ExportDem
                 (join pf (join pf project_folder "dem")
                    ("route_" +:+ route_number +:+ "_combined_dem.tif"))) ;;
       call E (ExportPoints
                 (join pf (join pf project_folder "pointcloud")
                    ("route_" +:+ route_number +:+ "_combined_pointcloud.las"))) ;;
       call E (ExportReport
                 (join pf (join pf project_folder "report")
                    ("route_" +:+ route_number +:+ "_combined_report.pdf"))) ;;
       save_success <- enhanced_save_project E project_file "final combined processing" ;;
       if negb save_success then ret false
       else
         verify_saved_products E project_file ;;
         ret true)
    (fun e => ret false).

End Scripts.

(** *** The multi-route scripts after Step 0 *)

Section Combined.
Context {R : Type} (route_number : R -> string) (image_files : R -> list string).
Variables (E : engine).
(** The script's word for its images ([RGB], [MS] or [RGB+MS]) and the
    downscale it passes to [matchPhotos] (2 in ms_combined, 1 otherwise). *)
Variables (tag : string) (downscale : nat).
(** [merge_chunks_with_validation(doc, imported_chunks)] on this engine:
    it returns the merged chunk or raises. *)
Variable merge_chunks_with_validation : M unit.

Definition import_route_as_chunk (route_info : Entry.validated R) : M (nat * nat) :=
  let route_num := route_number (Entry.v_route route_info) in
  call E AddChunk ;;
  call E (SetLabel (Entry.v_name route_info)) ;;
  call E (SetCrs "EPSG::4326") ;;
  call E (AddPhotos (image_files (Entry.v_route route_info))) ;;
  n <- read (cameras E) ;;
  if n =? 0 then
    raise (RuntimeError ("No cameras were added for " +:+ tag +:+ " Route " +:+ route_num))
  else
    try_except
      (call E (ImportMarkers (Entry.v_gcp_path route_info)) ;;
       ms <- read (markers E) ;;
       call E (SetCrs "EPSG::4258") ;;
       ret (length ms, length (filter (fun enabled => enabled = true) ms)))
      (fun e =>
         raise (RuntimeError
                  ("Failed to import markers for " +:+ tag +:+ " Route " +:+ route_num
                   +:+ ": " +:+ Engine.message e))).

(** The import loop of [process_combined_routes]; [None] is its
    [return False]. *)
Fixpoint import_routes (valid_routes : list (Entry.validated R))
    (imported : list (nat * nat)) : M (option (list (nat * nat))) :=
  match valid_routes with
  | [] => ret (Some imported)
  | route :: rest =>
      r <- try_except
             (counts <- import_route_as_chunk route ;; ret (Some counts))
             (fun e => ret None) ;;
      match r with
      | None => ret None
      | Some counts => import_routes rest (imported ++ [counts])
      end
  end.

(** [doc.save(project_full_path)]. *)
Definition save_document (project_full_path : string) : M unit :=
  call E (OnDocument (Engine.SavePlain project_full_path)).

(** enhanced_save_project of the multi-route scripts, on this engine. *)
Definition enhanced_save_combined (project_path step_name : string) : M bool :=
  fun h =>
    let res := Save.enhanced_save_project_combined (saver_of E) h project_path step_name in
    (Save.final res, Save.returned res).

(** [process_combined_routes] from [doc = Metashape.Document()] to its
    end, inside the [try] with its [except]; [report_path] is the path
    [generate_processing_report] builds. *)
Definition process_imported (valid_routes : list (Entry.validated R))
    (project_full_path report_path : string) : M bool :=
  try_except
    (call E NewDocument ;;
     imported <- import_routes valid_routes [] ;;
     match imported with
     | None => ret false
     | Some _ =>
         save_document project_full_path ;;
         merged <- try_except (merge_chunks_with_validation ;; ret true)
                              (fun e => ret false) ;;
         if negb merged then ret false
         else
           save_document project_full_path ;;
           call E (MatchPhotos downscale) ;;
           save_document project_full_path ;;
           call E AlignCameras ;;
           aligned <- read (aligned_cameras E) ;;
           if aligned =? 0 then
             save_document project_full_path ;;
             ret false
           else
             save_document project_full_path ;;
             call E BuildDepthMaps ;;
             save_document project_full_path ;;
             call E BuildPointCloud ;;
             generated <- read (has_point_cloud E) ;;
             if negb generated then
               save_document project_full_path ;;
               ret false
             else
               save_document project_full_path ;;
               call E (ExportReport report_path) ;;
               save_success <- enhanced_save_combined project_full_path
                                 ("final " +:+ tag +:+ " processing") ;;
               if negb save_success then ret false else ret true
     end)
    (fun e => ret false).

(** The engine calls of one route's import. *)
Definition import_calls (route_info : Entry.validated R) : list op :=
  [ AddChunk; SetLabel (Entry.v_name route_info); SetCrs "EPSG::4326";
    AddPhotos (image_files (Entry.v_route route_info));
    ImportMarkers (Entry.v_gcp_path route_info); SetCrs "EPSG::4258" ].

End Combined.

(** The engine calls of a complete RGB run up to the final save, in
    order. *)
Definition rgb_stages (route_number : string) (image_files : list string)
    (gcp_file_path project_full_path report_path : string) : list op :=
  [ NewDocument; AddChunk; SetLabel ("Route_" +:+ route_number +:+ "_RGB");
    SetCrs "EPSG::4326"; AddPhotos image_files;
    ImportMarkers gcp_file_path; SetCrs "EPSG::4258";
    SaveChunk project_full_path;
    MatchPhotos 1; SaveChunk project_full_path;
    AlignCameras; SaveChunk project_full_path;
    BuildDepthMaps; SaveChunk project_full_path;
    BuildPointCloud; SaveChunk project_full_path;
    ExportReport report_path ].

(** The engine calls of a complete MS run up to the final save; [listed]
    is the number of cameras after [addPhotos]. *)
Definition ms_stages (route_number : string) (image_files : list string)
    (listed : nat) (gcp_file_path project_full_path report_path : string) : list op :=
  [ NewDocument; AddChunk; SetLabel ("Route_" +:+ route_number +:+ "_MS");
    SetCrs "EPSG::4326"; AddPhotos image_files ]
  ++ map ClearCameraGroup (seq 0 listed)
  ++ [ ImportMarkers gcp_file_path; SetCrs "EPSG::4258";
       SaveChunk project_full_path;
       MatchPhotos 1; SaveChunk project_full_path;
       AlignCameras; SaveChunk project_full_path;
       BuildDepthMaps; SaveChunk project_full_path;
       BuildPointCloud; SaveChunk project_full_path;
       ExportReport report_path ].

(** The engine calls of a complete RGB+MS single-route run up to the final
    save; the marker import is there when the GCP file exists. *)
Definition rgb_ms_stages (pf : platform) (route_number : string)
    (all_images : list string) (gcp_file_exists : bool)
    (project_folder gcp_file_path : string) : list op :=
  let project_file :=
    join pf project_folder ("route_" +:+ route_number +:+ "_combined.psx") in
  [ NewDocument; AddChunk; SetLabel ("Route_" +:+ route_number +:+ "_Combined");
    AddPhotosMulticamera all_images; SaveChunk project_file ]
  ++ (if gcp_file_exists then [ImportMarkers gcp_file_path] else [])
  ++ [ SetCrs "EPSG::4326"; SaveChunk project_file;
       MatchPhotos 1; AlignCameras; SaveChunk project_file;
       BuildDepthMaps; BuildPointCloud; SaveChunk project_file;
       BuildModel; SaveChunk project_file;
       BuildTexture; SaveChunk project_file;
       BuildDem; SaveChunk project_file;
       BuildOrthomosaic; SaveChunk project_file;
       ExportOrthomosaic
         (join pf (join pf project_folder "orthomosaic")
            ("route_" +:+ route_number +:+ "_combined_orthomosaic.tif"));
       ExportDem
         (join pf (join pf project_folder "dem")
            ("route_" +:+ route_number +:+ "_combined_dem.tif"));
       ExportPoints
         (join pf (join pf project_folder "pointcloud")
            ("route_" +:+ route_number +:+ "_combined_pointcloud.las"));
       ExportReport
         (join pf (join pf project_folder "report")
            ("route_" +:+ route_number +:+ "_combined_report.pdf")) ].

Definition is_marker_import (o : op) : bool :=
  match o with
  | ImportMarkers _ => true
  | _ => false
  end.

(** An engine on which every call goes through: [n] cameras, all aligned,
    two enabled markers. *)
Definition cooperative (n : nat) : engine :=
  {| raises := fun _ _ => None;
     cameras := fun _ => n;
     aligned_cameras := fun _ => n;
     markers := fun _ => [true; true];
     has_point_cloud := fun _ => true;
     chunk_in_doc := fun _ => true;
     reopened := fun _ _ => Return [] |}.

(** An engine on which no camera is ever aligned. *)
Definition unaligned (n : nat) : engine :=
  {| raises := fun _ _ => None;
     cameras := fun _ => n;
     aligned_cameras := fun _ => 0;
     markers := fun _ => [true; true];
     has_point_cloud := fun _ => true;
     chunk_in_doc := fun _ => true;
     reopened := fun _ _ => Return [] |}.

(** An engine whose marker import always fails and whose other calls go
    through. *)
Definition rejecting_markers (n : nat) : engine :=
  {| raises := fun _ o =>
       if is_marker_import o then Some (EngineError "cannot read marker file")
       else None;
     cameras := fun _ => n;
     aligned_cameras := fun _ => n;
     markers := fun _ => [];
     has_point_cloud := fun _ => true;
     chunk_in_doc := fun _ => true;
     reopened := fun _ _ => Return [] |}.

End Pipeline.

(** ** The batch functions of rgb_single and ms_automation:
    process_all_routes, process_single_route_by_number and
    process_selected_routes (with their [_ms] twins)

    [W] is whatever a route's processing reads and changes (the output
    directory and the engine); [process_route route] is
    [process_rgb_route(route, output_path, gcp_path)], which returns a
    boolean or raises. *)

Module Batch.

Import Py.

Section Batch.
Context {W R : Type} (route_number : R -> string).
Variable scan_dcim_folders : string -> outcome (list R).
Variable process_route : R -> W -> W * outcome bool.

(** [for route in routes: success = process_route(...); ...], from the
    counters [successful] and [failed]. *)
Fixpoint process_each (routes : list R) (successful failed : nat) (w : W)
  : W * outcome (nat * nat) :=
  match routes with
  | [] => (w, Return (successful, failed))
  | route :: rest =>
      match process_route route w with
      | (w', Raise e) => (w', Raise e)
      | (w', Return success) =>
          if success then process_each rest (successful + 1) failed w'
          else process_each rest successful (failed + 1) w'
      end
  end.

(** [return successful > 0]. *)
Definition summary (r : W * outcome (nat * nat)) : W * outcome bool :=
  match r with
  | (w, Return (successful, _)) => (w, Return (0 <? successful))
  | (w, Raise e) => (w, Raise e)
  end.

Definition process_all_routes (dcim_path : string) (w : W) : W * outcome bool :=
  match scan_dcim_folders dcim_path with
  | Raise e => (w, Raise e)
  | Return [] => (w, Return false)
  | Return routes => summary (process_each routes 0 0 w)
  end.

Definition process_single_route_by_number (route_num : string) (dcim_path : string)
    (w : W) : W * outcome bool :=
  match scan_dcim_folders dcim_path with
  | Raise e => (w, Raise e)
  | Return routes =>
      match Lookup.first_route route_number route_num routes with
      | None => (w, Return false)
      | Some target_route => process_route target_route w
      end
  end.

Definition process_selected_routes (route_numbers : list string) (dcim_path : string)
    (w : W) : W * outcome bool :=
  match scan_dcim_folders dcim_path with
  | Raise e => (w, Raise e)
  | Return [] => (w, Return false)
  | Return routes =>
      match Lookup.collect route_number route_numbers routes with
      | [] => (w, Return false)
      | selected_routes => summary (process_each selected_routes 0 0 w)
      end
  end.
End Batch.

(** A processing function that logs the route it is given and succeeds. *)
Definition logging (route : string) (w : list string) : list string * outcome bool :=
  (w ++ [route], Return true).

End Batch.

(** ** rgb_ms_single_automation_generic.py: scan_dcim_folders_combined *)

Module RgbMsSingleScan.

Import Py Os.

Record entry := {
  rgb_images : list string;
  ms_images : list string;
  dcim_path : string
}.

Definition backslash : ascii := ascii_of_nat 92.

(** [s.replace(old, new)] for single characters. *)
Definition replace_char (old new : ascii) (s : string) : string :=
  map_string (fun c => if char_eqb c old then new else c) s.

(** [s.split(sep)] for a single-character separator. *)
Fixpoint split_on (sep : ascii) (s : string) : list string :=
  match s with
  | EmptyString => [EmptyString]
  | String c s' =>
      if char_eqb c sep then EmptyString :: split_on sep s'
      else match split_on sep s' with
           | part :: parts => String c part :: parts
           | [] => [String c EmptyString]
           end
  end.

(** [re.match(r'^route_\d+', part)] followed by
    [re.search(r'route_(\d+)', part).group(1)]: the search finds its
    leftmost match at position 0, where the greedy [\d+] takes the whole
    digit run. *)
Definition match_route_prefix (part : string) : option string :=
  match strip_prefix "route_" part with
  | Some r =>
      let '(digits, _) := span is_digit r in
      if (1 <=? String.length digits)%nat then Some digits else None
  | None => None
  end.

(** The two tests made on one path part. *)
Definition route_of_part (part : string) : option string :=
  match Grammar.match_route_folder part with
  | Some route_number => Some route_number
  | None => match_route_prefix part
  end.

(** [for part in path_parts: ... break]. *)
Fixpoint route_of_parts (path_parts : list string) : option string :=
  match path_parts with
  | [] => None
  | part :: rest =>
      match route_of_part part with
      | Some route_number => Some route_number
      | None => route_of_parts rest
      end
  end.

Definition is_ms_image (f : string) : bool :=
  (endswith (lower f) ".tif" || endswith (lower f) ".tiff") && contains (upper f) "MS".

(** One [(root, dirs, files)] triple of [os.walk]. *)
Definition walked : Type := string * list string * list string.

(** The route number a walked directory is filed under, if any: the
    [if 'DCIM' in root or any(...)] test and the loop over the path parts. *)
Definition route_of (w : walked) : option string :=
  let '(root, dirs, _) := w in
  if contains root "DCIM" || existsb (fun d => contains d "DJI_") dirs then
    route_of_parts (split_on "/" (replace_char backslash "/" root))
  else None.

Definition rgb_paths (pf : platform) (w : walked) : list string :=
  let '(root, _, files) := w in
  map (join pf root) (RgbMsSingle.rgb_images_of files).

Definition ms_paths (pf : platform) (w : walked) : list string :=
  let '(root, _, files) := w in
  map (join pf root) (filter (fun f => is_ms_image f) files).

(** The body of the [for root, dirs, files in os.walk(base_path)] loop. *)
Definition visit (pf : platform) (dcim_folders : PyDict.t entry) (w : walked)
  : PyDict.t entry :=
  match route_of w with
  | Some route_number =>
      let dcim_folders :=
        if PyDict.mem route_number dcim_folders then dcim_folders
        else PyDict.set route_number
               {| rgb_images := []; ms_images := []; dcim_path := w.1.1 |}
               dcim_folders in
      match PyDict.get route_number dcim_folders with
      | Some e =>
          PyDict.set route_number
            {| rgb_images := rgb_images e ++ rgb_paths pf w;
               ms_images := ms_images e ++ ms_paths pf w;
               dcim_path := dcim_path e |}
            dcim_folders
      | None => dcim_folders
      end
  | None => dcim_folders
  end.

(** [scan_dcim_folders_combined(base_path)], given what
    [os.walk(base_path)] yields (nothing when [base_path] does not
    exist). *)
Definition scan_dcim_folders_combined (pf : platform) (walk : list walked)
  : PyDict.t entry :=
  fold_left (visit pf) walk [].

(** Whether a walked directory is filed under a route number. *)
Definition filed_under (route_number : string) (w : walked) : bool :=
  match route_of w with
  | Some n => String.eqb n route_number
  | None => false
  end.

(** An entry extended by the images of further directories. *)
Definition extended (pf : platform) (e : entry) (ws : list walked) : entry :=
  {| rgb_images := rgb_images e ++ concat (map (rgb_paths pf) ws);
     ms_images := ms_images e ++ concat (map (ms_paths pf) ws);
     dcim_path := dcim_path e |}.

(** The entry of the directories filed under one route number. *)
Definition merged (pf : platform) (ws : list walked) : option entry :=
  match ws with
  | [] => None
  | w :: _ =>
      Some (extended pf {| rgb_images := []; ms_images := []; dcim_path := w.1.1 |} ws)
  end.

End RgbMsSingleScan.

(** ** config_tool_generic.py: the route preview for each processing type *)

Module ConfigPreview.

Import Py Os.

(** A row of [detected_routes]; [counts] holds [rgb_count] and [ms_count],
    which only the rows of type RGB+MS have. *)
Record row := {
  folder_name : string;
  route_number : string;
  image_count : nat;
  type : string;
  counts : option (nat * nat)
}.

(** [find_ms_files]: the exact band patterns, else their lower-case
    variants, else any [*MS*.TIF] / [*ms*.tif]. *)
Definition find_ms_files (fs : view) (folder_path : string) : list string :=
  let ms_files :=
    fold_left (fun ms_files pattern => ms_files ++ fs_glob fs folder_path pattern)
      ["*_MS_G.TIF"; "*_MS_R.TIF"; "*_MS_RE.TIF"; "*_MS_NIR.TIF"] [] in
  let ms_files :=
    match ms_files with
    | [] =>
        fold_left (fun ms_files pattern => ms_files ++ fs_glob fs folder_path pattern)
          ["*_ms_g.tif"; "*_ms_r.tif"; "*_ms_re.tif"; "*_ms_nir.tif"] []
    | _ => ms_files
    end in
  match ms_files with
  | [] => fs_glob fs folder_path "*MS*.TIF" ++ fs_glob fs folder_path "*ms*.tif"
  | _ => ms_files
  end.

(** One iteration of the loop over [os.listdir(dcim_path)]. *)
Definition scan_folder (fs : view) (dcim_path processing_type folder : string)
  : option row :=
  let folder_path := fs_join fs dcim_path folder in
  if fs_isdir fs folder_path then
    match Grammar.match_route_folder folder with
    | Some route_number =>
        if String.eqb processing_type "RGB" then
          match ConfigTool.find_rgb_files fs folder_path with
          | [] => None
          | rgb_files =>
              Some {| folder_name := folder; route_number := route_number;
                      image_count := length rgb_files; type := "RGB";
                      counts := None |}
          end
        else if String.eqb processing_type "MS" then
          match find_ms_files fs folder_path with
          | [] => None
          | ms_files =>
              Some {| folder_name := folder; route_number := route_number;
                      image_count := length ms_files; type := "MS";
                      counts := None |}
          end
        else if String.eqb processing_type "Combined" then
          match ConfigTool.find_rgb_files fs folder_path,
                find_ms_files fs folder_path with
          | (_ :: _) as rgb_files, (_ :: _) as ms_files =>
              Some {| folder_name := folder; route_number := route_number;
                      image_count := length rgb_files + length ms_files;
                      type := "RGB+MS";
                      counts := Some (length rgb_files, length ms_files) |}
          | _, _ => None
          end
        else None
    | None => None
    end
  else None.

Definition scan_dcim_folders (fs : view) (dcim_path processing_type : string)
  : outcome (list row) :=
  if negb (fs_exists fs dcim_path) then Return []
  else
    match fs_listdir fs dcim_path with
    | Raise e => Raise e
    | Return names =>
        Return (sorted route_number
                  (fold_left
                     (fun route_folders folder =>
                        match scan_folder fs dcim_path processing_type folder with
                        | Some r => route_folders ++ [r]
                        | None => route_folders
                        end)
                     names []))
    end.

(** The rows the scripts' own catalogs correspond to. *)
Definition row_of_rgb (r : RgbSingle.route) : row :=
  {| folder_name := RgbSingle.folder_name r;
     route_number := RgbSingle.route_number r;
     image_count := RgbSingle.rgb_count r; type := "RGB"; counts := None |}.

Definition row_of_ms (r : MsCombined.route) : row :=
  {| folder_name := MsCombined.folder_name r;
     route_number := MsCombined.route_number r;
     image_count := MsCombined.image_count r; type := "MS"; counts := None |}.

Definition row_of_rgb_ms (r : RgbMsCombined.route) : row :=
  {| folder_name := RgbMsCombined.folder_name r;
     route_number := RgbMsCombined.route_number r;
     image_count := RgbMsCombined.rgb_count r + RgbMsCombined.ms_count r;
     type := "RGB+MS";
     counts := Some (RgbMsCombined.rgb_count r, RgbMsCombined.ms_count r) |}.

Definition rows_of {R} (f : R -> row) (catalog : outcome (list R)) : outcome (list row) :=
  match catalog with
  | Return routes => Return (map f routes)
  | Raise e => Raise e
  end.

(** [path.replace('\\', '\\\\')] of [build_command_lines]: every backslash
    is doubled. *)
Fixpoint escape_backslashes (path : string) : string :=
  match path with
  | EmptyString => EmptyString
  | String c path' =>
      if char_eqb c RgbMsSingleScan.backslash
      then String c (String c (escape_backslashes path'))
      else String c (escape_backslashes path')
  end.

(** A character that a string literal holds as it is, whether the literal
    is raw or not: no apostrophe (it would end the literal), no line break
    and no NUL (a literal cannot contain them). *)
Definition literal_char (c : ascii) : bool :=
  negb (char_eqb c "'") && negb (code c =? 10) && negb (code c =? 13)
  && negb (code c =? 0).

(** [r'<text>'] is a literal whose value is [text].  The pasted paths have
    every backslash doubled, so no backslash precedes the closing quote. *)
Definition raw_literal (text : string) : bool := forallb_string literal_char text.

(** ['<text>'] is a literal whose value is [text]: a backslash would start
    an escape sequence. *)
Definition plain_literal (text : string) : bool :=
  forallb_string
    (fun c => literal_char c && negb (char_eqb c RgbMsSingleScan.backslash)) text.

(** The pasted texts of the two configuration lines are read back as they
    were pasted. *)
Definition pastes_cleanly (f : ConfigTool.form) : bool :=
  raw_literal (ConfigTool.dcim_path f) && raw_literal (ConfigTool.gcp_path f)
  && raw_literal (ConfigTool.output_path f)
  && forallb plain_literal (ConfigTool.selected_routes f).

(** The module state of a multi-route script after the two configuration
    lines that [build_command_lines] generates,
    [configure_paths(dcim=r'...', gcp=r'...', output=r'...')] and
    [configure_routes(['...', '...'])], have run in a freshly loaded script.
    The lines are text: the paths, with every backslash doubled, and the
    route numbers are pasted between apostrophes.  [None]: the route mode is
    Single, for which other lines are generated, or a pasted text does not
    come back as it was pasted, and the line is then not this call. *)
Definition configured_by (f : ConfigTool.form) : option Entry.globals :=
  if String.eqb (ConfigTool.route_mode f) "Single" then None
  else if pastes_cleanly f then
    Some (Configure.configure_routes (ConfigTool.selected_routes f) None None None
            (Configure.configure_paths
               (Some (escape_backslashes (ConfigTool.dcim_path f)))
               (Some (escape_backslashes (ConfigTool.gcp_path f)))
               (Some (escape_backslashes (ConfigTool.output_path f)))
               Configure.unconfigured))
  else None.
End ConfigPreview.

(** ** Counting the files of a band (ms_automation_generic.py) *)

Module MsSingleCounts.

Import Py Os.

(** Whether a file name parses as an image of the given band. *)
Definition in_band (fs : view) (band file_path : string) : bool :=
  match MsSingle.capture_of fs file_path with
  | Some (_, b) => String.eqb b band
  | None => false
  end.

(** How many files of a list parse as images of the given band. *)
Definition count (fs : view) (band : string) (ms_files : list string) : nat :=
  length (filter (fun file_path => in_band fs band file_path) ms_files).

End MsSingleCounts.

(** ** An engine that cannot remove chunks *)

Module MergeCleanup.

Import Py Engine.

(** The engine [E] with a [remove] that always raises. *)
Definition keeping_originals (E : api) : api :=
  {| alignChunks := alignChunks E;
     mergeChunks := mergeChunks E;
     remove := fun _ _ => Raise (EngineError "chunk is locked") |}.

End MergeCleanup.

(** ** [os.makedirs] that can fail *)

Module Makedirs.

Import Py Os Versioner.

(** [create_project_structure] and its copies where the output base need
    not be a writable directory: [makedirs path] is the exception
    [os.makedirs(path, exist_ok=True)] raises when the folder [path] is
    absent and cannot be created (the output base is a regular file, or
    cannot be written to), [None] when it creates the folder.  On a folder
    that exists, [exist_ok=True] makes the call return. *)
Definition versioned_on (makedirs : string -> option exn) (pf : platform)
    (output_base base : string) (fuel : nat) (out : outdir)
  : option (outcome (project * outdir)) :=
  match versioned pf output_base base fuel out with
  | Some (Return (p, out')) =>
      match out !! project_folder p with
      | Some _ => Some (Return (p, out'))
      | None =>
          match makedirs (project_path p) with
          | Some e => Some (Raise e)
          | None => Some (Return (p, out'))
          end
      end
  | r => r
  end.

(** When [os.makedirs] never fails. *)
Definition always_creates : string -> option exn := fun _ => None.

End Makedirs.

(** ** [posixpath.dirname] *)

Module PosixPath.

Import Py.

Definition is_slash (c : ascii) : bool := char_eqb c "/".

(** Drops the characters up to the first slash; the slash stays. *)
Fixpoint from_slash (s : string) : string :=
  match s with
  | EmptyString => EmptyString
  | String c s' => if is_slash c then s else from_slash s'
  end.

Fixpoint drop_slashes (s : string) : string :=
  match s with
  | EmptyString => EmptyString
  | String c s' => if is_slash c then drop_slashes s' else s
  end.

(** [head = p[:p.rfind('/') + 1]], then [head.rstrip('/')] unless [head]
    consists of slashes only. *)
Definition dirname (p : string) : string :=
  let head := from_slash (rev_string p) in
  match drop_slashes head with
  | EmptyString => rev_string head
  | stripped => rev_string stripped
  end.

End PosixPath.

(** ** The whole single-route RGB run and the whole multi-route run *)

Module SingleRun.

Import Py Os Pipeline.

(** [process_rgb_route(route_info, output_base, gcp_base_path)] on an
    output directory and a history of engine calls: the project folder is
    set up before the [try], so what [create_project_structure] raises
    leaves the function.  [None] is an exhausted fuel. *)
Definition process_rgb_route (pf : platform) (fs : view) (E : engine)
    (makedirs : string -> option exn) (route_info : RgbSingle.route)
    (output_base gcp_base_path : string) (out : Versioner.outdir) (h : history)
  : option (history * outcome bool) :=
  match Makedirs.versioned_on makedirs pf output_base
          ("route_" +:+ RgbSingle.route_number route_info +:+ "_RGB")
          (Versioner.enough out) out with
  | None => None
  | Some (Raise e) => Some (h, Raise e)
  | Some (Return (p, _)) =>
      match RgbSingle.image_files route_info with
      | [] => Some (h, Return false)
      | image_files =>
          Some (process_rgb_route_try pf fs E (RgbSingle.route_number route_info)
                  image_files gcp_base_path (Versioner.project_path p)
                  (Versioner.project_full_path p) h)
      end
  end.

End SingleRun.

Module CombinedRun.

Import Py Os Pipeline.

Section Run.
Context {R : Type} (route_number : R -> string) (image_files : R -> list string).
(** The script's [find_routes_by_numbers], the suffixes of its GCP file
    names, chunk names and project names, its word for its images and the
    downscale it passes to [matchPhotos]. *)
Variable find_routes_by_numbers : view -> list string -> string -> outcome (list R).
Variables (gcp_suffix name_suffix project_suffix tag : string) (downscale : nat).
Variables (pf : platform) (fs : view) (E : engine).
(** [os.makedirs] and [os.path.dirname] of the platform, and the merge on
    this engine. *)
Variable makedirs : string -> option exn.
Variable dirname : string -> string.
Variable merge_chunks_with_validation : M unit.

(** [process_combined_routes] after its argument defaults, on an output
    directory and a history of engine calls.  Everything from Step 0 on is
    inside one [try] whose [except] returns [False]: the lookup and the scan
    behind it, the GCP validation, [diagnose_datasets] (ms_combined and
    rgb_ms_combined; it only prints, and on catalogued routes none of its
    expressions raises), [create_combined_project_structure], and Step 1
    onwards.  [None] is an exhausted fuel. *)
Definition process_combined_routes (r : Entry.resolved) (out : Versioner.outdir)
    (h : history) : option (history * bool) :=
  match Entry.step0 route_number find_routes_by_numbers gcp_suffix name_suffix fs r with
  | inl _ => Some (h, false)
  | inr (_, valid_routes) =>
      match Entry.r_output_path r with
      | None => Some (h, false)
      | Some output_path =>
          let route_list := join_with "_" (Entry.r_route_numbers r) in
          match Makedirs.versioned_on makedirs pf output_path
                  ("combined_routes_" +:+ route_list +:+ project_suffix)
                  (Versioner.enough out) out with
          | None => None
          | Some (Raise e) => Some (h, false)
          | Some (Return (p, _)) =>
              let project_full_path := Versioner.project_full_path p in
              let report_path :=
                join pf (dirname project_full_path)
                  ("processing_report_combined_routes_" +:+ route_list
                   +:+ project_suffix +:+ ".pdf") in
              let '(h', result) :=
                process_imported route_number image_files E tag downscale
                  merge_chunks_with_validation valid_routes project_full_path
                  report_path h in
              Some (h', match result with Return b => b | Raise _ => false end)
          end
      end
  end.
End Run.

(** The three scripts. *)
Definition rgb_combined (pf : platform) (fs : view) (E : engine)
    (makedirs : string -> option exn) (dirname : string -> string) (merge : M unit)
    (g : Entry.globals) (a : Entry.arguments) :=
  process_combined_routes RgbCombined.route_number RgbCombined.image_files
    RgbCombinedLookup.find_routes_by_numbers "" "_RGB" "_RGB" "RGB" 1
    pf fs E makedirs dirname merge (Entry.resolve_with_gcp_base g a).

Definition ms_combined (pf : platform) (fs : view) (E : engine)
    (makedirs : string -> option exn) (dirname : string -> string) (merge : M unit)
    (g : Entry.globals) (a : Entry.arguments) :=
  process_combined_routes MsCombined.route_number MsCombined.image_files
    MsCombined.find_routes_by_numbers "_MS" "_MS" "_MS" "MS" 2
    pf fs E makedirs dirname merge (Entry.resolve_with_gcp_base g a).

Definition rgb_ms_combined (pf : platform) (fs : view) (E : engine)
    (makedirs : string -> option exn) (dirname : string -> string) (merge : M unit)
    (g : Entry.globals) (a : Entry.arguments) :=
  process_combined_routes RgbMsCombined.route_number RgbMsCombined.image_files
    RgbMsCombined.find_routes_by_numbers "" "_RGB_MS" "_RGB_MS" "RGB+MS" 1
    pf fs E makedirs dirname merge (Entry.resolve_rgb_ms g a).

End CombinedRun.

(** ** What a run imported *)

Module Imported.

Import Pipeline.

(** The photo lists handed to [addPhotos], one per imported chunk, in
    order. *)
Definition photos (h : history) : list (list string) :=
  omap (fun o => match o with AddPhotos files => Some files | _ => None end) h.

End Imported.

(* ===================================================================== *)
(** * Part II: properties *)
(* ===================================================================== *)

(** ** Shared facts about loops that append *)

Section AppendLoops.
Context {A B : Type}.

(** A [for] loop that appends at most one element per iteration computes
    an [omap]. *)
Lemma fold_left_append_omap (f : A -> option B) (l : list A) (acc : list B) :
  fold_left (fun acc x => match f x with Some y => acc ++ [y] | None => acc end) l acc
  = acc ++ omap f l.
Proof.
  revert acc. induction l as [|x l IH]; intros acc; simpl.
  - by rewrite app_nil_r.
  - rewrite IH. destruct (f x); simpl; [|done].
    by rewrite <- app_assoc.
Qed.

Lemma fold_left_extend (f : A -> list B) (l : list A) (acc : list B) :
  fold_left (fun acc x => acc ++ f x) l acc = acc ++ concat (map f l).
Proof.
  revert acc. induction l as [|x l IH]; intros acc; simpl.
  - by rewrite app_nil_r.
  - rewrite IH. by rewrite <- app_assoc.
Qed.
End AppendLoops.

(** A property of the accumulator that every iteration preserves holds
    after the loop. *)
Lemma fold_left_invariant {A B : Type} (P : B -> Prop) (f : B -> A -> B)
    (l : list A) (acc : B) :
  P acc -> (forall acc x, P acc -> P (f acc x)) -> P (fold_left f l acc).
Proof.
  intros H0 Hstep. revert acc H0.
  induction l as [|x l IH]; intros acc H0; simpl; [done|].
  apply IH. by apply Hstep.
Qed.

(** ** Route lookup *)

Section LookupFacts.
Context {R : Type} (route_number : R -> string).

Lemma collect_omap route_numbers all_routes :
  Lookup.collect route_number route_numbers all_routes
  = omap (fun n => Lookup.first_route route_number n all_routes) route_numbers.
Proof. unfold Lookup.collect. by rewrite fold_left_append_omap. Qed.

Lemma first_route_existsb n (all_routes : list R) :
  existsb (fun r => String.eqb (route_number r) n) all_routes
  = match Lookup.first_route route_number n all_routes with
    | Some _ => true | None => false end.
Proof.
  unfold Lookup.first_route.
  induction all_routes as [|r l IH]; simpl; [done|].
  destruct (String.eqb (route_number r) n); simpl; [done|apply IH].
Qed.

Lemma collect_length route_numbers all_routes :
  length (Lookup.collect route_number route_numbers all_routes)
  = Lookup.resolved_count route_number route_numbers all_routes.
Proof.
  rewrite collect_omap. unfold Lookup.resolved_count.
  induction route_numbers as [|n l IH]; simpl; [done|].
  rewrite filter_cons, first_route_existsb.
  destruct (Lookup.first_route route_number n all_routes) eqn:E; simpl.
  - f_equal. exact IH.
  - exact IH.
Qed.

Lemma find_in_catalog_few route_numbers all_routes :
  Lookup.resolved_count route_number route_numbers all_routes < 2 ->
  Lookup.find_in_catalog route_number route_numbers all_routes = [].
Proof.
  intros H. unfold Lookup.find_in_catalog.
  destruct all_routes; [done|].
  rewrite collect_length.
  destruct (Nat.ltb_spec (Lookup.resolved_count route_number route_numbers (r :: all_routes)) 2); [done|lia].
Qed.

Lemma find_in_catalog_length route_numbers all_routes :
  Lookup.find_in_catalog route_number route_numbers all_routes = [] \/
  2 <= length (Lookup.find_in_catalog route_number route_numbers all_routes).
Proof.
  unfold Lookup.find_in_catalog. destruct all_routes; [by left|].
  destruct (Nat.ltb_spec
    (length (Lookup.collect route_number route_numbers (r :: all_routes))) 2);
    [by left|by right].
Qed.

(** Step 0 stops when the lookup finds nothing. *)
Lemma step0_stops_on_empty find gs ns fs r dcim :
  Entry.r_dcim_path r = Some dcim ->
  find fs (Entry.r_route_numbers r) dcim = Py.Return [] ->
  exists s, Entry.step0 route_number find gs ns fs r = inl s.
Proof.
  intros Hd Hf. unfold Entry.step0.
  destruct (Entry.incomplete r); [by eexists|].
  rewrite Hd. destruct (Entry.r_gcp_path r); [|by eexists].
  rewrite Hf. by eexists.
Qed.
End LookupFacts.

(** ** Argument defaults of the multi-route entry points *)

Section EntryFacts.
Context {R : Type} (route_number : R -> string).
Variables (gs ns : string) (fs : Os.view).

Lemma validate_routes_paths (routes : list R) (gcp : string) :
  Forall (fun v => Entry.v_gcp_path v
                   = Entry.get_gcp_file_path gs fs (route_number (Entry.v_route v)) gcp)
         (Entry.validate_routes_and_gcps route_number gs ns fs routes gcp).
Proof.
  unfold Entry.validate_routes_and_gcps.
  apply fold_left_invariant; [constructor|].
  intros acc route Hacc. destruct (negb _); [done|].
  apply Forall_app. split; [done|]. by constructor.
Qed.

Lemma step0_proceeds find r r' vs :
  Entry.step0 route_number find gs ns fs r = inr (r', vs) ->
  r' = r /\ exists gcp, Entry.r_gcp_path r = Some gcp /\
    Forall (fun v => Entry.v_gcp_path v
                     = Entry.get_gcp_file_path gs fs (route_number (Entry.v_route v)) gcp) vs.
Proof.
  unfold Entry.step0. destruct (Entry.incomplete r); [done|].
  destruct (Entry.r_dcim_path r) as [dcim|]; [|done].
  destruct (Entry.r_gcp_path r) as [gcp|]; [|done].
  destruct (find fs (Entry.r_route_numbers r) dcim) as [[|x found]|]; [done| |done].
  pose proof (validate_routes_paths (x :: found) gcp) as HF.
  destruct (Entry.validate_routes_and_gcps route_number gs ns fs (x :: found) gcp)
    as [|v vs'] eqn:E; [done|].
  intros [= <- <-]. split; [done|]. by exists gcp.
Qed.
End EntryFacts.

(** C1. In the RGB+MS multi-route script an omitted [gcp_path] takes the
    value of the [output_path] argument (as passed, before [output_path]
    receives its own default) and the configured GCP base path is never
    consulted; when the run gets past Step 0 every GCP file was therefore
    looked up under the output path.  In the RGB-only and MS-only multi-route
    scripts an omitted [gcp_path] is the configured [gcp_base_path]. *)
Theorem C1_omitted_gcp_path (fs : Os.view) (g : Entry.globals)
    (rns : option (list string)) (dcim out : option string) :
  let a := {| Entry.route_numbers := rns; Entry.dcim_path := dcim;
              Entry.gcp_path := None; Entry.output_path := out |} in
  Entry.r_gcp_path (Entry.resolve_rgb_ms g a) = out
  /\ RgbMsCombinedEntry.process_combined_routes fs g a
     = Entry.step0 RgbMsCombined.route_number RgbMsCombined.find_routes_by_numbers
         "" "_RGB_MS" fs
         {| Entry.r_route_numbers := default (Entry.routes_to_combine g) rns;
            Entry.r_dcim_path := Entry.or_else dcim (Entry.dcim_base_path g);
            Entry.r_gcp_path := out;
            Entry.r_output_path := Entry.or_else out (Entry.output_base_path g) |}
  /\ (forall r vs,
        RgbMsCombinedEntry.process_combined_routes fs g a = inr (r, vs) ->
        exists o, out = Some o /\ Entry.r_output_path r = Some o /\
          Forall (fun v => Entry.v_gcp_path v
                    = Os.fs_join fs o
                        ("gcp_route_" +:+ RgbMsCombined.route_number (Entry.v_route v)
                         +:+ "" +:+ ".xml")) vs)
  /\ Entry.r_gcp_path (Entry.resolve_with_gcp_base g a) = Entry.gcp_base_path g
  /\ RgbCombinedEntry.process_combined_routes fs g a
     = Entry.step0 RgbCombined.route_number RgbCombinedLookup.find_routes_by_numbers
         "" "_RGB" fs
         {| Entry.r_route_numbers := default (Entry.routes_to_combine g) rns;
            Entry.r_dcim_path := Entry.or_else dcim (Entry.dcim_base_path g);
            Entry.r_gcp_path := Entry.gcp_base_path g;
            Entry.r_output_path := Entry.or_else out (Entry.output_base_path g) |}
  /\ MsCombinedEntry.process_combined_routes fs g a
     = Entry.step0 MsCombined.route_number MsCombined.find_routes_by_numbers
         "_MS" "_MS" fs
         {| Entry.r_route_numbers := default (Entry.routes_to_combine g) rns;
            Entry.r_dcim_path := Entry.or_else dcim (Entry.dcim_base_path g);
            Entry.r_gcp_path := Entry.gcp_base_path g;
            Entry.r_output_path := Entry.or_else out (Entry.output_base_path g) |}.
Proof.
  intros a. repeat split.
  intros r vs H.
  apply step0_proceeds in H as (-> & gcp & Hg & HF).
  simpl in Hg. subst out. exists gcp. split; [done|]. split; [done|exact HF].
Qed.

(** With every argument omitted the RGB+MS entry point has no GCP path at
    all, whatever was configured, and stops at the configuration check. *)
Lemma rgb_ms_without_arguments_stops (fs : Os.view) (g : Entry.globals) :
  RgbMsCombinedEntry.process_combined_routes fs g Scenario.no_arguments
  = inl Entry.ConfigurationIncomplete.
Proof.
  unfold RgbMsCombinedEntry.process_combined_routes, Entry.step0, Entry.incomplete.
  simpl. by rewrite orb_true_r.
Qed.

Lemma C1_omitted_gcp_path_witness :
  let fs := Scenario.also_existing
              ["/data/out/gcp_route_001.xml"; "/data/out/gcp_route_002.xml"]
              (Os.view_of Os.Posix Scenario.dcim_root Scenario.two_routes) in
  let a := {| Entry.route_numbers := None; Entry.dcim_path := None;
              Entry.gcp_path := None; Entry.output_path := Some "/data/out" |} in
  exists r vs,
    RgbMsCombinedEntry.process_combined_routes fs Scenario.configured a = inr (r, vs)
    /\ map Entry.v_gcp_path vs
       = ["/data/out/gcp_route_001.xml"; "/data/out/gcp_route_002.xml"]
    /\ exists o, Some "/data/out" = Some o /\ Entry.r_output_path r = Some o /\
         Forall (fun v => Entry.v_gcp_path v
                   = Os.fs_join fs o
                       ("gcp_route_" +:+ RgbMsCombined.route_number (Entry.v_route v)
                        +:+ "" +:+ ".xml")) vs.
Proof.
  intros fs a.
  destruct (RgbMsCombinedEntry.process_combined_routes fs Scenario.configured a)
    as [s|[r vs]] eqn:E; [by vm_compute in E|].
  exists r, vs. split; [done|]. split; [by vm_compute in E; injection E as <- <-|].
  exact (proj1 (proj2 (proj2
    (C1_omitted_gcp_path fs Scenario.configured None None (Some "/data/out")))) r vs E).
Defined.

(** ** The save wrapper *)

Section SaveFacts.
Context {S : Type} (E : Engine.saver S).
Import Py Engine Save.

(** The five ways a call of the single-route wrapper can go. *)
Lemma single_shapes (s : S) (p step : string) :
  let res := enhanced_save_project_single E s p step in
  (calls res = [(SaveScoped p, None)] /\ returned res = Return true)
  \/ (calls res = [(Append, None); (SaveScoped p, None)] /\ returned res = Return true)
  \/ (exists e r, calls res = [(SaveScoped p, Some e); (SavePlain p, r)]
                  /\ returned res = Return (succeeded r))
  \/ (exists e r, calls res = [(Append, None); (SaveScoped p, Some e); (SavePlain p, r)]
                  /\ returned res = Return (succeeded r))
  \/ (exists e r, calls res = [(Append, Some e); (SavePlain p, r)]
                  /\ returned res = Return (succeeded r)).
Proof.
  unfold enhanced_save_project_single, fallback.
  destruct (chunk_in_doc E s).
  - destruct (run E s (SaveScoped p)) as [s2 [e|]]; simpl.
    + destruct (run E s2 (SavePlain p)) as [s3 [e2|]]; simpl;
        right; right; left; by eexists _, _.
    + left. split; reflexivity.
  - destruct (run E s Append) as [s1 [e|]]; simpl.
    + destruct (run E s1 (SavePlain p)) as [s3 [e2|]]; simpl;
        do 4 right; by eexists _, _.
    + destruct (run E s1 (SaveScoped p)) as [s2 [e|]]; simpl.
      * destruct (run E s2 (SavePlain p)) as [s3 [e2|]]; simpl;
          do 3 right; left; by eexists _, _.
      * right; left. split; reflexivity.
Qed.

Lemma single_one_level_fallback (s : S) (p step : string) :
  one_level_fallback (enhanced_save_project_single E s p step) p.
Proof.
  pose proof (single_shapes s p step) as H. simpl in H.
  unfold one_level_fallback.
  destruct H as [[Hc Hr]|[[Hc Hr]|[(e & r & Hc & Hr)|[(e & r & Hc & Hr)|(e & r & Hc & Hr)]]]];
    rewrite Hc, Hr; clear Hc Hr.
  - split_and!.
    + by eexists.
    + intros [|? [|? ?]] c e post Heq; simplify_eq/=.
    + split; [intros _; by exists [], (SaveScoped p)|done].
    + done.
    + simpl; lia.
  - split_and!.
    + by eexists.
    + intros [|? [|? [|? ?]]] c e post Heq; simplify_eq/=.
    + split; [intros _; by exists [(Append, None)], (SaveScoped p)|done].
    + done.
    + simpl; lia.
  - split_and!.
    + by eexists.
    + intros [|? [|? [|? ?]]] c e' post Heq Hp; simplify_eq/=. by eexists.
    + split.
      * destruct r; [done|]. intros _. by exists [(SaveScoped p, Some e)], (SavePlain p).
      * intros ([|? [|? [|? ?]]] & c & Heq); simplify_eq/=. done.
    + destruct r as [e2|]; [|done]. intros _.
      by exists [], (SaveScoped p), e, e2.
    + simpl; lia.
  - split_and!.
    + by eexists.
    + intros [|? [|? [|? [|? ?]]]] c e' post Heq Hp; simplify_eq/=. by eexists.
    + split.
      * destruct r; [done|]. intros _.
        by exists [(Append, None); (SaveScoped p, Some e)], (SavePlain p).
      * intros ([|? [|? [|? [|? ?]]]] & c & Heq); simplify_eq/=. done.
    + destruct r as [e2|]; [|done]. intros _.
      by exists [(Append, None)], (SaveScoped p), e, e2.
    + simpl; lia.
  - split_and!.
    + by eexists.
    + intros [|? [|? [|? ?]]] c e' post Heq Hp; simplify_eq/=. by eexists.
    + split.
      * destruct r; [done|]. intros _. by exists [(Append, Some e)], (SavePlain p).
      * intros ([|? [|? [|? ?]]] & c & Heq); simplify_eq/=. done.
    + destruct r as [e2|]; [|done]. intros _.
      by exists [], Append, e, e2.
    + simpl; lia.
Qed.

Lemma combined_single_attempt (s : S) (p step : string) :
  let res := enhanced_save_project_combined E s p step in
  exists r, calls res = [(SavePlain p, r)] /\ returned res = Return (succeeded r).
Proof.
  unfold enhanced_save_project_combined.
  destruct (run E s (SavePlain p)) as [s' [e|]]; simpl; by eexists.
Qed.
End SaveFacts.

(** C7, as the code has it.  In the three single-route scripts
    [enhanced_save_project] follows the one-level fallback policy: it never
    raises, a failed primary attempt is followed by exactly one [doc.save]
    without the chunk argument, it returns [True] when that succeeds and
    [False] only after both failed.  In the three multi-route scripts it
    makes one [doc.save(project_path)] call, returns [True] if that succeeds
    and [False] if it raises, and has no fallback. *)
Theorem C7_save_policy {S : Type} (E : Engine.saver S) (s : S) (p step : string) :
  Save.one_level_fallback (Save.enhanced_save_project Save.rgb_single E s p step) p
  /\ Save.one_level_fallback (Save.enhanced_save_project Save.ms_single E s p step) p
  /\ Save.one_level_fallback (Save.enhanced_save_project Save.rgb_ms_single E s p step) p
  /\ (forall v, In v [Save.rgb_combined; Save.ms_combined; Save.rgb_ms_combined] ->
        let res := Save.enhanced_save_project v E s p step in
        exists r, Save.calls res = [(Engine.SavePlain p, r)]
                  /\ Save.returned res = Py.Return (Save.succeeded r)).
Proof.
  repeat apply conj; try apply single_one_level_fallback.
  intros v Hv. simpl in Hv.
  destruct Hv as [<-|[<-|[<-|[]]]]; apply combined_single_attempt.
Qed.

Lemma C7_save_policy_witness :
  let res := Save.enhanced_save_project Save.rgb_combined Save.busy_once 0 "/data/out/p.psx" "" in
  exists r, Save.calls res = [(Engine.SavePlain "/data/out/p.psx", r)]
            /\ Save.returned res = Py.Return (Save.succeeded r).
Proof.
  apply (proj2 (proj2 (proj2 (C7_save_policy Save.busy_once 0 "/data/out/p.psx" "")))).
  simpl. tauto.
Defined.

(** The multi-route wrapper does not follow the one-level fallback policy:
    on a document that is busy once it makes a single attempt and returns
    [False], although one more [doc.save(project_path)] would succeed. *)
Lemma C7_combined_has_no_fallback :
  let res := Save.enhanced_save_project Save.rgb_combined Save.busy_once 0
               "/data/out/p.psx" "final RGB processing" in
  Save.calls res
    = [(Engine.SavePlain "/data/out/p.psx", Some (Py.EngineError "project file is busy"))]
  /\ Save.returned res = Py.Return false
  /\ snd (Engine.run Save.busy_once (Save.final res) (Engine.SavePlain "/data/out/p.psx")) = None
  /\ ~ Save.one_level_fallback res "/data/out/p.psx".
Proof.
  simpl. repeat split.
  intros (_ & _ & _ & H & _). simpl in H.
  destruct (H eq_refl) as ([|? [|? ?]] & c & e & e2 & Heq & _); simplify_eq/=.
Qed.

(** ** Merge validation *)

Section MergeFacts.
Import Py Engine Merge.
Variables (w : wording) (E : api).

Lemma last_relabel (l : string) (doc : document) (m : chunk) :
  last doc = Some m -> last (relabel_last l doc) = Some (with_label l m).
Proof.
  induction doc as [|c doc IH]; [done|].
  destruct doc as [|c' doc']; [by intros [= ->]|].
  intros H. change (last (c :: relabel_last l (c' :: doc')) = Some (with_label l m)).
  specialize (IH H). destruct (relabel_last l (c' :: doc')) eqn:Er; [done|exact IH].
Qed.

Lemma remove_all_grows (doc : document) (out : list string) (cs : list chunk) :
  forall x, x ∈ out -> x ∈ (remove_all E doc out cs).2.
Proof.
  intros x Hx. unfold remove_all.
  apply (fold_left_invariant (fun st : document * list string => x ∈ st.2)); [done|].
  intros [d o] c Hin. simpl in Hin.
  destruct (remove E d c); simpl; set_solver.
Qed.

(** What [validate] does with the merged chunk. *)
Lemma validate_result (doc : document) (out : list string) (m : chunk) (tc tm : nat) :
  (validate w doc out m tc tm).2
  = (if total_projections m =? 0
     then Raise (RuntimeError "No marker projections found after merge!")
     else Return m)
  /\ (if chunk_cameras m =? tc
      then camera_validated (chunk_cameras m) ∈ (validate w doc out m tc tm).1.2
      else camera_mismatch_warning tc (chunk_cameras m) ∈ (validate w doc out m tc tm).1.2).
Proof.
  unfold validate.
  destruct (total_projections m =? 0); simpl; (split; [done|]);
    destruct (chunk_cameras m =? tc); simpl; set_solver.
Qed.

(** The merge, once the engine has produced a new last chunk [m]. *)
Lemma merge_reaches_validation (doc doc1 doc2 : document) (chunks : list chunk) (m : chunk) :
  (if 1 <? size (coordinate_systems chunks)
   then alignChunks E doc chunks = Return doc1 else doc1 = doc) ->
  mergeChunks E doc1 chunks = Return doc2 ->
  length doc < length doc2 ->
  last doc2 = Some m ->
  let r := merge_chunks_with_validation w E doc chunks in
  r.2 = (if total_projections m =? 0
         then Raise (RuntimeError
                (tag w +:+ " chunk merge failed: No marker projections found after merge!"))
         else Return (with_label (merged_label w) m))
  /\ (if chunk_cameras m =? total_cameras chunks
      then camera_validated (chunk_cameras m) ∈ r.1.2
      else camera_mismatch_warning (total_cameras chunks) (chunk_cameras m) ∈ r.1.2).
Proof.
  intros Ha Hm Hlen Hlast r. subst r.
  unfold merge_chunks_with_validation, merge_body.
  set (out0 := _ ++ _ ++ map _ _).
  destruct (1 <? size (coordinate_systems chunks)).
  - rewrite Ha, Hm.
    destruct (Nat.leb_spec (length doc2) (length doc)) as [?|_]; [lia|].
    rewrite (last_relabel _ _ _ Hlast).
    match goal with |- context [remove_all E ?d ?o ?c] =>
      destruct (remove_all E d o c) as [doc3 out3] end.
    match goal with |- context [validate w ?d ?o ?mm ?a ?b] =>
      pose proof (validate_result d o mm a b) as [Hr Hc];
      destruct (validate w d o mm a b) as [[d4 o4] r4] end.
    simpl in *. subst r4.
    change (total_projections (with_label (merged_label w) m))
      with (total_projections m).
    destruct (total_projections m =? 0); simpl; done.
  - subst doc1. rewrite Hm.
    destruct (Nat.leb_spec (length doc2) (length doc)) as [?|_]; [lia|].
    rewrite (last_relabel _ _ _ Hlast).
    match goal with |- context [remove_all E ?d ?o ?c] =>
      destruct (remove_all E d o c) as [doc3 out3] end.
    match goal with |- context [validate w ?d ?o ?mm ?a ?b] =>
      pose proof (validate_result d o mm a b) as [Hr Hc];
      destruct (validate w d o mm a b) as [[d4 o4] r4] end.
    simpl in *. subst r4.
    change (total_projections (with_label (merged_label w) m))
      with (total_projections m).
    destruct (total_projections m =? 0); simpl; done.
Qed.

(** Whatever the engine does, a returned chunk has marker projections and
    a failure is a [RuntimeError]. *)
Lemma merge_result_cases (doc : document) (chunks : list chunk) :
  match (merge_chunks_with_validation w E doc chunks).2 with
  | Return merged => 0 < total_projections merged
  | Raise e => exists msg, e = RuntimeError msg
  end.
Proof.
  unfold merge_chunks_with_validation.
  match goal with |- context [merge_body w E doc ?o chunks ?a ?b ?c] =>
    assert (Hb : match (merge_body w E doc o chunks a b c).2 with
                 | Return merged => 0 < total_projections merged
                 | Raise _ => True end);
    [|destruct (merge_body w E doc o chunks a b c) as [[d1 o1] [mm|e]];
      simpl in *; [exact Hb|by eexists]] end.
  unfold merge_body.
  destruct (1 <? size (coordinate_systems chunks)).
  - destruct (alignChunks E doc chunks) as [doc1|e]; [|done].
    destruct (mergeChunks E doc1 chunks) as [doc2|e]; [|done].
    destruct (length doc2 <=? length doc); [done|].
    destruct (last (relabel_last (merged_label w) doc2)) as [m|]; [|done].
    destruct (remove_all E _ _ _) as [doc3 out3].
    unfold validate. destruct (total_projections m =? 0) eqn:Ez; simpl; [done|].
    apply Nat.eqb_neq in Ez. lia.
  - destruct (mergeChunks E doc chunks) as [doc2|e]; [|done].
    destruct (length doc2 <=? length doc); [done|].
    destruct (last (relabel_last (merged_label w) doc2)) as [m|]; [|done].
    destruct (remove_all E _ _ _) as [doc3 out3].
    unfold validate. destruct (total_projections m =? 0) eqn:Ez; simpl; [done|].
    apply Nat.eqb_neq in Ez. lia.
Qed.

Lemma merge_step_result (doc : document) (chunks : list chunk) :
  (merge_step w E doc chunks).2
  = match (merge_chunks_with_validation w E doc chunks).2 with
    | Return merged => inl merged
    | Raise _ => inr false
    end.
Proof.
  unfold merge_step.
  by destruct (merge_chunks_with_validation w E doc chunks) as [[d o] [m|e]].
Qed.
End MergeFacts.

(** ** The camera report of the merge *)

Section MergeReport.
Import Py Engine Merge.
Variable E : api.

Local Abbreviation quiet := (fun line : string => MergePolicy.is_camera_report line = false).

Lemma quiet_filter (out : list string) :
  Forall quiet out -> List.filter MergePolicy.is_camera_report out = [].
Proof.
  induction 1 as [|x l Hx _ IH]; [done|]. cbn. by rewrite Hx.
Qed.

Lemma remove_all_quiet (doc : document) (out : list string) (cs : list chunk) :
  Forall quiet out -> Forall quiet (remove_all E doc out cs).2.
Proof.
  intros Hout. unfold remove_all.
  apply (fold_left_invariant (fun st : document * list string => Forall quiet st.2));
    [done|].
  intros [d o] c Ho. cbn [snd] in *.
  destruct (remove E d c); cbn [snd]; apply Forall_app; (split; [done|]);
    by repeat constructor.
Qed.

Lemma imap_quiet (doc : document) :
  Forall quiet (imap (fun i c => "    " +:+ num (i + 1) +:+ ". " +:+ chunk_label c) doc).
Proof.
  apply Forall_forall. intros x (i & c & -> & _)%elem_of_lookup_imap. reflexivity.
Qed.

Lemma total_cameras_sum (chunks : list chunk) :
  total_cameras chunks = MergePolicy.cameras_before chunks.
Proof.
  unfold total_cameras, MergePolicy.cameras_before.
  induction chunks as [|c l IH]; [done|]. cbn. by rewrite IH.
Qed.

Lemma merge_body_report (w : wording) (doc doc1 doc2 : document) (out : list string)
    (chunks : list chunk) (m : chunk) (tc tm : nat) :
  w = rgb_wording \/ w = ms_wording \/ w = rgb_ms_wording ->
  Forall quiet out ->
  (if 1 <? size (coordinate_systems chunks)
   then alignChunks E doc chunks = Return doc1 else doc1 = doc) ->
  mergeChunks E doc1 chunks = Return doc2 ->
  length doc < length doc2 ->
  last doc2 = Some m ->
  List.filter MergePolicy.is_camera_report
    (merge_body w E doc out chunks (length doc) tc tm).1.2
  = [if chunk_cameras m =? tc
     then "  Camera count validated: " +:+ str_of_nat (chunk_cameras m)
     else "  WARNING: Camera count mismatch! Expected "
          +:+ str_of_nat tc +:+ ", got " +:+ str_of_nat (chunk_cameras m)].
Proof.
  intros Hw Hout Ha Hm Hlen Hlast.
  unfold merge_body.
  destruct (1 <? size (coordinate_systems chunks));
    [rewrite Ha|subst doc1];
    rewrite Hm;
    (destruct (Nat.leb_spec (length doc2) (length doc)) as [?|_]; [lia|]);
    rewrite (last_relabel _ _ _ Hlast);
    match goal with |- context [remove_all E ?d ?o ?c] =>
      assert (Hrm : Forall quiet o -> Forall quiet (remove_all E d o c).2)
        by apply remove_all_quiet;
      destruct (remove_all E d o c) as [doc3 out3] end;
    cbn [snd] in Hrm;
    (assert (Hout3 : Forall quiet out3);
     [apply Hrm; destruct Hw as [->|[->| ->]];
      repeat (apply Forall_app; split); repeat constructor; try done|]);
    clear Hrm;
    unfold validate;
    pose proof (Forall_cons_2 quiet "  Remaining chunks:" _ eq_refl (imap_quiet doc3))
      as Him;
    destruct Hw as [->|[->| ->]];
    cbn [tag merged_label list_remaining rgb_wording ms_wording rgb_ms_wording];
    destruct (negb (length doc3 =? 1)); destruct (total_projections _ =? 0);
    cbn [with_label chunk_cameras];
    destruct (chunk_cameras m =? tc) eqn:Ecam;
    cbn [fst snd negb];
    rewrite ?List.filter_app, ?(quiet_filter out3 Hout3);
    try rewrite (quiet_filter _ Him);
    reflexivity.
Qed.

(** The console output of a merge that reaches the validation carries
    exactly one line about the camera count. *)
Lemma merge_camera_report (w : wording) (doc doc1 doc2 : document) (chunks : list chunk)
    (m : chunk) :
  w = rgb_wording \/ w = ms_wording \/ w = rgb_ms_wording ->
  (if 1 <? size (coordinate_systems chunks)
   then alignChunks E doc chunks = Return doc1 else doc1 = doc) ->
  mergeChunks E doc1 chunks = Return doc2 ->
  length doc < length doc2 ->
  last doc2 = Some m ->
  List.filter MergePolicy.is_camera_report
    (merge_chunks_with_validation w E doc chunks).1.2
  = [if chunk_cameras m =? MergePolicy.cameras_before chunks
     then "  Camera count validated: " +:+ str_of_nat (chunk_cameras m)
     else "  WARNING: Camera count mismatch! Expected "
          +:+ str_of_nat (MergePolicy.cameras_before chunks)
          +:+ ", got " +:+ str_of_nat (chunk_cameras m)].
Proof.
  intros Hw Ha Hm Hlen Hlast. rewrite <- total_cameras_sum.
  unfold merge_chunks_with_validation.
  match goal with |- context [merge_body w E doc ?o chunks ?n ?tc ?tm] =>
    assert (Hout : Forall quiet o);
    [|pose proof (merge_body_report w doc doc1 doc2 o chunks m tc tm
                    Hw Hout Ha Hm Hlen Hlast) as H;
      by destruct (merge_body w E doc o chunks n tc tm) as [[d o'] [mm|e]]] end.
  destruct Hw as [->|[->| ->]];
    repeat (apply Forall_app; split); repeat constructor;
    apply Forall_forall; intros x (y & -> & _)%list_elem_of_fmap; reflexivity.
Qed.
End MergeReport.

(** C6. In each multi-route script, once the engine has merged the chunks
    into a new last chunk, [merge_chunks_with_validation] raises a
    [RuntimeError] exactly when that chunk has no marker projections, and
    [process_combined_routes] then returns [False].  The cameras of the
    merged chunk are compared with the sum of the cameras of the chunks that
    went into the merge: the console output carries exactly one line about
    the camera count, the mismatch warning with both numbers when they
    differ and the confirmation when they are equal; it does not change the
    result.  Whatever the engine does, a chunk that is returned has marker
    projections. *)
Theorem C6_merge_validation (w : Merge.wording) (E : Engine.api)
    (doc doc1 doc2 : Engine.document) (chunks : list Engine.chunk) (m : Engine.chunk) :
  (if 1 <? size (Merge.coordinate_systems chunks)
   then Engine.alignChunks E doc chunks = Py.Return doc1 else doc1 = doc) ->
  Engine.mergeChunks E doc1 chunks = Py.Return doc2 ->
  length doc < length doc2 ->
  last doc2 = Some m ->
  let r := Merge.merge_chunks_with_validation w E doc chunks in
  let before := MergePolicy.cameras_before chunks in
  r.2 = (if Engine.total_projections m =? 0
         then Py.Raise (Py.RuntimeError
                (Merge.tag w +:+ " chunk merge failed: No marker projections found after merge!"))
         else Py.Return (Engine.with_label (Merge.merged_label w) m))
  /\ (Merge.merge_step w E doc chunks).2
     = (if Engine.total_projections m =? 0 then inr false
        else inl (Engine.with_label (Merge.merged_label w) m))
  /\ (w = Merge.rgb_wording \/ w = Merge.ms_wording \/ w = Merge.rgb_ms_wording ->
      List.filter MergePolicy.is_camera_report r.1.2
      = [if Engine.chunk_cameras m =? before
         then "  Camera count validated: " +:+ Py.str_of_nat (Engine.chunk_cameras m)
         else "  WARNING: Camera count mismatch! Expected " +:+ Py.str_of_nat before
              +:+ ", got " +:+ Py.str_of_nat (Engine.chunk_cameras m)])
  /\ (forall E' doc' chunks',
        match (Merge.merge_chunks_with_validation w E' doc' chunks').2 with
        | Py.Return merged => 0 < Engine.total_projections merged
        | Py.Raise e => exists msg, e = Py.RuntimeError msg
        end).
Proof.
  intros Ha Hm Hlen Hlast r before. subst r before.
  pose proof (merge_reaches_validation w E doc doc1 doc2 chunks m Ha Hm Hlen Hlast) as H.
  cbv zeta in H. destruct H as [Hr _].
  split_and!; [exact Hr| | |intros; apply merge_result_cases].
  - rewrite merge_step_result, Hr.
    by destruct (Engine.total_projections m =? 0).
  - intros Hw. by eapply merge_camera_report.
Qed.

Lemma C6_merge_validation_witness :
  let doc := MergeScenario.imported in
  let r := Merge.merge_chunks_with_validation Merge.rgb_wording MergeScenario.lossy
             doc MergeScenario.imported in
  r.2 = Py.Raise (Py.RuntimeError
          "RGB chunk merge failed: No marker projections found after merge!")
  /\ (Merge.merge_step Merge.rgb_wording MergeScenario.lossy doc MergeScenario.imported).2
     = inr false
  /\ List.filter MergePolicy.is_camera_report r.1.2
     = ["  WARNING: Camera count mismatch! Expected 22, got 20"].
Proof.
  intros doc r.
  destruct (C6_merge_validation Merge.rgb_wording MergeScenario.lossy doc doc
              (doc ++ [{| Engine.chunk_id := 100; Engine.chunk_label := "Merged Chunk";
                          Engine.chunk_cameras := 20;
                          Engine.chunk_markers :=
                            [MergeScenario.gcp "P1" 0; MergeScenario.gcp "P2" 0];
                          Engine.chunk_crs := Some "EPSG::4258" |}])
              MergeScenario.imported
              {| Engine.chunk_id := 100; Engine.chunk_label := "Merged Chunk";
                 Engine.chunk_cameras := 20;
                 Engine.chunk_markers :=
                   [MergeScenario.gcp "P1" 0; MergeScenario.gcp "P2" 0];
                 Engine.chunk_crs := Some "EPSG::4258" |})
    as (H1 & H2 & H3 & _).
  - vm_compute. reflexivity.
  - reflexivity.
  - simpl. lia.
  - reflexivity.
  - split; [exact H1|]. split; [exact H2|]. apply H3. by left.
Defined.

(** With an engine that keeps every camera and projection the merge
    returns the relabelled chunk and confirms the camera count. *)
Example merge_faithful :
  let r := Merge.merge_chunks_with_validation Merge.rgb_wording MergeScenario.faithful
             MergeScenario.imported MergeScenario.imported in
  (exists m, r.2 = Py.Return m /\ Engine.chunk_label m = "Merged_RGB_Routes"
             /\ Engine.total_projections m = 9)
  /\ "  Camera count validated: 22" ∈ r.1.2
  /\ map Engine.chunk_id r.1.1 = [100].
Proof.
  vm_compute. split; [by eexists|]. split; [|done].
  repeat constructor.
Qed.

(** ** Strings *)

Section StringFacts.
Import Py.

Lemma char_eqb_eq (a b : ascii) : char_eqb a b = true <-> a = b.
Proof.
  unfold char_eqb, code. rewrite Nat.eqb_eq. split; [|by intros ->].
  intros H. rewrite <- (ascii_nat_embedding a), <- (ascii_nat_embedding b).
  by rewrite H.
Qed.

Lemma char_eqb_refl (a : ascii) : char_eqb a a = true.
Proof. by apply char_eqb_eq. Qed.

Lemma strip_prefix_app (p r : string) : strip_prefix p (p +:+ r) = Some r.
Proof. induction p as [|c p IH]; simpl; [done|]. by rewrite char_eqb_refl. Qed.

Lemma strip_prefix_Some (p s r : string) :
  strip_prefix p s = Some r -> s = p +:+ r.
Proof.
  revert s. induction p as [|c p IH]; intros s; simpl.
  - by intros [= ->].
  - destruct s as [|d s]; [done|].
    destruct (char_eqb c d) eqn:E; [|done].
    apply char_eqb_eq in E as ->. intros H. by rewrite (IH _ H).
Qed.

(** [span] splits the string, its first part satisfies the predicate and
    its second part does not start with a character that does. *)
Lemma span_spec (p : ascii -> bool) (s a b : string) :
  span p s = (a, b) ->
  s = a +:+ b /\ forallb_string p a = true
  /\ match b with String c _ => p c = false | EmptyString => True end.
Proof.
  revert a b. induction s as [|c s IH]; intros a b; simpl.
  - by intros [= <- <-].
  - destruct (p c) eqn:E.
    + destruct (span p s) as [a' b'] eqn:Es. intros [= <- <-].
      destruct (IH a' b' eq_refl) as (-> & Ha & Hb).
      simpl. by rewrite E.
    + intros [= <- <-]. simpl. by rewrite E.
Qed.

Lemma span_app (p : ascii -> bool) (a b : string) :
  forallb_string p a = true ->
  match b with String c _ => p c = false | EmptyString => True end ->
  span p (a +:+ b) = (a, b).
Proof.
  intros Ha Hb. induction a as [|c a IH]; simpl in *.
  - destruct b as [|c b]; simpl; [done|]. by rewrite Hb.
  - apply andb_true_iff in Ha as [Hc Ha]. by rewrite Hc, (IH Ha).
Qed.

Lemma length_3 (s : string) :
  String.length s = 3 -> exists a b c, s = String a (String b (String c EmptyString)).
Proof.
  destruct s as [|a [|b [|c [|d s]]]]; simpl; try done. intros _. by exists a, b, c.
Qed.

Lemma str_ltb_asym (a b : string) : str_ltb a b = true -> str_ltb b a = false.
Proof.
  revert b. induction a as [|x a IH]; intros [|y b]; simpl; try done.
  destruct (code x <? code y) eqn:E1, (code x =? code y) eqn:E2,
           (code y <? code x) eqn:E3, (code y =? code x) eqn:E4;
    rewrite ?Nat.ltb_lt, ?Nat.ltb_ge, ?Nat.eqb_eq, ?Nat.eqb_neq in *;
    try lia; try done; apply IH.
Qed.

Lemma str_ltb_leb (a b : string) : str_ltb a b = true -> str_leb a b = true.
Proof. intros H. unfold str_leb. by rewrite (str_ltb_asym _ _ H). Qed.

Lemma nat_of_three_digits (a b c : ascii) :
  nat_of_digits (String a (String b (String c EmptyString)))
  = 100 * (code a - 48) + 10 * (code b - 48) + (code c - 48).
Proof. unfold nat_of_digits. cbn [nat_of_digits_acc]. lia. Qed.

Lemma is_digit_range (c : ascii) : is_digit c = true -> 48 <= code c <= 57.
Proof.
  unfold is_digit. intros [H1 H2]%andb_true_iff.
  apply Nat.leb_le in H1, H2. lia.
Qed.

(** On three-digit identifiers the string order is the numeric order. *)
Lemma str_leb_three_digits (a b : string) :
  String.length a = 3 -> String.length b = 3 ->
  forallb_string is_digit a = true -> forallb_string is_digit b = true ->
  str_leb a b = true -> nat_of_digits a <= nat_of_digits b.
Proof.
  intros (a1 & a2 & a3 & ->)%length_3 (b1 & b2 & b3 & ->)%length_3 Ha Hb.
  cbn [forallb_string] in Ha, Hb.
  apply andb_true_iff in Ha as [Ha1 Ha]. apply andb_true_iff in Ha as [Ha2 Ha].
  apply andb_true_iff in Ha as [Ha3 _].
  apply andb_true_iff in Hb as [Hb1 Hb]. apply andb_true_iff in Hb as [Hb2 Hb].
  apply andb_true_iff in Hb as [Hb3 _].
  apply is_digit_range in Ha1, Ha2, Ha3, Hb1, Hb2, Hb3.
  rewrite !nat_of_three_digits.
  unfold str_leb. cbn [str_ltb].
  generalize dependent (code a1). generalize dependent (code a2).
  generalize dependent (code a3). generalize dependent (code b1).
  generalize dependent (code b2). generalize dependent (code b3).
  intros n3 ? n2 ? n1 ? m3 ? m2 ? m1 ?.
  destruct (n1 <? m1) eqn:E1; [done|]. apply Nat.ltb_ge in E1.
  destruct (n1 =? m1) eqn:E1'; [apply Nat.eqb_eq in E1'|apply Nat.eqb_neq in E1'; intros _; lia].
  destruct (n2 <? m2) eqn:E2; [done|]. apply Nat.ltb_ge in E2.
  destruct (n2 =? m2) eqn:E2'; [apply Nat.eqb_eq in E2'|apply Nat.eqb_neq in E2'; intros _; lia].
  destruct (n3 <? m3) eqn:E3; [done|]. apply Nat.ltb_ge in E3.
  intros _. lia.
Qed.
End StringFacts.

(** ** The route folder grammar *)

Section GrammarFacts.
Import Py Grammar Policy.

Lemma match_route_folder_sound (folder route : string) :
  match_route_folder folder = Some route -> route_folder_name folder route.
Proof.
  unfold match_route_folder.
  destruct (strip_prefix "DJI_" folder) as [r|] eqn:Ep; [|done].
  apply strip_prefix_Some in Ep as ->.
  destruct (span is_digit r) as [ts r1] eqn:Es.
  apply span_spec in Es as (-> & Hts & _).
  destruct (Nat.leb_spec 12 (String.length ts)); [|done].
  destruct (Nat.leb_spec (String.length ts) 14); [|done]. simpl.
  destruct r1 as [|u [|a [|b [|c [|v tail]]]]]; try done.
  destruct (char_eqb u "_") eqn:Eu; [|done]. apply char_eqb_eq in Eu as ->.
  destruct (is_digit a) eqn:Ea; [|done].
  destruct (is_digit b) eqn:Eb; [|done].
  destruct (is_digit c) eqn:Ec; [|done].
  destruct (char_eqb v "_") eqn:Ev; [|done]. apply char_eqb_eq in Ev as ->.
  simpl. intros [= <-]. exists ts, tail. split_and!; try done.
  unfold all_digits. simpl. by rewrite Ea, Eb, Ec.
Qed.

Lemma match_route_folder_complete (folder route : string) :
  route_folder_name folder route -> match_route_folder folder = Some route.
Proof.
  intros (ts & tail & -> & Hts & [Hlo Hhi] & Hr & Hlen).
  destruct (length_3 _ Hlen) as (a & b & c & ->).
  unfold match_route_folder.
  rewrite strip_prefix_app.
  change (ts +:+ "_" +:+ String a (String b (String c "")) +:+ "_" +:+ tail)
    with (ts +:+ String "_" (String a (String b (String c (String "_" tail))))).
  rewrite span_app; [|exact Hts|done].
  destruct (Nat.leb_spec 12 (String.length ts)); [|lia].
  destruct (Nat.leb_spec (String.length ts) 14); [|lia]. simpl.
  unfold all_digits in Hr. simpl in Hr.
  apply andb_true_iff in Hr as [Ha Hr]. apply andb_true_iff in Hr as [Hb Hr].
  apply andb_true_iff in Hr as [Hc _].
  by rewrite Ha, Hb, Hc.
Qed.
End GrammarFacts.

(** ** [sorted] *)

Section SortFacts.
Import Py.
Context {A : Type} (key : A -> string).

Let le (a b : A) : Prop := str_leb (key a) (key b) = true.

Lemma insert_by_perm (x : A) (l : list A) : insert_by key x l ≡ₚ x :: l.
Proof.
  induction l as [|y l IH]; simpl; [done|].
  destruct (str_ltb (key y) (key x)); [|done].
  rewrite IH. apply Permutation_swap.
Qed.

Lemma sorted_perm (l : list A) : sorted key l ≡ₚ l.
Proof.
  induction l as [|x l IH]; simpl; [done|].
  fold (sorted key l). by rewrite insert_by_perm, IH.
Qed.

Lemma insert_by_hd (y x : A) (l : list A) :
  HdRel le y l -> le y x -> HdRel le y (insert_by key x l).
Proof.
  intros Hl Hx. destruct l as [|z l]; simpl; [by constructor|].
  destruct (str_ltb (key z) (key x)); constructor; [|done].
  by inversion Hl.
Qed.

Lemma insert_by_sorted (x : A) (l : list A) :
  Sorted le l -> Sorted le (insert_by key x l).
Proof.
  induction l as [|y l IH]; simpl; intros Hs.
  - by repeat constructor.
  - inversion Hs as [|? ? Hs' Hhd]; subst.
    destruct (str_ltb (key y) (key x)) eqn:E.
    + constructor; [by apply IH|].
      apply insert_by_hd; [done|]. by apply str_ltb_leb.
    + constructor; [done|]. constructor. unfold le, str_leb. by rewrite E.
Qed.

Lemma sorted_is_sorted (l : list A) :
  Sorted (fun a b => str_leb (key a) (key b) = true) (sorted key l).
Proof.
  induction l as [|x l IH]; simpl; [constructor|].
  by apply insert_by_sorted.
Qed.
End SortFacts.

Lemma map_omap {A B C : Type} (g : B -> C) (f : A -> option B) (l : list A) :
  map g (omap f l) = omap (fun x => g <$> f x) l.
Proof.
  induction l as [|x l IH]; [done|].
  cbn. destruct (f x); cbn; [f_equal|]; exact IH.
Qed.

(** ** The RGB route scan *)

Section RgbScanFacts.
Import Py Os RgbSingle.
Variables (fs : view) (dcim_path : string).

Lemma scan_loop_omap (names : list string) :
  scan_loop fs dcim_path names = omap (scan_folder fs dcim_path) names.
Proof. unfold scan_loop. by rewrite fold_left_append_omap. Qed.

(** What an iteration that appends a route has checked. *)
Lemma scan_folder_Some (folder : string) (r : route) :
  scan_folder fs dcim_path folder = Some r ->
  folder_name r = folder
  /\ folder_path r = fs_join fs dcim_path folder
  /\ fs_isdir fs (folder_path r) = true
  /\ Policy.route_folder_name folder (route_number r)
  /\ image_files r = rgb_files_of fs (folder_path r)
  /\ image_files r <> []
  /\ rgb_count r = length (image_files r).
Proof.
  unfold scan_folder.
  destruct (fs_isdir fs (fs_join fs dcim_path folder)) eqn:Ed; [|done].
  destruct (Grammar.match_route_folder folder) as [rn|] eqn:Em; [|done].
  apply match_route_folder_sound in Em.
  destruct (rgb_files_of fs (fs_join fs dcim_path folder)) as [|f fl] eqn:Eg; [done|].
  intros [= <-]. simpl. by rewrite Eg.
Qed.

(** A folder outside the grammar, or without images, appends nothing. *)
Lemma scan_folder_None (folder : string) :
  (forall route, ~ Policy.route_folder_name folder route)
  \/ rgb_files_of fs (fs_join fs dcim_path folder) = [] ->
  scan_folder fs dcim_path folder = None.
Proof.
  intros H. unfold scan_folder.
  destruct (fs_isdir fs (fs_join fs dcim_path folder)); [|done].
  destruct (Grammar.match_route_folder folder) as [rn|] eqn:Em; [|done].
  destruct H as [H|H].
  - by apply match_route_folder_sound, H in Em.
  - by rewrite H.
Qed.

Lemma scan_returns (names : list string) :
  fs_exists fs dcim_path = true ->
  fs_listdir fs dcim_path = Return names ->
  scan_dcim_folders fs dcim_path
  = Return (sorted route_number (omap (scan_folder fs dcim_path) names)).
Proof.
  intros He Hl. unfold scan_dcim_folders. rewrite He, Hl. simpl.
  by rewrite scan_loop_omap.
Qed.

Lemma scan_missing_directory :
  fs_exists fs dcim_path = false -> scan_dcim_folders fs dcim_path = Return [].
Proof. intros He. unfold scan_dcim_folders. by rewrite He. Qed.

Lemma catalog_numeric_order (l : list route) :
  Forall (fun r => exists folder, Policy.route_folder_name folder (route_number r)) l ->
  Sorted (fun a b => str_leb (route_number a) (route_number b) = true) l ->
  StronglySorted
    (fun a b => nat_of_digits (route_number a) <= nat_of_digits (route_number b)) l.
Proof.
  intros Hg Hs. apply Sorted_StronglySorted; [intros a b c; lia|].
  induction Hs as [|a l Hs IH Hhd]; [constructor|].
  apply Forall_cons in Hg as [Ha Hl]. constructor; [by apply IH|].
  destruct Hhd as [|b l' Hab]; constructor.
  apply Forall_cons in Hl as [Hb _].
  destruct Ha as (fa & tsa & taila & _ & _ & _ & Hda & Hla).
  destruct Hb as (fb & tsb & tailb & _ & _ & _ & Hdb & Hlb).
  by apply str_leb_three_digits.
Qed.
End RgbScanFacts.

(** C8. Scanning an existing DCIM directory returns a catalog and raises
    nothing; the catalog holds exactly the routes that the loop body yields
    for the entries of the listing; each entry of the catalog comes from a
    directory whose name follows the route grammar and in which the glob
    tiers found at least one image; an entry whose name does not follow the
    grammar, or for which no image is found, is in no catalog entry; the
    catalog is sorted ascending by [route_number] as a string, which for
    these three-digit identifiers is the numeric order. *)
Theorem C8_scan_catalog (fs : Os.view) (dcim_path : string) (names : list string) :
  Os.fs_exists fs dcim_path = true ->
  Os.fs_listdir fs dcim_path = Py.Return names ->
  exists catalog,
    RgbSingle.scan_dcim_folders fs dcim_path = Py.Return catalog
    /\ catalog ≡ₚ omap (RgbSingle.scan_folder fs dcim_path) names
    /\ (forall r, r ∈ catalog ->
          RgbSingle.folder_name r ∈ names
          /\ Os.fs_isdir fs (RgbSingle.folder_path r) = true
          /\ Policy.route_folder_name (RgbSingle.folder_name r) (RgbSingle.route_number r)
          /\ RgbSingle.image_files r <> []
          /\ RgbSingle.rgb_count r = length (RgbSingle.image_files r))
    /\ (forall folder,
          (forall route, ~ Policy.route_folder_name folder route)
          \/ RgbSingle.rgb_files_of fs (Os.fs_join fs dcim_path folder) = [] ->
          forall r, r ∈ catalog -> RgbSingle.folder_name r <> folder)
    /\ Sorted (fun a b => Py.str_leb (RgbSingle.route_number a) (RgbSingle.route_number b) = true)
              catalog
    /\ StronglySorted
         (fun a b => Py.nat_of_digits (RgbSingle.route_number a)
                     <= Py.nat_of_digits (RgbSingle.route_number b)) catalog.
Proof.
  intros He Hl. eexists. split; [by apply scan_returns|].
  set (catalog := Py.sorted _ _).
  assert (Hperm : catalog ≡ₚ omap (RgbSingle.scan_folder fs dcim_path) names)
    by apply sorted_perm.
  assert (Hfrom : forall r, r ∈ catalog ->
            exists folder, folder ∈ names /\ RgbSingle.scan_folder fs dcim_path folder = Some r).
  { intros r Hr. rewrite Hperm in Hr. by apply list_elem_of_omap in Hr. }
  assert (Hsorted := sorted_is_sorted RgbSingle.route_number
                       (omap (RgbSingle.scan_folder fs dcim_path) names)).
  fold catalog in Hsorted.
  split_and!; [done| | |done|].
  - intros r (folder & Hin & Hs)%Hfrom.
    apply scan_folder_Some in Hs as (Hn & Hp & Hd & Hg & _ & Hne & Hc).
    rewrite Hn. by split_and!.
  - intros folder Hnone r (folder' & Hin & Hs)%Hfrom Heq.
    apply scan_folder_None in Hnone.
    apply scan_folder_Some in Hs as Hs'. destruct Hs' as (Hn & _).
    congruence.
  - apply catalog_numeric_order; [|done].
    apply Forall_forall. intros r (folder & Hin & Hs)%Hfrom.
    apply scan_folder_Some in Hs as (_ & _ & _ & Hg & _). by exists folder.
Qed.

Lemma C8_scan_catalog_witness :
  let fs := Os.view_of Os.Posix Scenario.dcim_root Scenario.survey in
  exists catalog,
    RgbSingle.scan_dcim_folders fs Scenario.dcim_root = Py.Return catalog
    /\ map (fun r => (RgbSingle.route_number r, RgbSingle.rgb_count r)) catalog
       = [("001", 10)].
Proof.
  intros fs.
  destruct (C8_scan_catalog fs Scenario.dcim_root (map fst Scenario.survey))
    as (catalog & Hc & _); [reflexivity|reflexivity|].
  exists catalog. split; [exact Hc|].
  vm_compute in Hc. by injection Hc as <-.
Defined.

(** C9, as the code has it.  The scan catalogues one entry per qualifying
    folder and removes no duplicates: the route numbers of the catalog are
    those of the catalogued folders, so they are pairwise distinct exactly
    when no two catalogued folders carry the same route identifier. *)
Theorem C9_route_numbers (fs : Os.view) (dcim_path : string) (names : list string)
    (catalog : list RgbSingle.route) :
  Os.fs_listdir fs dcim_path = Py.Return names ->
  RgbSingle.scan_dcim_folders fs dcim_path = Py.Return catalog ->
  Os.fs_exists fs dcim_path = true ->
  map RgbSingle.route_number catalog ≡ₚ RgbSingle.catalogued_numbers fs dcim_path names
  /\ length catalog = length (RgbSingle.catalogued_numbers fs dcim_path names)
  /\ (NoDup (map RgbSingle.route_number catalog)
      <-> NoDup (RgbSingle.catalogued_numbers fs dcim_path names)).
Proof.
  intros Hl Hs He. rewrite (scan_returns fs dcim_path names He Hl) in Hs.
  injection Hs as <-.
  assert (Hp : map RgbSingle.route_number
                 (Py.sorted RgbSingle.route_number
                    (omap (RgbSingle.scan_folder fs dcim_path) names))
               ≡ₚ RgbSingle.catalogued_numbers fs dcim_path names).
  { unfold RgbSingle.catalogued_numbers. rewrite <- map_omap.
    apply Permutation_map, sorted_perm. }
  split_and!; [done| |by rewrite Hp].
  rewrite <- (length_map RgbSingle.route_number). by rewrite Hp.
Qed.

Lemma C9_route_numbers_witness :
  let fs := Os.view_of Os.Posix Scenario.dcim_root Scenario.survey in
  exists catalog,
    RgbSingle.scan_dcim_folders fs Scenario.dcim_root = Py.Return catalog
    /\ RgbSingle.catalogued_numbers fs Scenario.dcim_root (map fst Scenario.survey) = ["001"]
    /\ NoDup (map RgbSingle.route_number catalog).
Proof.
  intros fs.
  destruct (RgbSingle.scan_dcim_folders fs Scenario.dcim_root) as [catalog|e] eqn:E;
    [|by vm_compute in E].
  exists catalog. split; [done|]. split; [by vm_compute|].
  apply (C9_route_numbers fs Scenario.dcim_root (map fst Scenario.survey) catalog);
    [reflexivity|exact E|reflexivity|].
  vm_compute. apply NoDup_singleton.
Defined.

(** Two folders of the same route yield two catalog entries with the same
    route number. *)
Lemma C9_same_route_twice :
  let fs := Os.view_of Os.Posix Scenario.dcim_root Scenario.repeated_route in
  exists catalog,
    RgbSingle.scan_dcim_folders fs Scenario.dcim_root = Py.Return catalog
    /\ map RgbSingle.folder_name catalog
       = ["DJI_202401010800_001_a"; "DJI_202401020900_001_b"]
    /\ map RgbSingle.route_number catalog = ["001"; "001"]
    /\ ~ NoDup (map RgbSingle.route_number catalog).
Proof.
  intros fs. eexists. split; [by vm_compute|]. split; [done|]. split; [done|].
  simpl. intros H. apply NoDup_cons in H as [H _]. apply H. by left.
Qed.

(** ** The RGB glob tiers *)

Section TierFacts.
Import Py Os Policy.

(** Nothing from a later tier joins an earlier non-empty one. *)
Lemma first_nonempty_skips {A} (pre : list (list A)) (t : list A) (post : list (list A)) :
  Forall (fun tier => tier = []) pre -> t <> [] ->
  first_nonempty (pre ++ t :: post) = t.
Proof.
  intros Hpre Ht. induction Hpre as [|p pre -> _ IH]; simpl; [|exact IH].
  by destruct t.
Qed.

Lemma three_tier_policy (fs : view) (folder_path : string) :
  RgbSingle.rgb_files_of fs folder_path = first_nonempty (rgb_tiers fs folder_path).
Proof.
  unfold RgbSingle.rgb_files_of, rgb_tiers. simpl.
  destruct (fs_glob fs folder_path "*_D.JPG"); [|done].
  destruct (fs_glob fs folder_path "*D.JPG"); [|done].
  by destruct (fs_glob fs folder_path "*.JPG" ++ fs_glob fs folder_path "*.jpg").
Qed.
End TierFacts.

(** C2, as the code has it.  The RGB-only single-route script, the RGB+MS
    multi-route script and the configuration tool evaluate the three tiers
    [*_D.JPG], [*D.JPG], [*.JPG] plus [*.jpg] in this order and return the
    first non-empty one only: when [*_D.JPG] matches, the result is exactly
    its matches, and when it does not but [*D.JPG] does, exactly those.  The
    RGB multi-route script has two tiers, [*.JPG] and then [*.jpg], and the
    RGB+MS single-route script selects by one predicate on the file name. *)
Theorem C2_rgb_tiers (fs : Os.view) (folder_path : string) :
  RgbSingle.rgb_files_of fs folder_path
    = Policy.first_nonempty (Policy.rgb_tiers fs folder_path)
  /\ RgbMsCombined.rgb_files_of fs folder_path
    = Policy.first_nonempty (Policy.rgb_tiers fs folder_path)
  /\ ConfigTool.find_rgb_files fs folder_path
    = Policy.first_nonempty (Policy.rgb_tiers fs folder_path)
  /\ (Os.fs_glob fs folder_path "*_D.JPG" <> [] ->
      Policy.first_nonempty (Policy.rgb_tiers fs folder_path)
      = Os.fs_glob fs folder_path "*_D.JPG")
  /\ (Os.fs_glob fs folder_path "*_D.JPG" = [] ->
      Os.fs_glob fs folder_path "*D.JPG" <> [] ->
      Policy.first_nonempty (Policy.rgb_tiers fs folder_path)
      = Os.fs_glob fs folder_path "*D.JPG")
  /\ (Os.fs_glob fs folder_path "*_D.JPG" = [] ->
      Os.fs_glob fs folder_path "*D.JPG" = [] ->
      Policy.first_nonempty (Policy.rgb_tiers fs folder_path)
      = Os.fs_glob fs folder_path "*.JPG" ++ Os.fs_glob fs folder_path "*.jpg")
  /\ RgbCombined.jpg_files_of fs folder_path
    = Policy.first_nonempty
        [Os.fs_glob fs folder_path "*.JPG"; Os.fs_glob fs folder_path "*.jpg"]
  /\ (forall files f,
        f ∈ RgbMsSingle.rgb_images_of files <->
        f ∈ files
        /\ Py.endswith (Py.lower f) ".jpg" = true
        /\ (Py.contains (Py.upper f) "D" = true \/ Py.contains (Py.upper f) "RGB" = true)).
Proof.
  split_and!.
  - apply three_tier_policy.
  - apply three_tier_policy.
  - apply three_tier_policy.
  - intros H. by apply (first_nonempty_skips []).
  - intros H1 H2. unfold Policy.rgb_tiers. rewrite H1.
    by apply (first_nonempty_skips [[]]); [repeat constructor|].
  - intros H1 H2. unfold Policy.rgb_tiers. rewrite H1, H2. simpl.
    by destruct (Os.fs_glob fs folder_path "*.JPG" ++ Os.fs_glob fs folder_path "*.jpg").
  - unfold RgbCombined.jpg_files_of. simpl.
    destruct (Os.fs_glob fs folder_path "*.JPG"); [|done].
    by destruct (Os.fs_glob fs folder_path "*.jpg").
  - intros files f. unfold RgbMsSingle.rgb_images_of.
    rewrite list_elem_of_filter, Is_true_true, andb_true_iff, orb_true_iff. tauto.
Qed.

Lemma C2_rgb_tiers_witness :
  let fs := Os.view_of Os.Posix Scenario.dcim_root Scenario.mixed_jpgs in
  let folder_path := "/data/DCIM/DJI_202401010800_001_x" in
  RgbSingle.rgb_files_of fs folder_path
  = ["/data/DCIM/DJI_202401010800_001_x/DJI_20240101080001_0001_D.JPG"]
  /\ Policy.first_nonempty (Policy.rgb_tiers fs folder_path)
     = Os.fs_glob fs folder_path "*_D.JPG".
Proof.
  intros fs folder_path.
  destruct (C2_rgb_tiers fs folder_path) as (H1 & _ & _ & H4 & _).
  split; [|apply H4; by vm_compute].
  rewrite H1, H4; by vm_compute.
Defined.

(** The RGB multi-route script returns a plain JPG next to a [_D] image:
    its result is not the first non-empty of the three tiers. *)
Lemma C2_rgb_combined_mixes_tiers :
  let fs := Os.view_of Os.Posix Scenario.dcim_root Scenario.mixed_jpgs in
  let folder_path := "/data/DCIM/DJI_202401010800_001_x" in
  Os.fs_glob fs folder_path "*_D.JPG"
  = ["/data/DCIM/DJI_202401010800_001_x/DJI_20240101080001_0001_D.JPG"]
  /\ Os.fs_glob fs folder_path "*D.JPG"
  = ["/data/DCIM/DJI_202401010800_001_x/DJI_20240101080001_0001_D.JPG"]
  /\ RgbCombined.jpg_files_of fs folder_path
  = ["/data/DCIM/DJI_202401010800_001_x/DJI_20240101080001_0001_D.JPG";
     "/data/DCIM/DJI_202401010800_001_x/preview.JPG"]
  /\ RgbCombined.jpg_files_of fs folder_path
     <> Policy.first_nonempty (Policy.rgb_tiers fs folder_path)
  /\ (exists catalog,
        RgbCombined.scan_dcim_folders fs Scenario.dcim_root = Py.Return catalog
        /\ map RgbCombined.image_count catalog = [2]).
Proof.
  intros fs folder_path. split_and!; try by vm_compute.
  vm_compute. by eexists.
Qed.

(** The RGB+MS single-route script takes every [.jpg] whose upper-cased
    name contains a [D], here both files. *)
Example rgb_ms_single_selects_by_predicate :
  RgbMsSingle.rgb_images_of ["DJI_20240101080001_0001_D.JPG"; "DSC_0001.jpg"; "notes.txt"]
  = ["DJI_20240101080001_0001_D.JPG"; "DSC_0001.jpg"].
Proof. by vm_compute. Qed.

(** ** The path versioners *)

Section VersionerFacts.
Import Py Os Versioner.

Lemma append_cancel_l (a b c : string) : a +:+ b = a +:+ c -> b = c.
Proof. induction a as [|x a IH]; simpl; [done|]. intros [= H]. by apply IH. Qed.

Lemma append_empty_r (a : string) : a +:+ "" = a.
Proof.
  induction a as [|x a IH]; [done|].
  change (String x (a +:+ "") = String x a). by rewrite IH.
Qed.

Lemma append_not_self (a b : string) : a = a +:+ b -> b = "".
Proof.
  intros H. apply (append_cancel_l a). by rewrite <- H, append_empty_r.
Qed.

(** Different versions probe different names. *)
Lemma folder_at_inj (base : string) (v w : nat) :
  1 <= v -> 1 <= w -> folder_at base v = folder_at base w -> v = w.
Proof.
  intros Hv Hw. unfold folder_at.
  destruct (Nat.eqb_spec v 1), (Nat.eqb_spec w 1); [lia| | |].
  - intros H%append_not_self. done.
  - intros H. symmetry in H. apply append_not_self in H. done.
  - intros H%append_cancel_l%append_cancel_l. by apply pretty_nat_inj.
Qed.

Variables (out : outdir) (output_base : string) (pf : platform) (base : string).

Lemma occupied_dec (name : string) : occupied out name \/ ~ occupied out name.
Proof.
  unfold occupied. destruct (out !! name) as [[|[|e es]]|]; eauto;
    right; intros (? & ? & ?); done.
Qed.

(** What the loop returns from version [v] on: the first version whose
    folder is not an occupied one; it raises if a regular file is in the
    way there. *)
Lemma probe_spec (fuel v : nat) r :
  1 <= v ->
  probe out output_base pf base fuel v (folder_at base v) (file_at base v) = Some r ->
  exists v', v <= v'
    /\ (forall w, v <= w < v' -> occupied out (folder_at base w))
    /\ ~ occupied out (folder_at base v')
    /\ r = match out !! folder_at base v' with
           | Some File =>
               Raise (NotADirectoryError (join pf output_base (folder_at base v')))
           | _ => Return (v', folder_at base v', file_at base v')
           end.
Proof.
  revert v. induction fuel as [|fuel IH]; intros v Hv; simpl; [done|].
  destruct (out !! folder_at base v) as [[|[|e es]]|] eqn:E.
  - intros [= <-]. exists v. split_and!; [lia|intros; lia| |by rewrite E].
    intros (? & ? & ?); congruence.
  - intros [= <-]. exists v. split_and!; [lia|intros; lia| |by rewrite E].
    intros (? & ? & ?); congruence.
  - assert (Hn : folder_at base (v + 1) = base +:+ "_v" +:+ str_of_nat (v + 1)).
    { unfold folder_at. destruct (Nat.eqb_spec (v + 1) 1); [lia|done]. }
    assert (Hf : file_at base (v + 1) = base +:+ "_v" +:+ str_of_nat (v + 1) +:+ ".psx").
    { unfold file_at. destruct (Nat.eqb_spec (v + 1) 1); [lia|done]. }
    rewrite <- Hn, <- Hf. intros H. apply IH in H as (v' & Hle & Hocc & Hfree & ->); [|lia].
    exists v'. split_and!; [lia| |done|done].
    intros w Hw. destruct (decide (w = v)) as [->|]; [by exists e, es|].
    apply Hocc. lia.
  - intros [= <-]. exists v. split_and!; [lia|intros; lia| |by rewrite E].
    intros (? & ? & ?); congruence.
Qed.
End VersionerFacts.

Section VersionerTermination.
Import Py Os Versioner.
Variables (output_base : string) (pf : platform) (base : string).

(** The loop ends within as many iterations as the map [m] of occupied
    folders still ahead has entries, plus one. *)
Lemma probe_terminates (out : outdir) (fuel v : nat) (m : outdir) :
  1 <= v ->
  (forall w, v <= w -> occupied out (folder_at base w) -> is_Some (m !! folder_at base w)) ->
  size m < fuel ->
  is_Some (probe out output_base pf base fuel v (folder_at base v) (file_at base v)).
Proof.
  revert v m. induction fuel as [|fuel IH]; intros v m Hv Hm Hsz; [lia|]. simpl.
  destruct (out !! folder_at base v) as [[|[|e es]]|] eqn:E; try done.
  assert (Hn : folder_at base (v + 1) = base +:+ "_v" +:+ str_of_nat (v + 1)).
  { unfold folder_at. destruct (Nat.eqb_spec (v + 1) 1); [lia|done]. }
  assert (Hf : file_at base (v + 1) = base +:+ "_v" +:+ str_of_nat (v + 1) +:+ ".psx").
  { unfold file_at. destruct (Nat.eqb_spec (v + 1) 1); [lia|done]. }
  rewrite <- Hn, <- Hf.
  assert (Hin : is_Some (m !! folder_at base v)).
  { apply Hm; [lia|]. by exists e, es. }
  apply (IH (v + 1) (delete (folder_at base v) m)); [lia| |].
  - intros w Hw Hocc. rewrite lookup_delete_ne; [apply Hm; [lia|done]|].
    intros Heq. apply folder_at_inj in Heq; lia.
  - pose proof (map_size_delete_Some (folder_at base v) m Hin) as Hd.
    destruct Hin as [x Hx].
    assert (size m <> 0) by (intros ->%map_size_empty_inv; by rewrite lookup_empty in Hx).
    lia.
Qed.

Lemma versioned_terminates (out : outdir) :
  is_Some (versioned pf output_base base (enough out) out).
Proof.
  unfold versioned.
  destruct (probe_terminates out (enough out) 1 out) as [r Hr]; [lia| |unfold enough; lia|].
  - intros w _ (e & es & H). by rewrite H.
  - change base with (folder_at base 1) at 2.
    change (base +:+ ".psx") with (file_at base 1).
    rewrite Hr. destruct r as [[[v f] g]|e]; by eexists.
Qed.
End VersionerTermination.

Section VersionedFacts.
Import Py Os Versioner.
Variables (pf : platform) (output_base base : string).

(** The first version whose folder is not occupied is unique. *)
Lemma first_free_unique (out : outdir) (v1 v2 : nat) :
  (forall w, 1 <= w < v1 -> occupied out (folder_at base w)) ->
  ~ occupied out (folder_at base v1) ->
  (forall w, 1 <= w < v2 -> occupied out (folder_at base w)) ->
  ~ occupied out (folder_at base v2) ->
  1 <= v1 -> 1 <= v2 -> v1 = v2.
Proof.
  intros H1 F1 H2 F2 ? ?.
  destruct (Nat.lt_trichotomy v1 v2) as [?|[?|?]]; [|done|].
  - exfalso. apply F1, H2. lia.
  - exfalso. apply F2, H1. lia.
Qed.

(** The versioner returns the first version whose folder is absent or
    empty, creates the folder if it was absent and touches nothing else;
    a regular file at that name makes it raise. *)
Lemma versioned_spec (out : outdir) r :
  versioned pf output_base base (enough out) out = Some r ->
  exists v, 1 <= v
    /\ (forall w, 1 <= w < v -> occupied out (folder_at base w))
    /\ ~ occupied out (folder_at base v)
    /\ r = match out !! folder_at base v with
           | Some File =>
               Raise (NotADirectoryError (join pf output_base (folder_at base v)))
           | Some (Dir _) => Return (project_at pf output_base base v, out)
           | None => Return (project_at pf output_base base v,
                             <[folder_at base v := Dir []]> out)
           end.
Proof.
  unfold versioned.
  change base with (folder_at base 1) at 2.
  change (base +:+ ".psx") with (file_at base 1).
  destruct (probe out output_base pf base (enough out) 1 _ _) as [r0|] eqn:E; [|done].
  apply probe_spec in E as (v & Hv & Hocc & Hfree & ->); [|lia].
  intros Hr. exists v. split_and!; [done|done|done|].
  destruct (out !! folder_at base v) as [[|es]|] eqn:El.
  - by injection Hr as <-.
  - injection Hr as <-. by rewrite El.
  - injection Hr as <-. by rewrite El.
Qed.

Lemma versioned_result (out : outdir) (v : nat) :
  1 <= v ->
  (forall w, 1 <= w < v -> occupied out (folder_at base w)) ->
  ~ occupied out (folder_at base v) ->
  versioned pf output_base base (enough out) out
  = Some (match out !! folder_at base v with
          | Some File =>
              Raise (NotADirectoryError (join pf output_base (folder_at base v)))
          | Some (Dir _) => Return (project_at pf output_base base v, out)
          | None => Return (project_at pf output_base base v,
                            <[folder_at base v := Dir []]> out)
          end).
Proof.
  intros Hv Hocc Hfree.
  destruct (versioned_terminates output_base pf base out) as [r Hr].
  rewrite Hr. f_equal.
  apply versioned_spec in Hr as (v' & Hv' & Hocc' & Hfree' & ->).
  by rewrite (first_free_unique out v v').
Qed.

(** Running the versioner again on the directory it left returns the same
    project and changes nothing. *)
Lemma versioned_idempotent (out out' : outdir) (p : project) :
  versioned pf output_base base (enough out) out = Some (Return (p, out')) ->
  versioned pf output_base base (enough out') out' = Some (Return (p, out')).
Proof.
  intros H. apply versioned_spec in H as (v & Hv & Hocc & Hfree & Hr).
  assert (Hout' : out' !! folder_at base v = Some (Dir [])
                  /\ p = project_at pf output_base base v
                  /\ forall k, k <> folder_at base v -> out' !! k = out !! k).
  { destruct (out !! folder_at base v) as [[|[|e es]]|] eqn:El; try done.
    - injection Hr as -> ->. done.
    - exfalso. apply Hfree. by exists e, es.
    - injection Hr as -> ->. split; [apply lookup_insert_eq|].
      split; [done|]. intros k Hk. by rewrite lookup_insert_ne. }
  destruct Hout' as (Hat & -> & Hother).
  rewrite (versioned_result out' v); [by rewrite Hat|done| |].
  - intros w Hw. destruct (Hocc w Hw) as (e & es & He). exists e, es.
    rewrite Hother; [done|]. intros Heq%folder_at_inj; lia.
  - intros (e & es & He). congruence.
Qed.

(** An existing empty base folder is reused at version 1. *)
Lemma versioned_reuses_empty (out : outdir) :
  out !! base = Some (Dir []) ->
  versioned pf output_base base (enough out) out
  = Some (Return (project_at pf output_base base 1, out)).
Proof.
  intros H. rewrite (versioned_result out 1); [| lia | intros; lia |].
  - change (folder_at base 1) with base. by rewrite H.
  - change (folder_at base 1) with base. intros (? & ? & ?). congruence.
Qed.
End VersionedFacts.

(** C5. [create_project_structure] always returns: it starts at version 1
    (the unversioned name) and stops at the first version whose folder is
    absent or an empty directory, every lower version being a non-empty
    folder; the folder it returns is therefore never an existing non-empty
    one, and no other entry of the output directory changes.  (A regular
    file at the probed name makes [os.listdir] raise.)  For route 005 with a
    non-empty [route_005_RGB] and no non-empty [route_005_RGB_v2] the result
    is [route_005_RGB_v2]. *)
Theorem C5_first_free_version (pf : Os.platform) (route_number output_base : string)
    (out : Versioner.outdir) :
  let base := "route_" +:+ route_number +:+ "_RGB" in
  (exists r v,
     RgbSingleVersioner.create_project_structure pf route_number output_base out = Some r
     /\ 1 <= v
     /\ (forall w, 1 <= w < v -> Versioner.occupied out (Versioner.folder_at base w))
     /\ ~ Versioner.occupied out (Versioner.folder_at base v)
     /\ ((out !! Versioner.folder_at base v = Some Versioner.File
          /\ exists e, r = Py.Raise e)
         \/ exists out',
              r = Py.Return (Versioner.project_at pf output_base base v, out')
              /\ (out !! Versioner.folder_at base v = None
                  \/ out !! Versioner.folder_at base v = Some (Versioner.Dir []))
              /\ out' !! Versioner.folder_at base v = Some (Versioner.Dir [])
              /\ forall k, k <> Versioner.folder_at base v -> out' !! k = out !! k))
  /\ (forall out5 : Versioner.outdir,
        Versioner.occupied out5 "route_005_RGB" ->
        out5 !! "route_005_RGB_v2" = None
        \/ out5 !! "route_005_RGB_v2" = Some (Versioner.Dir []) ->
        exists out',
          RgbSingleVersioner.create_project_structure pf "005" output_base out5
          = Some (Py.Return (Versioner.project_at pf output_base "route_005_RGB" 2, out'))
          /\ Versioner.project_folder (Versioner.project_at pf output_base "route_005_RGB" 2)
             = "route_005_RGB_v2"
          /\ Versioner.project_file (Versioner.project_at pf output_base "route_005_RGB" 2)
             = "route_005_RGB_v2.psx").
Proof.
  intros base. split.
  - destruct (versioned_terminates output_base pf base out) as [r Hr].
    pose proof Hr as (v & Hv & Hocc & Hfree & Heq)%versioned_spec.
    exists r, v. split_and!; try done.
    destruct (out !! Versioner.folder_at base v) as [[|[|e es]]|] eqn:El.
    + left. split; [done|]. by eexists.
    + right. exists out. split_and!; [done|by right|done|done].
    + exfalso. apply Hfree. by exists e, es.
    + right. eexists. split_and!; [done|by left|apply lookup_insert_eq|].
      intros k Hk. by rewrite lookup_insert_ne.
  - intros out5 Hocc Hfree.
    unfold RgbSingleVersioner.create_project_structure.
    change ("route_" +:+ "005" +:+ "_RGB") with "route_005_RGB".
    rewrite (versioned_result pf output_base "route_005_RGB" out5 2); [|lia| |].
    + change (Versioner.folder_at "route_005_RGB" 2) with "route_005_RGB_v2".
      destruct Hfree as [->| ->]; by eexists.
    + intros w Hw. by replace w with 1 by lia.
    + change (Versioner.folder_at "route_005_RGB" 2) with "route_005_RGB_v2".
      intros (e & es & He). destruct Hfree; congruence.
Qed.

Lemma C5_first_free_version_witness :
  exists out',
    RgbSingleVersioner.create_project_structure Os.Posix "005" "/data/out"
      Scenario.processed_005
    = Some (Py.Return (Versioner.project_at Os.Posix "/data/out" "route_005_RGB" 2, out'))
    /\ Versioner.project_path (Versioner.project_at Os.Posix "/data/out" "route_005_RGB" 2)
       = "/data/out/route_005_RGB_v2".
Proof.
  destruct (proj2 (C5_first_free_version Os.Posix "005" "/data/out" Scenario.processed_005)
              Scenario.processed_005) as (out' & H & _).
  - by exists "route_005_RGB.psx", ["route_005_RGB.files"].
  - by left.
  - exists out'. split; [exact H|by vm_compute].
Defined.

Section AbsentProbeFacts.
Import Py Os Versioner.
Variables (out : outdir) (base : string).

(** The loop of the RGB+MS single-route script stops at the first version
    whose folder does not exist. *)
Lemma probe_absent_spec (fuel v : nat) r :
  1 <= v ->
  probe_absent out base fuel v = Some r ->
  exists v', v <= v'
    /\ (forall w, v <= w < v' -> is_Some (out !! folder_at base w))
    /\ out !! folder_at base v' = None
    /\ r = (v', folder_at base v').
Proof.
  revert v. induction fuel as [|fuel IH]; intros v Hv; simpl; [done|].
  fold (folder_at base v).
  destruct (out !! folder_at base v) as [n|] eqn:E.
  - intros H. apply IH in H as (v' & Hle & Hocc & Hfree & ->); [|lia].
    exists v'. split_and!; [lia| |done|done].
    intros w Hw. destruct (decide (w = v)) as [->|]; [by rewrite E|].
    apply Hocc. lia.
  - intros [= <-]. exists v. split_and!; [lia|intros; lia|done|done].
Qed.

Lemma probe_absent_terminates (fuel v : nat) (m : outdir) :
  1 <= v ->
  (forall w, v <= w -> is_Some (out !! folder_at base w) -> is_Some (m !! folder_at base w)) ->
  size m < fuel ->
  is_Some (probe_absent out base fuel v).
Proof.
  revert v m. induction fuel as [|fuel IH]; intros v m Hv Hm Hsz; [lia|]. simpl.
  fold (folder_at base v).
  destruct (out !! folder_at base v) as [n|] eqn:E; [|done].
  assert (Hin : is_Some (m !! folder_at base v)). { apply Hm; [lia|]. by rewrite E. }
  apply (IH (v + 1) (delete (folder_at base v) m)); [lia| |].
  - intros w Hw Hocc. rewrite lookup_delete_ne; [apply Hm; [lia|done]|].
    intros Heq. apply folder_at_inj in Heq; lia.
  - pose proof (map_size_delete_Some (folder_at base v) m Hin) as Hd.
    destruct Hin as [x Hx].
    assert (size m <> 0) by (intros ->%map_size_empty_inv; by rewrite lookup_empty in Hx).
    lia.
Qed.
End AbsentProbeFacts.

Section RgbMsSingleVersionerFacts.
Import Py Os Versioner RgbMsSingleVersioner.
Variables (pf : platform) (base_path route_name : string).

Lemma rgb_ms_single_returns (out : outdir) :
  exists name,
    create_project_structure pf base_path route_name out
    = Some ((join pf base_path name, name), <[name := Dir subfolders]> out)
    /\ out !! name = None.
Proof.
  unfold create_project_structure.
  destruct (probe_absent_terminates out ("route_" +:+ route_name +:+ "_Combined")
              (enough out) 1 out) as [[v name] Hr];
    [lia|done|unfold enough; lia|].
  rewrite Hr. exists name. split; [done|].
  by apply probe_absent_spec in Hr as (v' & _ & _ & Hfree & [= -> ->]); [|lia].
Qed.

(** The folder a call returns exists afterwards, so the next call returns
    another one. *)
Lemma rgb_ms_single_moves_on (out out' : outdir) (r : string * string) :
  create_project_structure pf base_path route_name out = Some (r, out') ->
  out !! r.2 = None
  /\ exists r' out'',
       create_project_structure pf base_path route_name out' = Some (r', out'')
       /\ r'.2 <> r.2.
Proof.
  intros H.
  destruct (rgb_ms_single_returns out) as (name & Hc & Hfree).
  rewrite Hc in H. injection H as <- <-. split; [done|].
  destruct (rgb_ms_single_returns (<[name := Dir subfolders]> out)) as (name' & Hc' & Hfree').
  eexists _, _. split; [exact Hc'|]. simpl. intros ->.
  by rewrite lookup_insert_eq in Hfree'.
Qed.
End RgbMsSingleVersionerFacts.

(** C4, as the code has it.  The versioner of the RGB-only and MS-only
    single-route scripts and of the three multi-route scripts is idempotent:
    run again on the output directory it left, it returns the same project
    and leaves the directory as it is; an existing empty folder is reused at
    version 1.  The versioner of the RGB+MS single-route script moves past
    every existing folder, empty or not, and fills the folder it creates, so
    a second run returns a different folder. *)
Theorem C4_rerun (pf : Os.platform) (output_base base : string)
    (out out' : Versioner.outdir) (p : Versioner.project) :
  Versioner.versioned pf output_base base (Versioner.enough out) out
    = Some (Py.Return (p, out')) ->
  Versioner.versioned pf output_base base (Versioner.enough out') out'
    = Some (Py.Return (p, out'))
  /\ (forall out0 : Versioner.outdir,
        out0 !! base = Some (Versioner.Dir []) ->
        Versioner.versioned pf output_base base (Versioner.enough out0) out0
        = Some (Py.Return (Versioner.project_at pf output_base base 1, out0)))
  /\ (forall route_number route_numbers o,
        RgbSingleVersioner.create_project_structure pf route_number output_base o
        = Versioner.versioned pf output_base ("route_" +:+ route_number +:+ "_RGB")
            (Versioner.enough o) o
        /\ MsSingleVersioner.create_project_structure_ms pf route_number output_base o
        = Versioner.versioned pf output_base ("route_" +:+ route_number +:+ "_MS")
            (Versioner.enough o) o
        /\ RgbCombinedVersioner.create_combined_project_structure pf output_base route_numbers o
        = Versioner.versioned pf output_base
            ("combined_routes_" +:+ Py.join_with "_" route_numbers +:+ "_RGB")
            (Versioner.enough o) o
        /\ MsCombinedVersioner.create_combined_project_structure pf output_base route_numbers o
        = Versioner.versioned pf output_base
            ("combined_routes_" +:+ Py.join_with "_" route_numbers +:+ "_MS")
            (Versioner.enough o) o
        /\ RgbMsCombinedVersioner.create_combined_project_structure pf output_base route_numbers o
        = Versioner.versioned pf output_base
            ("combined_routes_" +:+ Py.join_with "_" route_numbers +:+ "_RGB_MS")
            (Versioner.enough o) o)
  /\ (forall route_name (o : Versioner.outdir),
        exists name,
          RgbMsSingleVersioner.create_project_structure pf output_base route_name o
          = Some ((Os.join pf output_base name, name),
                  <[name := Versioner.Dir RgbMsSingleVersioner.subfolders]> o)
          /\ o !! name = None)
  /\ (forall route_name (o o' : Versioner.outdir) r,
        RgbMsSingleVersioner.create_project_structure pf output_base route_name o
        = Some (r, o') ->
        exists r' o'',
          RgbMsSingleVersioner.create_project_structure pf output_base route_name o'
          = Some (r', o'')
          /\ r'.2 <> r.2).
Proof.
  intros H. split_and!.
  - by apply (versioned_idempotent pf output_base base out).
  - intros out0 H0. by apply versioned_reuses_empty.
  - done.
  - intros. apply rgb_ms_single_returns.
  - intros route_name o o' r Hr. by apply rgb_ms_single_moves_on in Hr as [_ ?].
Qed.

Lemma processed_005_first_run :
  exists out',
    Versioner.versioned Os.Posix "/data/out" "route_005_RGB"
      (Versioner.enough Scenario.processed_005) Scenario.processed_005
    = Some (Py.Return (Versioner.project_at Os.Posix "/data/out" "route_005_RGB" 2, out')).
Proof.
  rewrite (versioned_result Os.Posix "/data/out" "route_005_RGB" Scenario.processed_005 2).
  - change (Versioner.folder_at "route_005_RGB" 2) with "route_005_RGB_v2".
    replace (Scenario.processed_005 !! "route_005_RGB_v2") with (@None Versioner.node)
      by (by vm_compute).
    by eexists.
  - lia.
  - intros w Hw. replace w with 1 by lia.
    by exists "route_005_RGB.psx", ["route_005_RGB.files"].
  - change (Versioner.folder_at "route_005_RGB" 2) with "route_005_RGB_v2".
    intros (e & es & He). by vm_compute in He.
Qed.

Lemma C4_rerun_witness :
  exists out',
    Versioner.versioned Os.Posix "/data/out" "route_005_RGB"
      (Versioner.enough Scenario.processed_005) Scenario.processed_005
    = Some (Py.Return (Versioner.project_at Os.Posix "/data/out" "route_005_RGB" 2, out'))
    /\ Versioner.versioned Os.Posix "/data/out" "route_005_RGB" (Versioner.enough out') out'
    = Some (Py.Return (Versioner.project_at Os.Posix "/data/out" "route_005_RGB" 2, out')).
Proof.
  destruct processed_005_first_run as (out' & H).
  exists out'. split; [exact H|].
  exact (proj1 (C4_rerun Os.Posix "/data/out" "route_005_RGB" Scenario.processed_005 out'
                  (Versioner.project_at Os.Posix "/data/out" "route_005_RGB" 2) H)).
Defined.

(** The RGB+MS single-route versioner does not reuse an existing empty
    folder, and two successive runs return two different folders. *)
Lemma C4_rgb_ms_single_moves_on :
  (fst <$> RgbMsSingleVersioner.create_project_structure Os.Posix "/data/out" "005"
             Scenario.empty_005_combined)
  = Some ("/data/out/route_005_Combined_v2", "route_005_Combined_v2")
  /\ (fst <$> RgbMsSingleVersioner.create_project_structure Os.Posix "/data/out" "005" ∅)
  = Some ("/data/out/route_005_Combined", "route_005_Combined")
  /\ (RgbMsSingleVersioner.create_project_structure Os.Posix "/data/out" "005" ∅
       ≫= fun first =>
            fst <$> RgbMsSingleVersioner.create_project_structure Os.Posix "/data/out" "005"
                      first.2)
  = Some ("/data/out/route_005_Combined_v2", "route_005_Combined_v2").
Proof. split_and!; by vm_compute. Qed.

(** ** Insertion-ordered dictionaries *)

Lemma fold_left_invariant_in {A B : Type} (P : B -> Prop) (f : B -> A -> B)
    (l : list A) (acc : B) :
  P acc -> (forall acc x, x ∈ l -> P acc -> P (f acc x)) -> P (fold_left f l acc).
Proof.
  revert acc. induction l as [|x l IH]; intros acc H0 Hstep; simpl; [done|].
  apply IH.
  - apply Hstep; [by left|done].
  - intros acc' y Hy. apply Hstep. by right.
Qed.

Section DictFacts.
Context {V : Type}.
Implicit Types (d : PyDict.t V) (k : string) (v : V).

Lemma dict_get_set k' k v d :
  PyDict.get k' (PyDict.set k v d) = if String.eqb k' k then Some v else PyDict.get k' d.
Proof.
  induction d as [|[k0 v0] d IH]; simpl.
  - by destruct (String.eqb k' k).
  - destruct (String.eqb_spec k k0) as [->|Hne]; simpl.
    + by destruct (String.eqb k' k0).
    + destruct (String.eqb_spec k' k0) as [->|Hne'].
      * destruct (String.eqb_spec k0 k); [congruence|done].
      * exact IH.
Qed.

Lemma dict_get_None k d : PyDict.get k d = None <-> k ∉ PyDict.keys d.
Proof.
  induction d as [|[k0 v0] d IH]; simpl.
  - split; [intros _; apply not_elem_of_nil|done].
  - rewrite not_elem_of_cons.
    destruct (String.eqb_spec k k0) as [->|Hne]; [split; [done|tauto]|].
    rewrite IH. tauto.
Qed.

Lemma dict_get_Some_elem k v d : PyDict.get k d = Some v -> (k, v) ∈ d.
Proof.
  induction d as [|[k0 v0] d IH]; simpl; [done|].
  destruct (String.eqb_spec k k0) as [->|Hne].
  - intros [= ->]. by left.
  - intros H. right. by apply IH.
Qed.

Lemma dict_elem_get k v d : NoDup (PyDict.keys d) -> (k, v) ∈ d -> PyDict.get k d = Some v.
Proof.
  induction d as [|[k0 v0] d IH]; simpl; [by intros _ ?%elem_of_nil|].
  intros [Hk Hd]%NoDup_cons [[= -> ->]|Hin]%elem_of_cons.
  - by rewrite String.eqb_refl.
  - destruct (String.eqb_spec k k0) as [->|Hne]; [|by apply IH].
    exfalso. apply Hk. apply (list_elem_of_fmap_2 fst) in Hin. exact Hin.
Qed.

Lemma dict_keys_set k v d :
  PyDict.keys (PyDict.set k v d)
  = if PyDict.mem k d then PyDict.keys d else PyDict.keys d ++ [k].
Proof.
  unfold PyDict.mem. induction d as [|[k0 v0] d IH]; [done|].
  cbn [PyDict.set PyDict.get].
  destruct (String.eqb_spec k k0) as [->|Hne]; [done|].
  change (k0 :: PyDict.keys (PyDict.set k v d)
          = if match PyDict.get k d with Some _ => true | None => false end
            then k0 :: PyDict.keys d else k0 :: (PyDict.keys d ++ [k])).
  rewrite IH. by destruct (PyDict.get k d).
Qed.

Lemma dict_set_NoDup k v d : NoDup (PyDict.keys d) -> NoDup (PyDict.keys (PyDict.set k v d)).
Proof.
  intros Hd. rewrite dict_keys_set. unfold PyDict.mem.
  destruct (PyDict.get k d) eqn:E; [done|].
  apply dict_get_None in E. apply NoDup_app. split_and!; [done| |apply NoDup_singleton].
  intros x Hx ->%list_elem_of_singleton. done.
Qed.

Lemma dict_keys_length d : length (PyDict.keys d) = length d.
Proof. apply length_map. Qed.
End DictFacts.

(** ** The multispectral set grouper *)

Section GrouperFacts.
Import Py Os MsSingle.
Variable fs : view.

Lemma add_file_groups (G : groups) (c : PyDict.t nat) (x : string) :
  (add_file fs (G, c) x).1 = add_group fs G x.
Proof.
  unfold add_group, add_file.
  destruct (capture_of fs x) as [[k b]|]; [|done].
  simpl. by destruct (PyDict.get b c).
Qed.

Lemma group_files_groups (l : list string) (G : groups) (c : PyDict.t nat) :
  (fold_left (add_file fs) l (G, c)).1 = fold_left (add_group fs) l G.
Proof.
  revert G c. induction l as [|x l IH]; intros G c; cbn [fold_left]; [done|].
  destruct (add_file fs (G, c) x) as [G' c'] eqn:E.
  rewrite IH. f_equal. by rewrite <- (add_file_groups G c x), E.
Qed.

(** The groups after one more file, as a dictionary update. *)
Lemma add_group_unfold (G : groups) (x : string) :
  add_group fs G x
  = match capture_of fs x with
    | Some (k, b) =>
        let G1 := if PyDict.mem k G then G else PyDict.set k [] G in
        PyDict.set k (PyDict.set b x (default [] (PyDict.get k G1))) G1
    | None => G
    end.
Proof.
  unfold add_group, add_file. by destruct (capture_of fs x) as [[k b]|].
Qed.

Lemma add_group_get (G : groups) (x k : string) :
  PyDict.get k (add_group fs G x)
  = match capture_of fs x with
    | Some (k', b') =>
        if String.eqb k k'
        then Some (PyDict.set b' x (default [] (PyDict.get k G)))
        else PyDict.get k G
    | None => PyDict.get k G
    end.
Proof.
  rewrite add_group_unfold. destruct (capture_of fs x) as [[k' b']|]; [|done].
  cbv zeta. rewrite dict_get_set.
  destruct (String.eqb_spec k k') as [->|Hne].
  - unfold PyDict.mem. destruct (PyDict.get k' G) eqn:E; [by rewrite E|].
    rewrite dict_get_set, String.eqb_refl. done.
  - unfold PyDict.mem. destruct (PyDict.get k' G) eqn:E; [done|].
    rewrite dict_get_set. by destruct (String.eqb_spec k k').
Qed.

(** The file recorded for a key and band after one more file. *)
Lemma add_group_file (G : groups) (x k b : string) :
  file_of (add_group fs G x) k b
  = match capture_of fs x with
    | Some (k', b') =>
        if String.eqb k k' && String.eqb b b' then Some x else file_of G k b
    | None => file_of G k b
    end.
Proof.
  unfold file_of. rewrite add_group_get.
  destruct (capture_of fs x) as [[k' b']|]; [|done].
  destruct (String.eqb_spec k k') as [->|Hne]; simpl; [|done].
  rewrite dict_get_set. destruct (String.eqb b b'); [done|].
  by destruct (PyDict.get k' G).
Qed.

Lemma add_group_NoDup (G : groups) (x : string) :
  NoDup (PyDict.keys G) -> NoDup (PyDict.keys (add_group fs G x)).
Proof.
  intros H. rewrite add_group_unfold. destruct (capture_of fs x) as [[k b]|]; [|done].
  cbv zeta. apply dict_set_NoDup. destruct (PyDict.mem k G); [done|].
  by apply dict_set_NoDup.
Qed.

Lemma add_group_inner_NoDup (G : groups) (x : string) :
  (forall k bands, PyDict.get k G = Some bands -> NoDup (PyDict.keys bands)) ->
  forall k bands, PyDict.get k (add_group fs G x) = Some bands -> NoDup (PyDict.keys bands).
Proof.
  intros H k bands. rewrite add_group_get.
  destruct (capture_of fs x) as [[k' b']|]; [|apply H].
  destruct (String.eqb_spec k k') as [->|Hne]; [|apply H].
  intros [= <-]. apply dict_set_NoDup.
  destruct (PyDict.get k' G) eqn:E; simpl; [by eapply H|constructor].
Qed.

Lemma group_files_fst (l : list string) : (group_files fs l).1 = groups_of fs l.
Proof. apply group_files_groups. Qed.

Lemma groups_NoDup (l : list string) : NoDup (PyDict.keys (groups_of fs l)).
Proof.
  apply (fold_left_invariant (fun G => NoDup (PyDict.keys G))); [constructor|].
  intros G x. apply add_group_NoDup.
Qed.

Lemma groups_inner_NoDup (l : list string) k bands :
  PyDict.get k (groups_of fs l) = Some bands -> NoDup (PyDict.keys bands).
Proof.
  revert k bands.
  apply (fold_left_invariant
           (fun G => forall k bands, PyDict.get k G = Some bands -> NoDup (PyDict.keys bands)));
    [done|].
  intros G x. apply add_group_inner_NoDup.
Qed.

(** A recorded file is a file of the list with that key and band. *)
Lemma groups_sound (l : list string) k b f :
  file_of (groups_of fs l) k b = Some f -> f ∈ l /\ capture_of fs f = Some (k, b).
Proof.
  revert k b f.
  apply (fold_left_invariant_in
           (fun G => forall k b f, file_of G k b = Some f ->
                                   f ∈ l /\ capture_of fs f = Some (k, b))); [done|].
  intros G x Hx HG k b f. rewrite add_group_file.
  destruct (capture_of fs x) as [[k' b']|] eqn:E; [|apply HG].
  destruct (String.eqb_spec k k') as [->|]; [|apply HG].
  destruct (String.eqb_spec b b') as [->|]; [|apply HG].
  simpl. by intros [= <-].
Qed.

(** Every key and band that occurs in the list has a recorded file. *)
Lemma groups_complete_from (l : list string) (G : groups) k b :
  is_Some (file_of G k b) \/ has_band fs l k b ->
  is_Some (file_of (fold_left (add_group fs) l G) k b).
Proof.
  revert G. induction l as [|x l IH]; intros G; cbn [fold_left].
  - intros [H|(f & Hf & _)]; [done|by apply elem_of_nil in Hf].
  - intros H. apply IH. rewrite add_group_file.
    destruct H as [H|(f & [->|Hf]%elem_of_cons & Hc)].
    + left. destruct (capture_of fs x) as [[k' b']|]; [|done].
      by destruct (_ && _).
    + left. rewrite Hc, !String.eqb_refl. done.
    + right. by exists f.
Qed.

Lemma groups_complete (l : list string) k b :
  has_band fs l k b -> is_Some (file_of (groups_of fs l) k b).
Proof. intros H. apply groups_complete_from. by right. Qed.

Lemma has_band_file (l : list string) k b :
  has_band fs l k b <-> is_Some (file_of (groups_of fs l) k b).
Proof.
  split; [apply groups_complete|].
  intros [f Hf]. apply groups_sound in Hf as [? ?]. by exists f.
Qed.
End GrouperFacts.

Section CompleteFacts.
Import Py Os MsSingle.
Variable fs : view.

Lemma required_NoDup : NoDup required_bands.
Proof.
  unfold required_bands.
  repeat (apply NoDup_cons; split;
          [intros H; repeat (apply elem_of_cons in H as [H|H]; [discriminate H|]);
           by apply elem_of_nil in H|]).
  constructor.
Qed.

Lemma mem_is_Some {V} k (d : PyDict.t V) : PyDict.mem k d = true <-> is_Some (PyDict.get k d).
Proof. unfold PyDict.mem. destruct (PyDict.get k d); split; try done. Qed.

Lemma get_keys {V} k (d : PyDict.t V) : is_Some (PyDict.get k d) <-> k ∈ PyDict.keys d.
Proof.
  destruct (PyDict.get k d) eqn:E.
  - split; [intros _|by eexists].
    destruct (decide (k ∈ PyDict.keys d)) as [|Hn]; [done|].
    apply dict_get_None in Hn. congruence.
  - apply dict_get_None in E. split; [by intros [? ?]|done].
Qed.

Lemma is_complete_spec (bands : PyDict.t string) :
  NoDup (PyDict.keys bands) ->
  is_complete bands = true <-> (forall b, is_Some (PyDict.get b bands) <-> b ∈ required_bands).
Proof.
  intros Hnd. unfold is_complete.
  rewrite andb_true_iff, Nat.eqb_eq, forallb_forall.
  setoid_rewrite <- list_elem_of_In. setoid_rewrite mem_is_Some.
  split.
  - intros [Hlen Hall] b. split; [|apply Hall].
    intros Hb%get_keys.
    assert (Hincl : incl (PyDict.keys bands) required_bands).
    { apply NoDup_length_incl.
      - apply NoDup_ListNoDup, required_NoDup.
      - rewrite dict_keys_length, Hlen. done.
      - intros b' Hb'%list_elem_of_In. by apply list_elem_of_In, get_keys, Hall. }
    by apply list_elem_of_In, Hincl, list_elem_of_In.
  - intros H. split; [|intros b Hb; by apply H].
    rewrite <- dict_keys_length.
    assert (Hp : PyDict.keys bands ≡ₚ required_bands).
    { apply NoDup_Permutation; [done|apply required_NoDup|].
      intros b. rewrite <- get_keys. apply H. }
    by rewrite Hp.
Qed.

(** The loop over the groups counts the complete ones and appends their
    four files. *)
Lemma complete_of_spec (G : groups) :
  complete_of G
  = (length (List.filter (fun kv => is_complete kv.2) G),
     concat (map (fun kv => ordered_files kv.2) (List.filter (fun kv => is_complete kv.2) G))).
Proof.
  unfold complete_of.
  assert (Hgen : forall n files,
    fold_left
      (fun acc kv => let '(cc, all) := acc in
         if is_complete kv.2 then (S cc, all ++ ordered_files kv.2) else acc)
      G (n, files)
    = (n + length (List.filter (fun kv => is_complete kv.2) G),
       files ++ concat (map (fun kv => ordered_files kv.2)
                            (List.filter (fun kv => is_complete kv.2) G)))).
  { induction G as [|kv G IH]; intros n files; simpl.
    - by rewrite Nat.add_0_r, app_nil_r.
    - destruct (is_complete kv.2); simpl; rewrite IH; [|done].
      f_equal; [lia|by rewrite <- app_assoc]. }
  apply (Hgen 0 []).
Qed.

Lemma ordered_files_complete (bands : PyDict.t string) :
  is_complete bands = true ->
  ordered_files bands = map (fun b => default "" (PyDict.get b bands)) required_bands.
Proof.
  unfold is_complete, ordered_files, required_bands.
  intros [_ H]%andb_true_iff. simpl in H. unfold PyDict.mem in H.
  simpl.
  destruct (PyDict.get "G" bands); [|done].
  destruct (PyDict.get "NIR" bands); [|done].
  destruct (PyDict.get "R" bands); [|done].
  destruct (PyDict.get "RE" bands); [|done]. done.
Qed.

Lemma filter_keys_NoDup {V} (p : string * V -> bool) (d : PyDict.t V) :
  NoDup (PyDict.keys d) -> NoDup (PyDict.keys (List.filter p d)).
Proof.
  induction d as [|kv d IH]; simpl; [done|].
  intros [Hk Hd]%NoDup_cons. destruct (p kv); simpl; [|by apply IH].
  apply NoDup_cons. split; [|by apply IH].
  intros Hin. apply Hk.
  apply list_elem_of_fmap in Hin as (kv' & -> & Hin').
  apply list_elem_of_In, filter_In in Hin' as [Hin' _].
  apply list_elem_of_fmap. exists kv'. split; [done|by apply list_elem_of_In].
Qed.
End CompleteFacts.

Section GrouperResult.
Import Py Os MsSingle.
Variables (fs : view) (l : list string).

Local Abbreviation G := (groups_of fs l).
Local Abbreviation kept := (complete_groups fs l).

Lemma grouped_fields :
  g_complete_sets (group_ms_files fs l) = length kept
  /\ g_image_files (group_ms_files fs l) = concat (map (fun kv => ordered_files kv.2) kept)
  /\ g_ms_files_count (group_ms_files fs l) = length l.
Proof.
  unfold group_ms_files.
  pose proof (group_files_fst fs l) as HG.
  destruct (group_files fs l) as [G' c]. simpl in HG. subst G'.
  rewrite complete_of_spec. done.
Qed.

Lemma kept_entry kv :
  In kv kept ->
  PyDict.get kv.1 G = Some kv.2 /\ is_complete kv.2 = true /\ NoDup (PyDict.keys kv.2).
Proof.
  intros [Hin Hc]%filter_In.
  assert (Hget : PyDict.get kv.1 G = Some kv.2).
  { apply dict_elem_get; [apply groups_NoDup|]. destruct kv. by apply list_elem_of_In. }
  split_and!; [done|done|]. by eapply groups_inner_NoDup.
Qed.

Lemma group_bands k bands :
  PyDict.get k G = Some bands ->
  forall b, has_band fs l k b <-> is_Some (PyDict.get b bands).
Proof.
  intros Hget b. rewrite has_band_file. unfold file_of. by rewrite Hget.
Qed.

Lemma kept_keys k : k ∈ PyDict.keys kept <-> complete_key fs l k.
Proof.
  split.
  - intros (kv & -> & Hin%list_elem_of_In)%list_elem_of_fmap.
    apply kept_entry in Hin as (Hget & Hc & Hnd).
    pose proof (proj1 (is_complete_spec _ Hnd) Hc) as Hc'.
    intros b. rewrite (group_bands _ _ Hget). apply Hc'.
  - intros Hk.
    assert (HG : has_band fs l k "G") by (apply Hk; unfold required_bands; set_solver).
    apply has_band_file in HG as [f Hf]. unfold file_of in Hf.
    destruct (PyDict.get k G) as [bands|] eqn:Hget; [|done].
    apply list_elem_of_fmap. exists (k, bands). split; [done|].
    apply list_elem_of_In, filter_In. split.
    + by apply list_elem_of_In, dict_get_Some_elem.
    + simpl. apply (proj2 (is_complete_spec bands (groups_inner_NoDup fs l k bands Hget))).
      intros b. rewrite <- (group_bands _ _ Hget). apply Hk.
Qed.

Lemma kept_files (ks : list (string * PyDict.t string)) :
  (forall kv, In kv ks -> In kv kept) ->
  concat (map (fun kv => ordered_files kv.2) ks)
  = concat (map (fun k => map (emitted fs l k) required_bands) (PyDict.keys ks)).
Proof.
  induction ks as [|kv ks IH]; intros Hin; [done|].
  change (ordered_files kv.2 ++ concat (map (fun kv => ordered_files kv.2) ks)
          = map (emitted fs l kv.1) required_bands
            ++ concat (map (fun k => map (emitted fs l k) required_bands) (PyDict.keys ks))).
  rewrite IH by (intros; apply Hin; by right). f_equal.
  destruct (kept_entry kv) as (Hget & Hc & _); [apply Hin; by left|].
  rewrite (ordered_files_complete _ Hc).
  apply map_ext. intros b. unfold emitted, file_of. by rewrite Hget.
Qed.

Lemma emitted_file k b :
  k ∈ PyDict.keys kept -> b ∈ required_bands ->
  emitted fs l k b ∈ l /\ capture_of fs (emitted fs l k b) = Some (k, b).
Proof.
  intros Hk%kept_keys Hb. apply Hk in Hb.
  apply has_band_file in Hb as [f Hf]. unfold emitted. rewrite Hf.
  simpl. by apply groups_sound in Hf.
Qed.
End GrouperResult.

(** ** The multispectral file grammar *)

Section MsGrammarFacts.
Import Py Grammar MsPolicy.

Lemma lower_char_underscore (c : ascii) : lower_char c = "_"%char -> c = "_"%char.
Proof. destruct c as [[] [] [] [] [] [] [] []]; vm_compute; congruence. Qed.

Lemma lower_char_dot (c : ascii) : lower_char c = "."%char -> c = "."%char.
Proof. destruct c as [[] [] [] [] [] [] [] []]; vm_compute; congruence. Qed.

Lemma append_cons (c : ascii) (a b : string) : String c a +:+ b = String c (a +:+ b).
Proof. reflexivity. Qed.

Lemma append_nil (b : string) : "" +:+ b = b.
Proof. reflexivity. Qed.

Lemma strip_prefix_ci_Some (p s r : string) :
  strip_prefix_ci p s = Some r -> exists d, s = d +:+ r /\ lower d = lower p.
Proof.
  revert s. induction p as [|a p IH]; intros s; cbn [strip_prefix_ci].
  - intros [= ->]. by exists "".
  - destruct s as [|b s]; [done|].
    destruct (char_eqb (lower_char a) (lower_char b)) eqn:E; [|done].
    apply char_eqb_eq in E. intros (d & -> & Hd)%IH.
    exists (String b d). split; [done|]. cbn. by rewrite E, Hd.
Qed.

Lemma strip_prefix_ci_app (p d r : string) :
  lower d = lower p -> strip_prefix_ci p (d +:+ r) = Some r.
Proof.
  revert d. induction p as [|a p IH]; intros [|b d]; cbn; try done.
  intros [= Hb Hd]. rewrite append_cons. cbn [strip_prefix_ci].
  rewrite Hb, char_eqb_refl. by apply IH.
Qed.

Lemma separator_not_digit (ms t : string) :
  lower ms = "_ms_" ->
  match ms +:+ t with String c _ => is_digit c = false | EmptyString => True end.
Proof.
  destruct ms as [|c ms]; [done|]. intros [= ->%lower_char_underscore _].
  by rewrite append_cons.
Qed.

Lemma extension_not_word (tif t : string) :
  lower tif = ".tif" ->
  match tif +:+ t with String c _ => is_word c = false | EmptyString => True end.
Proof.
  destruct tif as [|c tif]; [done|]. intros [= ->%lower_char_dot _].
  by rewrite append_cons.
Qed.

Lemma length_positive (s : string) : s <> "" <-> (1 <=? String.length s) = true.
Proof. destruct s; cbn; split; done. Qed.

Lemma match_ms_filename_sound (name timestamp sequence band : string) :
  match_ms_filename name = Some (timestamp, sequence, band) ->
  ms_file_name name timestamp sequence band.
Proof.
  unfold match_ms_filename.
  destruct (strip_prefix_ci "DJI_" name) as [r|] eqn:E0; [|done].
  apply strip_prefix_ci_Some in E0 as (dji & -> & Hdji).
  destruct (span is_digit r) as [ts r1] eqn:E1.
  apply span_spec in E1 as (-> & Hts & _).
  destruct (Nat.eqb_spec (String.length ts) 14) as [Hlen|]; [|done].
  destruct (strip_prefix "_" r1) as [r2|] eqn:E2; [|done].
  apply strip_prefix_Some in E2 as ->.
  destruct (span is_digit r2) as [num r3] eqn:E3.
  apply span_spec in E3 as (-> & Hnum & _).
  destruct (1 <=? String.length num) eqn:Hn; [|done].
  destruct (strip_prefix_ci "_MS_" r3) as [r4|] eqn:E4; [|done].
  apply strip_prefix_ci_Some in E4 as (ms & -> & Hms).
  destruct (span is_word r4) as [b r5] eqn:E5.
  apply span_spec in E5 as (-> & Hb & _).
  destruct (1 <=? String.length b) eqn:Hbn; [|done].
  destruct (strip_prefix_ci ".TIF" r5) as [tail|] eqn:E6; [|done].
  apply strip_prefix_ci_Some in E6 as (tif & -> & Htif).
  intros [= <- <- <-]. exists dji, ms, tif, tail.
  split_and!; try done; by apply length_positive.
Qed.

Lemma match_ms_filename_complete (name timestamp sequence band : string) :
  ms_file_name name timestamp sequence band ->
  match_ms_filename name = Some (timestamp, sequence, band).
Proof.
  intros (dji & ms & tif & tail & -> & Hdji & Hms & Htif & Hts & Hlen & Hseq & Hne
          & Hband & Hbne).
  unfold match_ms_filename.
  rewrite strip_prefix_ci_app by done.
  rewrite span_app; [|exact Hts|by rewrite append_cons].
  rewrite Hlen. cbn [Nat.eqb].
  rewrite strip_prefix_app.
  rewrite span_app; [|exact Hseq|by apply separator_not_digit].
  rewrite (proj1 (length_positive sequence) Hne).
  rewrite strip_prefix_ci_app by done.
  rewrite span_app; [|exact Hband|by apply extension_not_word].
  rewrite (proj1 (length_positive band) Hbne).
  by rewrite strip_prefix_ci_app.
Qed.

Lemma append_inj_length (a a' b b' : string) :
  String.length a = String.length a' -> a +:+ b = a' +:+ b' -> a = a' /\ b = b'.
Proof.
  revert a'. induction a as [|x a IH]; intros [|x' a']; cbn; try done.
  intros [= Hl]. rewrite !append_cons. intros [= -> Happ].
  destruct (IH a' Hl Happ) as [-> ->]. done.
Qed.

Lemma ms_file_name_length (name timestamp sequence band : string) :
  ms_file_name name timestamp sequence band -> String.length timestamp = 14.
Proof. by intros (? & ? & ? & ? & _ & _ & _ & _ & _ & ? & _). Qed.
End MsGrammarFacts.

(** ** The grouper against the capture sets of the specification *)

Section CaptureFacts.
Import Py Os.
Variable fs : view.

(** The capture key of the code is [<timestamp>_<sequence>]. *)
Lemma capture_of_spec (f k band : string) :
  MsSingle.capture_of fs f = Some (k, band)
  <-> exists ts seq, k = ts +:+ "_" +:+ seq /\ MsPolicy.shows fs f ts seq band.
Proof.
  unfold MsSingle.capture_of, MsPolicy.shows.
  destruct (Grammar.match_ms_filename (fs_basename fs f)) as [[[ts seq] b]|] eqn:E.
  - split.
    + intros [= <- <-]. exists ts, seq. split; [done|]. exists b.
      split; [by apply match_ms_filename_sound|done].
    + intros (ts' & seq' & -> & b' & Hn%match_ms_filename_complete & <-).
      rewrite E in Hn. by injection Hn as -> -> ->.
  - split; [done|].
    intros (ts' & seq' & -> & b' & Hn%match_ms_filename_complete & <-). congruence.
Qed.

Lemma shows_length (f ts seq band : string) :
  MsPolicy.shows fs f ts seq band -> String.length ts = 14.
Proof. intros (b & Hn & _). by eapply ms_file_name_length. Qed.

(** Captures with different timestamps or sequence numbers have different
    keys. *)
Lemma capture_key_inj (ts seq ts' seq' : string) :
  String.length ts = 14 -> String.length ts' = 14 ->
  ts +:+ "_" +:+ seq = ts' +:+ "_" +:+ seq' -> ts = ts' /\ seq = seq'.
Proof.
  intros H H' Heq. apply append_inj_length in Heq as [-> Heq]; [|congruence].
  split; [done|]. by injection Heq.
Qed.

(** The file recorded for a key and band is the last listed file with
    that key and band. *)
Lemma groups_last (l : list string) (k b f : string) :
  MsSingle.file_of (MsSingle.groups_of fs l) k b = Some f ->
  exists l1 l2, l = l1 ++ f :: l2
    /\ forall f', f' ∈ l2 -> MsSingle.capture_of fs f' <> Some (k, b).
Proof.
  revert f. induction l as [|x l' IH] using rev_ind; intros f; [done|].
  unfold MsSingle.groups_of. rewrite fold_left_app. cbn [fold_left].
  fold (MsSingle.groups_of fs l'). rewrite add_group_file.
  assert (Hkeep : MsSingle.capture_of fs x <> Some (k, b) ->
                  MsSingle.file_of (MsSingle.groups_of fs l') k b = Some f ->
                  exists l1 l2, l' ++ [x] = l1 ++ f :: l2
                    /\ forall f', f' ∈ l2 -> MsSingle.capture_of fs f' <> Some (k, b)).
  { intros Hx (l1 & l2 & -> & Hl2)%IH. exists l1, (l2 ++ [x]).
    split; [by rewrite <- app_assoc|].
    intros f' [Hf'|Hf']%elem_of_app; [by apply Hl2|].
    apply list_elem_of_singleton in Hf' as ->. done. }
  destruct (MsSingle.capture_of fs x) as [[k' b']|] eqn:E; [|by apply Hkeep].
  destruct (String.eqb_spec k k') as [->|Hk]; [|apply Hkeep; congruence].
  destruct (String.eqb_spec b b') as [->|Hb]; [|apply Hkeep; congruence].
  cbn [andb]. intros [= <-]. exists l', []. split; [done|].
  intros f' Hf'. by apply elem_of_nil in Hf'.
Qed.

Variable l : list string.

Lemma has_band_key (ts seq band : string) :
  String.length ts = 14 ->
  MsSingle.has_band fs l (ts +:+ "_" +:+ seq) band <-> MsPolicy.has_band fs l ts seq band.
Proof.
  intros Hlen. unfold MsSingle.has_band, MsPolicy.has_band. split.
  - intros (f & Hf & (ts' & seq' & Hk & Hs)%capture_of_spec).
    apply capture_key_inj in Hk as [<- <-]; [by exists f|done|by eapply shows_length].
  - intros (f & Hf & Hs). exists f. split; [done|].
    apply capture_of_spec. by exists ts, seq.
Qed.

Lemma complete_key_capture (ts seq : string) :
  String.length ts = 14 ->
  MsSingle.complete_key fs l (ts +:+ "_" +:+ seq) <-> MsPolicy.complete fs l ts seq.
Proof.
  intros Hlen. unfold MsSingle.complete_key, MsPolicy.complete.
  split; intros H band; [rewrite <- has_band_key by done|rewrite has_band_key by done];
    apply H.
Qed.

Lemma complete_length (ts seq : string) :
  MsPolicy.complete fs l ts seq -> String.length ts = 14.
Proof.
  intros H. destruct (proj2 (H "G")) as (f & _ & Hs); [unfold MsPolicy.bands; set_solver|].
  by eapply shows_length.
Qed.

(** A complete key is the key of a capture. *)
Lemma complete_key_split (k : string) :
  MsSingle.complete_key fs l k ->
  exists ts seq, k = ts +:+ "_" +:+ seq /\ String.length ts = 14.
Proof.
  intros H.
  destruct (proj2 (H "G")) as (f & _ & Hc);
    [unfold MsSingle.required_bands; set_solver|].
  apply capture_of_spec in Hc as (ts & seq & -> & Hs).
  exists ts, seq. split; [done|]. by eapply shows_length.
Qed.

(** The kept keys, read as captures. *)
Lemma keys_as_captures (keys : list string) :
  (forall k, k ∈ keys -> MsSingle.complete_key fs l k) ->
  exists captures : list (string * string),
    map (fun c => c.1 +:+ "_" +:+ c.2) captures = keys
    /\ Forall (fun c => String.length c.1 = 14) captures.
Proof.
  induction keys as [|k keys IH]; intros Hk; [by exists []|].
  destruct IH as (cs & Hcs & Hlen); [intros; apply Hk; by right|].
  destruct (complete_key_split k) as (ts & seq & -> & Hts); [apply Hk; by left|].
  exists ((ts, seq) :: cs). split; [by rewrite <- Hcs|by constructor].
Qed.
End CaptureFacts.

(** C3. For every list of multispectral file paths the grouper reads
    timestamp, sequence number and band off each base name by the grammar
    [DJI_<14 digits>_<digits>_MS_<band>.TIF] (letters in either case, the
    band taken in upper case) and groups by timestamp and sequence number:
    the captures it keeps are, each once, exactly the pairs of timestamp and
    sequence number whose bands among the listed files are G, NIR, R and RE
    and no other; [complete_sets] is their number; the emitted files are,
    capture after capture, four listed files of that capture showing G, NIR,
    R and RE in this order (where several listed files show the same band of
    a capture, the last of them).  Every emitted file belongs to a complete
    capture, so a capture that lacks one of the four bands contributes
    nothing.  [ms_files_count] is the length of the list; for a folder the
    list is what the patterns [*_MS_*.TIF] and [*_MS_*.tif] find, one after
    the other.  Eight files, the four bands for each of two captures, give 2
    complete sets and 8 files, also when they are found by the two patterns
    in a folder; with one band file removed they give 1 complete set and 4
    emitted files. *)
Theorem C3_set_grouper (fs : Os.view) (ms_files : list string) :
  let g := MsSingle.group_ms_files fs ms_files in
  MsSingle.g_ms_files_count g = length ms_files
  /\ (exists (captures : list (string * string)) (blocks : list (list string)),
        NoDup captures
        /\ (forall ts seq, (ts, seq) ∈ captures <-> MsPolicy.complete fs ms_files ts seq)
        /\ MsSingle.g_complete_sets g = length captures
        /\ MsSingle.g_image_files g = concat blocks
        /\ Forall2
             (fun capture block =>
                Forall2 (fun band f =>
                           f ∈ ms_files /\ MsPolicy.shows fs f capture.1 capture.2 band
                           /\ exists before later,
                                ms_files = before ++ f :: later
                                /\ forall f', f' ∈ later ->
                                     ~ MsPolicy.shows fs f' capture.1 capture.2 band)
                        MsPolicy.bands block)
             captures blocks)
  /\ (forall f ts seq band,
        f ∈ MsSingle.g_image_files g -> MsPolicy.shows fs f ts seq band ->
        MsPolicy.complete fs ms_files ts seq)
  /\ (forall ts seq band,
        band ∈ MsPolicy.bands -> ~ MsPolicy.has_band fs ms_files ts seq band ->
        forall f band', f ∈ MsSingle.g_image_files g ->
                        ~ MsPolicy.shows fs f ts seq band')
  /\ (forall folder folder_path route_number r,
        MsSingle.route_entry fs folder folder_path route_number = Some r ->
        let found := Os.fs_glob fs folder_path "*_MS_*.TIF"
                     ++ Os.fs_glob fs folder_path "*_MS_*.tif" in
        MsSingle.ms_files_count r = length found
        /\ MsSingle.complete_sets r
           = MsSingle.g_complete_sets (MsSingle.group_ms_files fs found)
        /\ MsSingle.image_files r
           = MsSingle.g_image_files (MsSingle.group_ms_files fs found)
        /\ 0 < MsSingle.complete_sets r)
  /\ (let fs0 := Os.view_of Os.Posix Scenario.dcim_root [] in
      let g8 := MsSingle.group_ms_files fs0 Scenario.eight_bands in
      MsSingle.g_complete_sets g8 = 2
      /\ MsSingle.g_ms_files_count g8 = 8
      /\ MsSingle.g_image_files g8 = Scenario.eight_bands)
  /\ (let folder := "DJI_202401010800_001_x" in
      let fs1 := Os.view_of Os.Posix Scenario.dcim_root
                   [(folder, Some Scenario.eight_bands)] in
      exists r,
        MsSingle.route_entry fs1 folder (Os.fs_join fs1 Scenario.dcim_root folder) "001"
        = Some r
        /\ MsSingle.complete_sets r = 2 /\ MsSingle.ms_files_count r = 8
        /\ MsSingle.image_files r
           = map (Os.fs_join fs1 (Os.fs_join fs1 Scenario.dcim_root folder))
                 Scenario.eight_bands)
  /\ (let fs0 := Os.view_of Os.Posix Scenario.dcim_root [] in
      let g7 := MsSingle.group_ms_files fs0 (removelast Scenario.eight_bands) in
      MsSingle.g_complete_sets g7 = 1
      /\ MsSingle.g_ms_files_count g7 = 7
      /\ MsSingle.g_image_files g7 = take 4 Scenario.eight_bands).
Proof.
  intros g.
  destruct (grouped_fields fs ms_files) as (Hn & Hfiles & Hcount).
  set (keys := PyDict.keys (MsSingle.complete_groups fs ms_files)).
  assert (Hkeys : forall k, k ∈ keys <-> MsSingle.complete_key fs ms_files k)
    by apply kept_keys.
  assert (Hnd : NoDup keys) by apply filter_keys_NoDup, groups_NoDup.
  destruct (keys_as_captures fs ms_files keys) as (captures & Hmap & Hlen);
    [intros k; apply Hkeys|].
  assert (Hcap : forall ts seq,
            (ts, seq) ∈ captures <-> MsPolicy.complete fs ms_files ts seq).
  { intros ts seq. split.
    - intros Hin. apply complete_key_capture.
      + by apply (proj1 (Forall_forall _ _) Hlen (ts, seq)).
      + apply Hkeys. rewrite <- Hmap.
        apply list_elem_of_fmap. by exists (ts, seq).
    - intros Hc. pose proof (complete_length fs ms_files ts seq Hc) as Hts.
      apply complete_key_capture, Hkeys in Hc; [|done].
      rewrite <- Hmap in Hc. apply list_elem_of_fmap in Hc as ([ts' seq'] & Heq & Hin).
      apply capture_key_inj in Heq as [-> ->]; [done|done|].
      by apply (proj1 (Forall_forall _ _) Hlen (ts', seq')). }
  assert (Himg : MsSingle.g_image_files g
            = concat (map (fun c => map (MsSingle.emitted fs ms_files (c.1 +:+ "_" +:+ c.2))
                                        MsSingle.required_bands) captures)).
  { subst g. rewrite Hfiles, (kept_files fs ms_files) by done.
    fold keys. rewrite <- Hmap. by rewrite map_map. }
  assert (Hshown : forall c b, c ∈ captures -> b ∈ MsSingle.required_bands ->
            let f := MsSingle.emitted fs ms_files (c.1 +:+ "_" +:+ c.2) b in
            f ∈ ms_files /\ MsPolicy.shows fs f c.1 c.2 b
            /\ exists before later,
                 ms_files = before ++ f :: later
                 /\ forall f', f' ∈ later -> ~ MsPolicy.shows fs f' c.1 c.2 b).
  { intros [ts0 seq0] b Hc Hb. cbn [fst snd].
    assert (Hts0 : String.length ts0 = 14)
      by apply (proj1 (Forall_forall _ _) Hlen (ts0, seq0) Hc).
    assert (Hk : ts0 +:+ "_" +:+ seq0 ∈ keys).
    { rewrite <- Hmap. apply list_elem_of_fmap. by exists (ts0, seq0). }
    apply Hkeys in Hk. apply Hk, has_band_file in Hb as [f Hf].
    unfold MsSingle.emitted. rewrite Hf. cbn [default].
    pose proof (groups_sound fs ms_files _ _ _ Hf) as [Hin Hcapt].
    pose proof (groups_last fs ms_files _ _ _ Hf) as (l1 & l2 & Hsplit & Hl2).
    split; [done|]. split.
    - apply capture_of_spec in Hcapt as (ts & seq & Hkey & Hs).
      apply capture_key_inj in Hkey as [Hts Hseq]; [|done|by eapply shows_length].
      by rewrite <- Hts, <- Hseq in Hs.
    - exists l1, l2. split; [done|]. intros f' Hf' Hs. apply (Hl2 f' Hf').
      apply capture_of_spec. by exists ts0, seq0. }
  assert (Hbelongs : forall f ts seq band,
            f ∈ MsSingle.g_image_files g -> MsPolicy.shows fs f ts seq band ->
            MsPolicy.complete fs ms_files ts seq).
  { intros f ts seq band Hf Hs. rewrite Himg in Hf.
    apply list_elem_of_In, in_concat in Hf as (block & Hblock & Hf).
    apply list_elem_of_In in Hblock, Hf.
    apply list_elem_of_fmap in Hblock as ([ts' seq'] & -> & Hc).
    apply list_elem_of_fmap in Hf as (b & -> & Hb).
    destruct (Hshown _ b Hc Hb) as (_ & (b1 & Hn1 & _) & _). cbn [fst snd] in *.
    destruct Hs as (b2 & Hn2 & _).
    apply match_ms_filename_complete in Hn1, Hn2. rewrite Hn1 in Hn2.
    injection Hn2 as -> -> ->. by apply Hcap. }
  split_and!.
  - exact Hcount.
  - exists captures,
      (map (fun c => map (MsSingle.emitted fs ms_files (c.1 +:+ "_" +:+ c.2))
                         MsSingle.required_bands) captures).
    split_and!.
    + apply (NoDup_fmap_1 (fun c : string * string => c.1 +:+ "_" +:+ c.2)).
      change (NoDup (map (fun c : string * string => c.1 +:+ "_" +:+ c.2) captures)).
      by rewrite Hmap.
    + exact Hcap.
    + subst g. rewrite Hn, <- dict_keys_length. fold keys.
      by rewrite <- Hmap, length_map.
    + exact Himg.
    + apply Forall2_fmap_r, Forall_Forall2_diag, Forall_forall. intros c Hc.
      apply Forall2_fmap_r, Forall_Forall2_diag, Forall_forall. intros b Hb.
      by apply Hshown.
  - exact Hbelongs.
  - intros ts seq band Hband Hno f band' Hf Hs.
    apply Hno, (Hbelongs f ts seq band' Hf Hs), Hband.
  - intros folder folder_path route_number r. unfold MsSingle.route_entry.
    change (MsSingle.ms_files_of fs folder_path)
      with (Os.fs_glob fs folder_path "*_MS_*.TIF"
            ++ Os.fs_glob fs folder_path "*_MS_*.tif").
    destruct (Nat.ltb_spec 0 (MsSingle.g_complete_sets
                (MsSingle.group_ms_files fs
                   (Os.fs_glob fs folder_path "*_MS_*.TIF"
                    ++ Os.fs_glob fs folder_path "*_MS_*.tif")))) as [Hpos|]; [|done].
    intros [= <-]. cbn. split_and!; try done.
    apply (proj2 (proj2 (grouped_fields fs _))).
  - by vm_compute.
  - vm_compute. eexists. split; [reflexivity|]. done.
  - by vm_compute.
Qed.

Lemma C3_set_grouper_witness :
  let fs0 := Os.view_of Os.Posix Scenario.dcim_root [] in
  let seven := removelast Scenario.eight_bands in
  MsSingle.g_complete_sets (MsSingle.group_ms_files fs0 seven) = 1
  /\ forall f band', f ∈ MsSingle.g_image_files (MsSingle.group_ms_files fs0 seven) ->
                     ~ MsPolicy.shows fs0 f "20240101080002" "0002" band'.
Proof.
  intros fs0 seven. split; [by vm_compute|].
  apply (proj1 (proj2 (proj2 (proj2 (C3_set_grouper fs0 seven))))
           "20240101080002" "0002" "RE").
  - unfold MsPolicy.bands. set_solver.
  - intros (f & Hf & b & Hn%match_ms_filename_complete & Hb). vm_compute in Hf.
    repeat (apply elem_of_cons in Hf as [->|Hf];
            [vm_compute in Hn;
             first [discriminate Hn
                   |injection Hn as <-; vm_compute in Hb; discriminate Hb]|]).
    by apply elem_of_nil in Hf.
Defined.

(** On a file system whose [glob] ignores case both patterns of
    [scan_dcim_folders_ms] match every band file, so the folder's
    [ms_files_count] is twice the number of files. *)
Example ms_files_count_case_insensitive :
  let t := [("DJI_202401010800_001_x", Some Scenario.eight_bands)] in
  let folder_path := "/data/DCIM/DJI_202401010800_001_x" in
  (MsSingle.ms_files_count
     <$> MsSingle.route_entry (Os.view_of Os.Posix Scenario.dcim_root t)
           "DJI_202401010800_001_x" folder_path "001") = Some 8
  /\ (MsSingle.complete_sets
     <$> MsSingle.route_entry (Os.view_of Os.Posix Scenario.dcim_root t)
           "DJI_202401010800_001_x" folder_path "001") = Some 2
  /\ (MsSingle.ms_files_count
     <$> MsSingle.route_entry (Os.view_of Os.Windows Scenario.dcim_root t)
           "DJI_202401010800_001_x" (Os.join Os.Windows Scenario.dcim_root "DJI_202401010800_001_x")
           "001") = Some 16.
Proof. split_and!; by vm_compute. Qed.

(** ** Setting up the project folder *)

Section MakedirsFacts.
Import Py Os Versioner.
Variables (makedirs : string -> option exn) (pf : platform) (output_base base : string).

(** The versioner returns the first version whose folder is absent or
    empty.  It raises when a regular file sits at that name, or when the
    folder is absent and [os.makedirs] cannot create it. *)
Lemma versioned_on_result (out : outdir) :
  exists v, 1 <= v
    /\ (forall w, 1 <= w < v -> occupied out (folder_at base w))
    /\ ~ occupied out (folder_at base v)
    /\ Makedirs.versioned_on makedirs pf output_base base (enough out) out
       = Some (match out !! folder_at base v with
               | Some File =>
                   Raise (NotADirectoryError (join pf output_base (folder_at base v)))
               | Some (Dir _) => Return (project_at pf output_base base v, out)
               | None =>
                   match makedirs (join pf output_base (folder_at base v)) with
                   | Some e => Raise e
                   | None => Return (project_at pf output_base base v,
                                     <[folder_at base v := Dir []]> out)
                   end
               end).
Proof.
  destruct (versioned_terminates output_base pf base out) as [r Hr].
  pose proof Hr as (v & Hv & Hocc & Hfree & ->)%versioned_spec.
  exists v. split_and!; try done.
  unfold Makedirs.versioned_on. rewrite Hr.
  destruct (out !! folder_at base v) as [[|es]|] eqn:Hat; [done| |].
  - cbn [project_folder project_at]. by rewrite Hat.
  - cbn [project_folder project_path project_at]. rewrite Hat.
    by destruct (makedirs _).
Qed.
End MakedirsFacts.


(** ** The whole multi-route run *)

Section CombinedRunFacts.
Import Py Os Pipeline Versioner.
Context {R : Type} (route_number : R -> string) (image_files : R -> list string).
Variable find : view -> list string -> string -> outcome (list R).
Variables (gs ns ps tag : string) (downscale : nat).
Variables (pf : platform) (fs : view) (E : engine).
Variables (makedirs : string -> option exn) (dirname : string -> string) (merge : M unit).

Local Abbreviation run :=
  (CombinedRun.process_combined_routes route_number image_files find gs ns ps tag
     downscale pf fs E makedirs dirname merge).

(** A run that stops in Step 0 makes no engine call. *)
Lemma run_stops_in_step0 (r : Entry.resolved) (out : outdir) (h : history) s :
  Entry.step0 route_number find gs ns fs r = inl s -> run r out h = Some (h, false).
Proof. intros Hs. unfold CombinedRun.process_combined_routes. by rewrite Hs. Qed.

Lemma run_stops_on_empty_lookup (r : Entry.resolved) (out : outdir) (h : history) dcim :
  Entry.r_dcim_path r = Some dcim ->
  find fs (Entry.r_route_numbers r) dcim = Return [] ->
  run r out h = Some (h, false).
Proof.
  intros Hd Hf.
  destruct (step0_stops_on_empty route_number find gs ns fs r dcim Hd Hf) as [s Hs].
  by eapply run_stops_in_step0.
Qed.

(** What the run does once Step 0 is over. *)
Lemma run_after_step0 (r : Entry.resolved) (out : outdir) (h : history) :
  exists res, run r out h = Some res
  /\ match Entry.step0 route_number find gs ns fs r with
     | inl _ => res = (h, false)
     | inr (_, valid_routes) =>
         exists output_path v,
           Entry.r_output_path r = Some output_path /\ 1 <= v
           /\ let base := "combined_routes_" +:+ join_with "_" (Entry.r_route_numbers r)
                          +:+ ps in
              let p := project_at pf output_path base v in
              (forall w, 1 <= w < v -> occupied out (folder_at base w))
              /\ ((res = (h, false)
                   /\ (out !! folder_at base v = Some File
                       \/ (out !! folder_at base v = None
                           /\ is_Some (makedirs (project_path p)))))
                  \/ ((out !! folder_at base v = Some (Dir [])
                       \/ (out !! folder_at base v = None
                           /\ makedirs (project_path p) = None))
                      /\ exists h' result,
                           process_imported route_number image_files E tag downscale
                             merge valid_routes (project_full_path p)
                             (join pf (dirname (project_full_path p))
                                ("processing_report_combined_routes_"
                                 +:+ join_with "_" (Entry.r_route_numbers r)
                                 +:+ ps +:+ ".pdf")) h = (h', result)
                           /\ res = (h', match result with
                                         | Return b => b | Raise _ => false end)))
     end.
Proof.
  unfold CombinedRun.process_combined_routes.
  destruct (Entry.step0 route_number find gs ns fs r) as [s|[r' vs]] eqn:Hs;
    [by eexists|].
  assert (Ho : exists output_path, Entry.r_output_path r = Some output_path).
  { revert Hs. unfold Entry.step0, Entry.incomplete.
    destruct (truthy (Entry.r_output_path r)) eqn:Ht.
    - destruct (Entry.r_output_path r) as [o|]; [by exists o|done].
    - by rewrite !orb_true_r. }
  destruct Ho as [output_path Ho]. rewrite Ho. cbv zeta.
  destruct (versioned_on_result makedirs pf output_path
              ("combined_routes_" +:+ join_with "_" (Entry.r_route_numbers r) +:+ ps) out)
    as (v & Hv & Hocc & Hfree & ->).
  destruct (out !! folder_at _ v) as [[|[|x xs]]|] eqn:Hat.
  - eexists. split; [done|]. exists output_path, v. split_and!; try done.
    left. split; [done|by left].
  - destruct (process_imported _ _ _ _ _ _ _ _ _ _) as [h' result] eqn:Hrun.
    eexists. split; [done|]. exists output_path, v. split_and!; try done.
    right. split; [by left|]. by exists h', result.
  - exfalso. apply Hfree. by exists x, xs.
  - cbn [project_path project_at].
    destruct (makedirs (join pf output_path (folder_at _ v))) as [e|] eqn:Hmk.
    + eexists. split; [done|]. exists output_path, v. split_and!; try done.
      left. split; [done|]. right. split; [done|]. cbn [project_path project_at].
      by rewrite Hmk.
    + destruct (process_imported _ _ _ _ _ _ _ _ _ _) as [h' result] eqn:Hrun.
      eexists. split; [done|]. exists output_path, v. split_and!; try done.
      right. split; [right; split; [done|]; cbn [project_path project_at]; done|].
      by exists h', result.
Qed.
End CombinedRunFacts.

(** ** The two-route minimum *)

(** C10. Each multi-route script's [find_routes_by_numbers] returns the
    empty list when the catalog resolves fewer than two of the requested
    route numbers, a number counting as often as it is requested, and what
    it returns otherwise has at least two entries; on the empty list
    [process_combined_routes] returns [False] at Step 0 without any engine
    call; and the form's [validate_inputs] rejects Multiple mode with fewer
    than two selected routes. *)
Theorem C10_two_route_minimum :
  (forall fs rns dcim all_routes,
     RgbCombined.scan_dcim_folders fs dcim = Py.Return all_routes ->
     (Lookup.resolved_count RgbCombined.route_number rns all_routes < 2 ->
      RgbCombinedLookup.find_routes_by_numbers fs rns dcim = Py.Return [])
     /\ exists found,
          RgbCombinedLookup.find_routes_by_numbers fs rns dcim = Py.Return found
          /\ (found = [] \/ 2 <= length found))
  /\ (forall fs rns dcim all_routes,
     MsCombined.scan_dcim_folders_ms fs dcim = Py.Return all_routes ->
     (Lookup.resolved_count MsCombined.route_number rns all_routes < 2 ->
      MsCombined.find_routes_by_numbers fs rns dcim = Py.Return [])
     /\ exists found,
          MsCombined.find_routes_by_numbers fs rns dcim = Py.Return found
          /\ (found = [] \/ 2 <= length found))
  /\ (forall fs rns dcim all_routes,
     RgbMsCombined.scan_dcim_folders_combined fs dcim = Py.Return all_routes ->
     (Lookup.resolved_count RgbMsCombined.route_number rns all_routes < 2 ->
      RgbMsCombined.find_routes_by_numbers fs rns dcim = Py.Return [])
     /\ exists found,
          RgbMsCombined.find_routes_by_numbers fs rns dcim = Py.Return found
          /\ (found = [] \/ 2 <= length found))
  /\ (forall pf fs E makedirs dirname merge g a out h dcim,
     Entry.r_dcim_path (Entry.resolve_with_gcp_base g a) = Some dcim ->
     RgbCombinedLookup.find_routes_by_numbers fs
       (Entry.r_route_numbers (Entry.resolve_with_gcp_base g a)) dcim = Py.Return [] ->
     CombinedRun.rgb_combined pf fs E makedirs dirname merge g a out h = Some (h, false))
  /\ (forall pf fs E makedirs dirname merge g a out h dcim,
     Entry.r_dcim_path (Entry.resolve_with_gcp_base g a) = Some dcim ->
     MsCombined.find_routes_by_numbers fs
       (Entry.r_route_numbers (Entry.resolve_with_gcp_base g a)) dcim = Py.Return [] ->
     CombinedRun.ms_combined pf fs E makedirs dirname merge g a out h = Some (h, false))
  /\ (forall pf fs E makedirs dirname merge g a out h dcim,
     Entry.r_dcim_path (Entry.resolve_rgb_ms g a) = Some dcim ->
     RgbMsCombined.find_routes_by_numbers fs
       (Entry.r_route_numbers (Entry.resolve_rgb_ms g a)) dcim = Py.Return [] ->
     CombinedRun.rgb_ms_combined pf fs E makedirs dirname merge g a out h = Some (h, false))
  /\ (forall f,
     ConfigTool.route_mode f = "Multiple" ->
     length (ConfigTool.selected_routes f) < 2 ->
     fst (ConfigTool.validate_inputs f) = false).
Proof.
  repeat apply conj.
  - intros fs rns dcim all Hs. unfold RgbCombinedLookup.find_routes_by_numbers.
    rewrite Hs. split; [intros Hc; by rewrite find_in_catalog_few|].
    eexists. split; [done|apply find_in_catalog_length].
  - intros fs rns dcim all Hs. unfold MsCombined.find_routes_by_numbers.
    rewrite Hs. split; [intros Hc; by rewrite find_in_catalog_few|].
    eexists. split; [done|apply find_in_catalog_length].
  - intros fs rns dcim all Hs. unfold RgbMsCombined.find_routes_by_numbers.
    rewrite Hs. split; [intros Hc; by rewrite find_in_catalog_few|].
    eexists. split; [done|apply find_in_catalog_length].
  - intros pf fs E makedirs dirname merge g a out h dcim Hd Hf.
    by eapply run_stops_on_empty_lookup.
  - intros pf fs E makedirs dirname merge g a out h dcim Hd Hf.
    by eapply run_stops_on_empty_lookup.
  - intros pf fs E makedirs dirname merge g a out h dcim Hd Hf.
    by eapply run_stops_on_empty_lookup.
  - intros f Hm Hl. unfold ConfigTool.validate_inputs.
    destruct (negb (ConfigTool.nonempty (ConfigTool.script_base_path f))); [done|].
    destruct (negb (ConfigTool.nonempty (ConfigTool.dcim_path f))); [done|].
    destruct (negb (ConfigTool.nonempty (ConfigTool.gcp_path f))); [done|].
    destruct (negb (ConfigTool.nonempty (ConfigTool.output_path f))); [done|].
    destruct (ConfigTool.selected_routes f) as [|sel0 sels]; [done|].
    rewrite Hm. simpl String.eqb.
    destruct (Nat.ltb_spec (length (sel0 :: sels)) 2); [done|lia].
Qed.

Lemma C10_two_route_minimum_witness :
  let fs := Os.view_of Os.Posix Scenario.dcim_root Scenario.survey in
  let a := {| Entry.route_numbers := Some ["001"; "007"]; Entry.dcim_path := None;
              Entry.gcp_path := None; Entry.output_path := None |} in
  RgbCombinedLookup.find_routes_by_numbers fs ["001"; "007"] Scenario.dcim_root
    = Py.Return []
  /\ CombinedRun.rgb_combined Os.Posix fs (Pipeline.cooperative 1)
       Makedirs.always_creates PosixPath.dirname (Pipeline.ret tt)
       Scenario.configured a ∅ [] = Some ([], false)
  /\ fst (ConfigTool.validate_inputs
            {| ConfigTool.script_base_path := "/scripts";
               ConfigTool.dcim_path := Scenario.dcim_root;
               ConfigTool.gcp_path := "/data/GCP";
               ConfigTool.output_path := "/data/out";
               ConfigTool.selected_routes := ["001"];
               ConfigTool.route_mode := "Multiple" |}) = false.
Proof.
  intros fs a.
  destruct C10_two_route_minimum as (H1 & _ & _ & H4 & _ & _ & H7).
  assert (Hfind : RgbCombinedLookup.find_routes_by_numbers fs ["001"; "007"]
                    Scenario.dcim_root = Py.Return []).
  { destruct (RgbCombined.scan_dcim_folders fs Scenario.dcim_root) as [all|e] eqn:E;
      [|by vm_compute in E].
    apply (H1 fs ["001"; "007"] Scenario.dcim_root all E).
    vm_compute in E. injection E as <-. vm_compute. lia. }
  split; [exact Hfind|]. split.
  - apply (H4 Os.Posix fs (Pipeline.cooperative 1) Makedirs.always_creates
             PosixPath.dirname (Pipeline.ret tt) Scenario.configured a ∅ []
             Scenario.dcim_root); [reflexivity|exact Hfind].
  - apply H7; [reflexivity|simpl; lia].
Defined.

(** The two-route minimum is not a minimum on the routes that are
    processed.  Routes 001 and 002 are both found, only route 001 has a GCP
    file: the run imports this one route and completes.  And route 001
    requested twice passes the lookup with one folder, which is imported
    twice. *)
Lemma C10_single_route_is_processed :
  let fs := Scenario.also_existing ["/data/GCP/gcp_route_001.xml"]
              (Os.view_of Os.Posix Scenario.dcim_root Scenario.two_routes) in
  let run := CombinedRun.rgb_combined Os.Posix fs (Pipeline.cooperative 1)
               Makedirs.always_creates PosixPath.dirname (Pipeline.ret tt)
               Scenario.configured in
  let photos := ["/data/DCIM/DJI_202401010800_001_x/DJI_20240101080001_0001_D.JPG"] in
  (snd <$> run Scenario.no_arguments ∅ []) = Some true
  /\ ((fun res => Imported.photos res.1) <$> run Scenario.no_arguments ∅ [])
     = Some [photos]
  /\ (let twice := {| Entry.route_numbers := Some ["001"; "001"];
                      Entry.dcim_path := None; Entry.gcp_path := None;
                      Entry.output_path := None |} in
      (snd <$> run twice ∅ []) = Some true
      /\ ((fun res => Imported.photos res.1) <$> run twice ∅ [])
         = Some [photos; photos]).
Proof. split_and!; by vm_compute. Qed.

(* ===================================================================== *)
(** * Part III: further properties of the scripts *)
(* ===================================================================== *)

(** ** Route selection *)

Section SelectionFacts.
Context {R : Type} (route_number : R -> string).

Lemma first_route_number n (all_routes : list R) r :
  Lookup.first_route route_number n all_routes = Some r ->
  route_number r = n /\ r ∈ all_routes.
Proof.
  unfold Lookup.first_route. intros H.
  apply find_some in H as [Hin He].
  apply String.eqb_eq in He. split; [done|]. by apply list_elem_of_In.
Qed.

Lemma collect_numbers route_numbers (all_routes : list R) :
  map route_number (Lookup.collect route_number route_numbers all_routes)
  = filter (fun n => existsb (fun r => String.eqb (route_number r) n) all_routes)
           route_numbers.
Proof.
  rewrite collect_omap.
  induction route_numbers as [|n l IH]; simpl; [done|].
  rewrite filter_cons, first_route_existsb.
  destruct (Lookup.first_route route_number n all_routes) as [r|] eqn:E; simpl.
  - apply first_route_number in E as [-> _]. f_equal. exact IH.
  - exact IH.
Qed.

Lemma collect_first route_numbers (all_routes : list R) :
  Forall (fun r => Lookup.first_route route_number (route_number r) all_routes = Some r)
         (Lookup.collect route_number route_numbers all_routes).
Proof.
  rewrite collect_omap.
  induction route_numbers as [|n l IH]; simpl; [constructor|].
  destruct (Lookup.first_route route_number n all_routes) as [r|] eqn:E; [|exact IH].
  constructor; [|exact IH].
  pose proof (first_route_number _ _ _ E) as [-> _]. exact E.
Qed.

(** Inserting a route into a list ordered by route number does not change
    which route a number is looked up to, except that the inserted route
    wins over routes with the same number. *)
Lemma first_route_insert_by n x (l : list R) :
  Lookup.first_route route_number n (Py.insert_by route_number x l)
  = if String.eqb (route_number x) n then Some x
    else Lookup.first_route route_number n l.
Proof.
  unfold Lookup.first_route.
  induction l as [|y l IH]; simpl; [done|].
  destruct (Py.str_ltb (route_number y) (route_number x)) eqn:Hlt; simpl; [|done].
  rewrite IH.
  destruct (String.eqb (route_number y) n) eqn:Hy; [|done].
  destruct (String.eqb (route_number x) n) eqn:Hx; [|done].
  apply String.eqb_eq in Hy, Hx. rewrite Hy, Hx in Hlt.
  pose proof (str_ltb_asym _ _ Hlt) as Hn. congruence.
Qed.

(** Python's stable sort keeps, among routes with the same number, the
    one that was appended first in front. *)
Lemma first_route_sorted n (l : list R) :
  Lookup.first_route route_number n (Py.sorted route_number l)
  = Lookup.first_route route_number n l.
Proof.
  induction l as [|x l IH]; [done|].
  change (Py.sorted route_number (x :: l))
    with (Py.insert_by route_number x (Py.sorted route_number l)).
  rewrite first_route_insert_by, IH. done.
Qed.
End SelectionFacts.

(** ** Route selection, Step 0 and the configuration entry points *)

(** X1. The selection loop shared by the three find_routes_by_numbers and
    by process_selected_routes / process_selected_routes_ms returns, for
    the requested numbers that occur in the catalog and in the order in
    which they were requested (a number requested twice is selected twice),
    the first catalog entry carrying that number; requested numbers that
    are not in the catalog are dropped.  find_routes_by_numbers returns
    this selection or the empty list. *)
Theorem lookup_in_request_order {R : Type} (route_number : R -> string)
    (route_numbers : list string) (all_routes : list R) :
  let found := Lookup.collect route_number route_numbers all_routes in
  map route_number found
  = filter (fun n => existsb (fun r => String.eqb (route_number r) n) all_routes)
           route_numbers
  /\ Forall (fun r => r ∈ all_routes
                      /\ Lookup.first_route route_number (route_number r) all_routes
                         = Some r) found
  /\ (Lookup.find_in_catalog route_number route_numbers all_routes = found
      \/ Lookup.find_in_catalog route_number route_numbers all_routes = []).
Proof.
  intros found. subst found. split_and!.
  - apply collect_numbers.
  - pose proof (collect_first route_number route_numbers all_routes) as H.
    eapply Forall_impl; [exact H|]. intros r Hr. split; [|done].
    by apply first_route_number in Hr as [_ ?].
  - unfold Lookup.find_in_catalog. destruct all_routes; [by right|].
    destruct (_ <? 2); [by right|by left].
Qed.

(** X2. Sorting the catalog by route number does not change which folder
    a route number is looked up to: when several folders of the DCIM
    directory carry the same route number, every lookup returns the entry of
    the first of them in [os.listdir] order, in all four directory scans. *)
Theorem lookup_takes_first_listed_folder (fs : Os.view) (dcim_path : string)
    (names : list string) (n : string) :
  Lookup.first_route RgbSingle.route_number n
    (Py.sorted RgbSingle.route_number (RgbSingle.scan_loop fs dcim_path names))
  = Lookup.first_route RgbSingle.route_number n
      (omap (RgbSingle.scan_folder fs dcim_path) names)
  /\ Lookup.first_route RgbCombined.route_number n
       (Py.sorted RgbCombined.route_number (RgbCombined.scan_loop fs dcim_path names))
     = Lookup.first_route RgbCombined.route_number n
         (omap (RgbCombined.scan_folder fs dcim_path) names)
  /\ Lookup.first_route MsCombined.route_number n
       (Py.sorted MsCombined.route_number (MsCombined.scan_loop fs dcim_path names))
     = Lookup.first_route MsCombined.route_number n
         (omap (MsCombined.scan_folder fs dcim_path) names)
  /\ Lookup.first_route RgbMsCombined.route_number n
       (Py.sorted RgbMsCombined.route_number
          (RgbMsCombined.scan_loop fs dcim_path names))
     = Lookup.first_route RgbMsCombined.route_number n
         (omap (RgbMsCombined.scan_folder fs dcim_path) names).
Proof.
  rewrite !first_route_sorted.
  unfold RgbSingle.scan_loop, RgbCombined.scan_loop, MsCombined.scan_loop,
    RgbMsCombined.scan_loop.
  by rewrite !fold_left_append_omap.
Qed.

Section Step0Facts.
Context {R : Type} (route_number : R -> string).
Variables (gs ns : string) (fs : Os.view).

Lemma validate_routes_filter (routes : list R) (gcp : string) :
  map Entry.v_route (Entry.validate_routes_and_gcps route_number gs ns fs routes gcp)
  = filter (fun route =>
              Os.fs_exists fs
                (Entry.get_gcp_file_path gs fs (route_number route) gcp) = true)
           routes.
Proof.
  unfold Entry.validate_routes_and_gcps.
  set (f := fun route : R =>
         if Os.fs_exists fs (Entry.get_gcp_file_path gs fs (route_number route) gcp)
         then Some {| Entry.v_route := route;
                      Entry.v_gcp_path :=
                        Entry.get_gcp_file_path gs fs (route_number route) gcp;
                      Entry.v_name := "Route_" +:+ route_number route +:+ ns |}
         else None).
  assert (Hfold : forall l acc,
    fold_left
      (fun valid_routes route =>
         let route_num := route_number route in
         let gcp_path := Entry.get_gcp_file_path gs fs route_num gcp in
         if negb (Os.fs_exists fs gcp_path) then valid_routes
         else valid_routes ++
                [{| Entry.v_route := route; Entry.v_gcp_path := gcp_path;
                    Entry.v_name := "Route_" +:+ route_num +:+ ns |}])
      l acc = acc ++ omap f l).
  { induction l as [|x l IH]; intros acc; cbn [fold_left].
    - by rewrite app_nil_r.
    - rewrite IH. cbn. unfold f at 2.
      destruct (Os.fs_exists fs _); cbn; [by rewrite <- app_assoc|done]. }
  rewrite Hfold. cbn [app].
  induction routes as [|x l IH]; [done|].
  rewrite filter_cons. cbn -[filter]. unfold f at 1.
  destruct (Os.fs_exists fs _) eqn:Hx; cbn -[filter].
  - rewrite decide_True by done. f_equal. exact IH.
  - rewrite decide_False by (by intros ?). exact IH.
Qed.
End Step0Facts.

(** X3. Step 0 of the multi-route scripts keeps exactly the found routes
    whose GCP file exists, in the order found, and drops the others.  The
    validation is passed exactly when the configuration is complete, the
    lookup returned and at least one route remains; the two-route minimum of
    the lookup is not checked again, one remaining route is enough.  The run
    then sets up its project folder, and it enters Step 1 with the remaining
    routes exactly when that set-up returns: when a regular file sits at the
    chosen folder name, or the folder is absent and [os.makedirs] fails, the
    run returns [False] without any engine call, as it does when Step 0
    stops. *)
Theorem step0_keeps_routes_with_gcp_file {R : Type} (route_number : R -> string)
    (image_files : R -> list string)
    (find : Os.view -> list string -> string -> Py.outcome (list R))
    (gs ns ps tag : string) (downscale : nat) (pf : Os.platform) (fs : Os.view)
    (E : Pipeline.engine) (makedirs : string -> option Py.exn)
    (dirname : string -> string) (merge : Pipeline.M unit)
    (r r' : Entry.resolved) (vs : list (Entry.validated R))
    (out : Versioner.outdir) (h : Pipeline.history) :
  (forall routes gcp,
     map Entry.v_route
         (Entry.validate_routes_and_gcps route_number gs ns fs routes gcp)
     = filter (fun route =>
                 Os.fs_exists fs
                   (Entry.get_gcp_file_path gs fs (route_number route) gcp) = true)
              routes)
  /\ (Entry.step0 route_number find gs ns fs r = inr (r', vs)
      <-> Entry.incomplete r = false /\ r' = r /\ vs <> []
          /\ exists dcim gcp found,
               Entry.r_dcim_path r = Some dcim /\ Entry.r_gcp_path r = Some gcp
               /\ find fs (Entry.r_route_numbers r) dcim = Py.Return found
               /\ vs = Entry.validate_routes_and_gcps route_number gs ns fs found gcp)
  /\ exists res,
       CombinedRun.process_combined_routes route_number image_files find gs ns ps tag
         downscale pf fs E makedirs dirname merge r out h = Some res
       /\ match Entry.step0 route_number find gs ns fs r with
          | inl _ => res = (h, false)
          | inr (_, valid_routes) =>
              exists output_path v,
                Entry.r_output_path r = Some output_path /\ 1 <= v
                /\ let base := "combined_routes_"
                               +:+ Py.join_with "_" (Entry.r_route_numbers r) +:+ ps in
                   let p := Versioner.project_at pf output_path base v in
                   (forall w, 1 <= w < v ->
                              Versioner.occupied out (Versioner.folder_at base w))
                   /\ ((res = (h, false)
                        /\ (out !! Versioner.folder_at base v = Some Versioner.File
                            \/ (out !! Versioner.folder_at base v = None
                                /\ is_Some (makedirs (Versioner.project_path p)))))
                       \/ ((out !! Versioner.folder_at base v = Some (Versioner.Dir [])
                            \/ (out !! Versioner.folder_at base v = None
                                /\ makedirs (Versioner.project_path p) = None))
                           /\ exists h' result,
                                Pipeline.process_imported route_number image_files E tag
                                  downscale merge valid_routes
                                  (Versioner.project_full_path p)
                                  (Os.join pf (dirname (Versioner.project_full_path p))
                                     ("processing_report_combined_routes_"
                                      +:+ Py.join_with "_" (Entry.r_route_numbers r)
                                      +:+ ps +:+ ".pdf")) h = (h', result)
                                /\ res = (h', match result with
                                              | Py.Return b => b
                                              | Py.Raise _ => false
                                              end)))
          end.
Proof.
  split; [apply validate_routes_filter|]. split; [|apply run_after_step0].
  unfold Entry.step0. split.
  - destruct (Entry.incomplete r); [done|].
    destruct (Entry.r_dcim_path r) as [dcim|]; [|done].
    destruct (Entry.r_gcp_path r) as [gcp|]; [|done].
    destruct (find fs (Entry.r_route_numbers r) dcim) as [[|x found]|] eqn:Hf;
      [done| |done].
    destruct (Entry.validate_routes_and_gcps route_number gs ns fs (x :: found) gcp)
      as [|v vs'] eqn:Hv; [done|].
    intros [= <- <-]. split_and!; try done. by exists dcim, gcp, (x :: found).
  - intros (Hi & -> & Hne & dcim & gcp & found & Hd & Hg & Hf & ->).
    rewrite Hi, Hd, Hg, Hf.
    destruct found as [|x found]; [done|].
    by destruct (Entry.validate_routes_and_gcps route_number gs ns fs (x :: found) gcp).
Qed.

(** X4. [run_combined_rgb_ms_automation()] never reaches route discovery:
    whatever was configured, either [validate_configuration()] raises its
    ValueError or [process_combined_routes()], called without arguments,
    finds no GCP path and returns [False] at its configuration check. *)
Theorem rgb_ms_run_stops_at_configuration (fs : Os.view) (g : Entry.globals) :
  (exists message, Configure.run_combined_rgb_ms_automation fs g = inl message)
  \/ Configure.run_combined_rgb_ms_automation fs g
     = inr (inl Entry.ConfigurationIncomplete).
Proof.
  unfold Configure.run_combined_rgb_ms_automation, Configure.run_combined.
  destruct (Configure.validate_configuration g); [right|left; by eexists].
  f_equal.
  unfold RgbMsCombinedEntry.process_combined_routes, Entry.step0, Entry.incomplete.
  cbn. by rewrite orb_true_r.
Qed.

Lemma validate_configuration_Valid (g : Entry.globals) :
  Configure.validate_configuration g = Configure.Valid
  <-> Py.truthy (Entry.dcim_base_path g) = true
      /\ Py.truthy (Entry.gcp_base_path g) = true
      /\ Py.truthy (Entry.output_base_path g) = true
      /\ Entry.routes_to_combine g <> [].
Proof.
  unfold Configure.validate_configuration.
  destruct (Py.truthy (Entry.dcim_base_path g)); cbn; [|split; [done|by intros [? _]]].
  destruct (Py.truthy (Entry.gcp_base_path g)); cbn;
    [|split; [done|by intros (_ & ? & _)]].
  destruct (Py.truthy (Entry.output_base_path g)); cbn;
    [|split; [done|by intros (_ & _ & ? & _)]].
  destruct (Entry.routes_to_combine g); [split; [done|by intros (_ & _ & _ & ?)]|].
  done.
Qed.

Lemma truthy_Some (o : option string) :
  Py.truthy o = true -> exists s, o = Some s /\ s <> "".
Proof.
  destruct o as [s|]; [|done]. cbn. intros H. exists s. split; [done|].
  intros ->. done.
Qed.

(** X5. In the RGB and MS multi-route scripts [validate_configuration()]
    accepts exactly the configurations that the check at the top of
    [process_combined_routes()] accepts, so [run_combined_rgb_automation()]
    and [run_combined_ms_automation()] either raise the ValueError or enter
    Step 0 with the four configured values; their "Configuration
    incomplete" return is never taken. *)
Theorem run_combined_enters_step0 (fs : Os.view) (g : Entry.globals) :
  (Configure.validate_configuration g = Configure.Valid
   <-> Entry.incomplete (Entry.resolve_with_gcp_base g Configure.omitted) = false)
  /\ Configure.run_combined_rgb_automation fs g <> inr (inl Entry.ConfigurationIncomplete)
  /\ Configure.run_combined_ms_automation fs g <> inr (inl Entry.ConfigurationIncomplete)
  /\ (Configure.validate_configuration g = Configure.Valid ->
      exists dcim gcp output,
        Entry.dcim_base_path g = Some dcim /\ Entry.gcp_base_path g = Some gcp
        /\ Entry.output_base_path g = Some output
        /\ let r := {| Entry.r_route_numbers := Entry.routes_to_combine g;
                       Entry.r_dcim_path := Some dcim;
                       Entry.r_gcp_path := Some gcp;
                       Entry.r_output_path := Some output |} in
           Configure.run_combined_rgb_automation fs g
           = inr (Entry.step0 RgbCombined.route_number
                    RgbCombinedLookup.find_routes_by_numbers "" "_RGB" fs r)
           /\ Configure.run_combined_ms_automation fs g
              = inr (Entry.step0 MsCombined.route_number
                       MsCombined.find_routes_by_numbers "_MS" "_MS" fs r)).
Proof.
  assert (Hagree : Configure.validate_configuration g = Configure.Valid
    <-> Entry.incomplete (Entry.resolve_with_gcp_base g Configure.omitted) = false).
  { rewrite validate_configuration_Valid. unfold Entry.incomplete. cbn.
    destruct (Py.truthy (Entry.dcim_base_path g)),
             (Py.truthy (Entry.gcp_base_path g)),
             (Py.truthy (Entry.output_base_path g)),
             (Entry.routes_to_combine g); cbn;
      (split; [by intros (? & ? & ? & ?)|intros ?; by split_and!]). }
  assert (Hstep : forall {R} (rn : R -> string) find gs ns,
    Entry.incomplete (Entry.resolve_with_gcp_base g Configure.omitted) = false ->
    Entry.step0 rn find gs ns fs (Entry.resolve_with_gcp_base g Configure.omitted)
    <> inl Entry.ConfigurationIncomplete).
  { intros R rn find gs ns Hi. unfold Entry.step0. rewrite Hi.
    apply Hagree, validate_configuration_Valid in Hi as (Hd & Hg & _).
    apply truthy_Some in Hd as (d & Hd & _). apply truthy_Some in Hg as (gp & Hg & _).
    cbn. rewrite Hd, Hg. cbn.
    destruct (find fs (Entry.routes_to_combine g) d) as [[|x l]|]; try done.
    by destruct (Entry.validate_routes_and_gcps rn gs ns fs (x :: l) gp). }
  split_and!; [exact Hagree| | |].
  - unfold Configure.run_combined_rgb_automation, Configure.run_combined.
    destruct (Configure.validate_configuration g) eqn:Hv; [|done].
    intros [= H]. revert H. apply Hstep. by apply Hagree.
  - unfold Configure.run_combined_ms_automation, Configure.run_combined.
    destruct (Configure.validate_configuration g) eqn:Hv; [|done].
    intros [= H]. revert H. apply Hstep. by apply Hagree.
  - intros Hv.
    pose proof (proj1 (validate_configuration_Valid g) Hv) as (Hd & Hg & Ho & _).
    apply truthy_Some in Hd as (d & Hd & _). apply truthy_Some in Hg as (gp & Hg & _).
    apply truthy_Some in Ho as (o & Ho & _).
    exists d, gp, o. split_and!; try done.
    unfold Configure.run_combined_rgb_automation, Configure.run_combined_ms_automation,
      Configure.run_combined.
    rewrite Hv. unfold RgbCombinedEntry.process_combined_routes,
      MsCombinedEntry.process_combined_routes, Entry.resolve_with_gcp_base.
    cbn. by rewrite Hd, Hg, Ho.
Qed.

(** ** The configuration tool *)

Lemma escape_backslashes_nonempty (path : string) :
  path <> "" -> ConfigPreview.escape_backslashes path <> "".
Proof.
  destruct path as [|c path]; [done|]. intros _. cbn.
  by destruct (Py.char_eqb c RgbMsSingleScan.backslash).
Qed.

Lemma nonempty_spec (s : string) : ConfigTool.nonempty s = true <-> s <> "".
Proof.
  unfold ConfigTool.nonempty. destruct (String.eqb_spec s ""); cbn; split; try done.
Qed.

Lemma truthy_nonempty (s : string) : s <> "" -> Py.truthy (Some s) = true.
Proof. intros H. cbn. by destruct (String.eqb_spec s ""). Qed.

(** X6. A form that [validate_inputs] accepts, whose route mode is not
    Single and whose paths and route numbers come back from the generated
    lines as they were pasted (no apostrophe or line break in them, no
    backslash in a route number), yields a complete configuration: after the
    generated [configure_paths(...)] and [configure_routes([...])] lines have
    run in a freshly loaded multi-route script, the routes to combine are the
    selected ones, [validate_configuration()] returns [True], and in
    Multiple mode at least two routes are configured; so
    [run_combined_rgb_automation()] and [run_combined_ms_automation()] do
    not raise the ValueError. *)
Theorem accepted_form_configures_completely (fs : Os.view) (f : ConfigTool.form) :
  ConfigTool.validate_inputs f = (true, None) ->
  ConfigTool.route_mode f <> "Single" ->
  ConfigPreview.pastes_cleanly f = true ->
  exists g,
    ConfigPreview.configured_by f = Some g
    /\ Entry.routes_to_combine g = ConfigTool.selected_routes f
    /\ Configure.validate_configuration g = Configure.Valid
    /\ (ConfigTool.route_mode f = "Multiple" -> 2 <= length (Entry.routes_to_combine g))
    /\ (exists result, Configure.run_combined_rgb_automation fs g = inr result)
    /\ (exists result, Configure.run_combined_ms_automation fs g = inr result).
Proof.
  unfold ConfigTool.validate_inputs.
  destruct (ConfigTool.nonempty (ConfigTool.script_base_path f)); [|done].
  destruct (ConfigTool.nonempty (ConfigTool.dcim_path f)) eqn:Hd; [|done].
  destruct (ConfigTool.nonempty (ConfigTool.gcp_path f)) eqn:Hg; [|done].
  destruct (ConfigTool.nonempty (ConfigTool.output_path f)) eqn:Ho; [|done].
  cbn [negb].
  destruct (ConfigTool.selected_routes f) as [|n ns] eqn:Hsel; [done|].
  destruct (String.eqb (ConfigTool.route_mode f) "Multiple"
            && (length (n :: ns) <? 2)) eqn:Hmode; [done|].
  intros _ Hsingle Hclean.
  unfold ConfigPreview.configured_by. rewrite Hclean.
  destruct (String.eqb_spec (ConfigTool.route_mode f) "Single") as [?|_]; [done|].
  eexists. split; [done|].
  apply nonempty_spec, escape_backslashes_nonempty, truthy_nonempty in Hd, Hg, Ho.
  match goal with |- context [Configure.validate_configuration ?g] =>
    assert (Hv : Configure.validate_configuration g = Configure.Valid) end.
  { apply validate_configuration_Valid. cbn. rewrite Hsel.
    cbn in Hd, Hg, Ho. by rewrite Hd, Hg, Ho. }
  split_and!.
  - cbn. by rewrite Hsel.
  - exact Hv.
  - intros Hm. cbn. rewrite Hsel.
    rewrite Hm, String.eqb_refl in Hmode. cbn [andb] in Hmode.
    apply Nat.ltb_ge in Hmode. exact Hmode.
  - unfold Configure.run_combined_rgb_automation, Configure.run_combined.
    rewrite Hv. by eexists.
  - unfold Configure.run_combined_ms_automation, Configure.run_combined.
    rewrite Hv. by eexists.
Qed.

Lemma accepted_form_configures_completely_witness :
  let f := {| ConfigTool.script_base_path := "C:\scripts";
              ConfigTool.dcim_path := "D:\flight\DCIM";
              ConfigTool.gcp_path := "D:\flight\gcp";
              ConfigTool.output_path := "D:\flight\out";
              ConfigTool.selected_routes := ["001"; "002"];
              ConfigTool.route_mode := "Multiple" |} in
  exists g,
    ConfigPreview.configured_by f = Some g
    /\ Entry.routes_to_combine g = ["001"; "002"]
    /\ Configure.validate_configuration g = Configure.Valid.
Proof.
  intros f.
  destruct (accepted_form_configures_completely
              (Os.view_of Os.Posix Scenario.dcim_root []) f eq_refl)
    as (g & H0 & H1 & H2 & _); [done|reflexivity|].
  exists g. split; [exact H0|]. split; [exact H1|exact H2].
Defined.

(** A path with an apostrophe is accepted by the form, but its line is not
    the call with this path. *)
Example apostrophe_breaks_the_line :
  let f := {| ConfigTool.script_base_path := "C:\scripts";
              ConfigTool.dcim_path := "D:\pilot's flight\DCIM";
              ConfigTool.gcp_path := "D:\flight\gcp";
              ConfigTool.output_path := "D:\flight\out";
              ConfigTool.selected_routes := ["001"; "002"];
              ConfigTool.route_mode := "Multiple" |} in
  ConfigTool.validate_inputs f = (true, None) /\ ConfigPreview.configured_by f = None.
Proof. by vm_compute. Qed.

(** ** Sorting and mapping *)

Section SortMap.
Context {A B : Type} (f : A -> B) (key : A -> string) (key' : B -> string).
Hypothesis Hkey : forall x, key' (f x) = key x.

Lemma insert_by_map (x : A) (l : list A) :
  Py.insert_by key' (f x) (map f l) = map f (Py.insert_by key x l).
Proof.
  induction l as [|y l IH]; [done|].
  cbn. rewrite !Hkey. destruct (Py.str_ltb (key y) (key x)); cbn; [|done].
  by rewrite IH.
Qed.

Lemma sorted_map (l : list A) :
  Py.sorted key' (map f l) = map f (Py.sorted key l).
Proof.
  induction l as [|x l IH]; [done|].
  change (Py.insert_by key' (f x) (Py.sorted key' (map f l))
          = map f (Py.insert_by key x (Py.sorted key l))).
  by rewrite IH, insert_by_map.
Qed.
End SortMap.

Lemma omap_pointwise {A B : Type} (f g : A -> option B) (l : list A) :
  (forall x, f x = g x) -> omap f l = omap g l.
Proof.
  intros H. induction l as [|x l IH]; [done|].
  cbn. rewrite H, IH. done.
Qed.

Lemma find_ms_files_same (fs : Os.view) (folder_path : string) :
  ConfigPreview.find_ms_files fs folder_path = MsCombined.ms_files_of fs folder_path.
Proof. reflexivity. Qed.

(** X7. The route preview of the configuration tool agrees with the scan
    of the scripts: for processing type RGB it lists the folders, route
    numbers and image counts of rgb_single's [scan_dcim_folders], for MS
    those of ms_combined's [scan_dcim_folders_ms], and for Combined those of
    rgb_ms_combined's [scan_dcim_folders_combined] (RGB count, MS count and
    their sum), in the same order, and it raises when they raise. *)
Theorem preview_agrees_with_scans (fs : Os.view) (dcim_path : string) :
  ConfigPreview.scan_dcim_folders fs dcim_path "RGB"
  = ConfigPreview.rows_of ConfigPreview.row_of_rgb
      (RgbSingle.scan_dcim_folders fs dcim_path)
  /\ ConfigPreview.scan_dcim_folders fs dcim_path "MS"
     = ConfigPreview.rows_of ConfigPreview.row_of_ms
         (MsCombined.scan_dcim_folders_ms fs dcim_path)
  /\ ConfigPreview.scan_dcim_folders fs dcim_path "Combined"
     = ConfigPreview.rows_of ConfigPreview.row_of_rgb_ms
         (RgbMsCombined.scan_dcim_folders_combined fs dcim_path).
Proof.
  unfold ConfigPreview.scan_dcim_folders, RgbSingle.scan_dcim_folders,
    MsCombined.scan_dcim_folders_ms, RgbMsCombined.scan_dcim_folders_combined.
  destruct (Os.fs_exists fs dcim_path); cbn [negb]; [|done].
  destruct (Os.fs_listdir fs dcim_path) as [names|e]; [|done].
  unfold ConfigPreview.rows_of.
  unfold RgbSingle.scan_loop, MsCombined.scan_loop, RgbMsCombined.scan_loop.
  rewrite !fold_left_append_omap. cbn [app].
  split_and!; f_equal.
  - rewrite <- (sorted_map ConfigPreview.row_of_rgb RgbSingle.route_number
                  ConfigPreview.route_number) by done.
    f_equal. rewrite map_omap. apply omap_pointwise. intros folder.
    unfold ConfigPreview.scan_folder, RgbSingle.scan_folder.
    destruct (Os.fs_isdir fs _); [|done].
    destruct (Grammar.match_route_folder folder); [|done].
    cbn [String.eqb Ascii.eqb Bool.eqb andb].
    change (ConfigTool.find_rgb_files fs (Os.fs_join fs dcim_path folder))
      with (RgbSingle.rgb_files_of fs (Os.fs_join fs dcim_path folder)).
    by destruct (RgbSingle.rgb_files_of fs _).
  - rewrite <- (sorted_map ConfigPreview.row_of_ms MsCombined.route_number
                  ConfigPreview.route_number) by done.
    f_equal. rewrite map_omap. apply omap_pointwise. intros folder.
    unfold ConfigPreview.scan_folder, MsCombined.scan_folder.
    destruct (Os.fs_isdir fs _); [|done].
    destruct (Grammar.match_route_folder folder); [|done].
    cbn [String.eqb Ascii.eqb Bool.eqb andb].
    rewrite find_ms_files_same.
    by destruct (MsCombined.ms_files_of fs _).
  - rewrite <- (sorted_map ConfigPreview.row_of_rgb_ms RgbMsCombined.route_number
                  ConfigPreview.route_number) by done.
    f_equal. rewrite map_omap. apply omap_pointwise. intros folder.
    unfold ConfigPreview.scan_folder, RgbMsCombined.scan_folder.
    destruct (Os.fs_isdir fs _); [|done].
    destruct (Grammar.match_route_folder folder); [|done].
    cbn [String.eqb Ascii.eqb Bool.eqb andb].
    rewrite find_ms_files_same.
    change (ConfigTool.find_rgb_files fs (Os.fs_join fs dcim_path folder))
      with (RgbMsCombined.rgb_files_of fs (Os.fs_join fs dcim_path folder)).
    destruct (RgbMsCombined.rgb_files_of fs (Os.fs_join fs dcim_path folder)),
             (MsCombined.ms_files_of fs (Os.fs_join fs dcim_path folder)); done.
Qed.

(** ** The batch functions *)

Section BatchFacts.
Import Py.
Context {W R : Type} (route_number : R -> string).
Variable scan_dcim_folders : string -> outcome (list R).
Variable process_route : R -> W -> W * outcome bool.

Lemma first_route_unique (routes : list R) (r : R) :
  NoDup (map route_number routes) -> r ∈ routes ->
  Lookup.first_route route_number (route_number r) routes = Some r.
Proof.
  unfold Lookup.first_route.
  induction routes as [|x l IH]; intros Hnd Hin; [by apply elem_of_nil in Hin|].
  cbn [map] in Hnd. apply NoDup_cons in Hnd as [Hx Hl].
  cbn [find]. apply elem_of_cons in Hin as [->|Hin].
  - by rewrite String.eqb_refl.
  - destruct (String.eqb_spec (route_number x) (route_number r)) as [He|Hne].
    + exfalso. apply Hx. rewrite He. by apply list_elem_of_fmap_2.
    + by apply IH.
Qed.

Lemma collect_whole_catalog (routes : list R) :
  NoDup (map route_number routes) ->
  Lookup.collect route_number (map route_number routes) routes = routes.
Proof.
  intros Hnd. rewrite collect_omap.
  assert (H : forall l, l ⊆ routes ->
            omap (fun n => Lookup.first_route route_number n routes)
                 (map route_number l) = l).
  { induction l as [|x l IH]; intros Hsub; [done|].
    cbn. rewrite first_route_unique; [|done|apply Hsub; by left].
    f_equal. apply IH. intros y Hy. apply Hsub. by right. }
  by apply H.
Qed.
End BatchFacts.

(** ** The batch functions of the single-route scripts *)

(** X8. Asking [process_selected_routes] (or [process_selected_routes_ms])
    for every route number of the catalog, in catalog order, is the same as
    calling [process_all_routes]: same processing calls in the same order,
    same result or exception, provided no two folders carry the same route
    number. *)
Theorem selecting_whole_catalog_processes_all {W R : Type} (route_number : R -> string)
    (scan_dcim_folders : string -> Py.outcome (list R))
    (process_route : R -> W -> W * Py.outcome bool)
    (dcim_path : string) (routes : list R) (w : W) :
  scan_dcim_folders dcim_path = Py.Return routes ->
  NoDup (map route_number routes) ->
  Batch.process_selected_routes route_number scan_dcim_folders process_route
    (map route_number routes) dcim_path w
  = Batch.process_all_routes scan_dcim_folders process_route dcim_path w.
Proof.
  intros Hscan Hnd.
  unfold Batch.process_selected_routes, Batch.process_all_routes.
  rewrite Hscan. destruct routes as [|r l]; [done|].
  by rewrite collect_whole_catalog.
Qed.

Lemma selecting_whole_catalog_processes_all_witness :
  let scan := fun _ : string => Py.Return ["001"; "002"] in
  Batch.process_selected_routes id scan Batch.logging ["001"; "002"] "/data/DCIM" []
  = Batch.process_all_routes scan Batch.logging "/data/DCIM" [].
Proof.
  intros scan.
  apply (selecting_whole_catalog_processes_all id scan Batch.logging
           "/data/DCIM" ["001"; "002"] []); [reflexivity|].
  cbn. apply NoDup_cons. split; [|apply NoDup_singleton].
  intros H%list_elem_of_singleton. discriminate H.
Defined.

(** X9. [process_single_route_by_number(n, ...)] behaves as
    [process_selected_routes([n], ...)]: it processes the first catalog
    entry numbered [n] and returns what this processing returns, and it
    returns [False] without processing anything when the catalog has no
    such entry. *)
Theorem single_route_is_singleton_selection {W R : Type} (route_number : R -> string)
    (scan_dcim_folders : string -> Py.outcome (list R))
    (process_route : R -> W -> W * Py.outcome bool)
    (n dcim_path : string) (w : W) :
  Batch.process_single_route_by_number route_number scan_dcim_folders process_route
    n dcim_path w
  = Batch.process_selected_routes route_number scan_dcim_folders process_route
      [n] dcim_path w
  /\ (forall routes,
        scan_dcim_folders dcim_path = Py.Return routes ->
        Lookup.first_route route_number n routes = None ->
        Batch.process_single_route_by_number route_number scan_dcim_folders
          process_route n dcim_path w = (w, Py.Return false)).
Proof.
  unfold Batch.process_single_route_by_number, Batch.process_selected_routes.
  split.
  - destruct (scan_dcim_folders dcim_path) as [[|r l]|e]; [done| |done].
    rewrite collect_omap. cbn [omap list_omap].
    destruct (Lookup.first_route route_number n (r :: l)) as [t|]; [|done].
    cbn. destruct (process_route t w) as [w' [[|]|e]]; done.
  - intros routes -> ->. done.
Qed.

(** ** The directory walk of the RGB+MS single-route script *)

Section WalkFacts.
Import Py Os RgbMsSingleScan.
Variable pf : platform.

Lemma extended_nil (e : entry) : extended pf e [] = e.
Proof. destruct e. unfold extended. cbn. by rewrite !app_nil_r. Qed.

Lemma visit_NoDup (d : PyDict.t entry) (w : walked) :
  NoDup (PyDict.keys d) -> NoDup (PyDict.keys (visit pf d w)).
Proof.
  intros Hd. unfold visit. destruct (route_of w) as [m|]; [|done].
  destruct (PyDict.mem m d).
  - destruct (PyDict.get m d); [by apply dict_set_NoDup|done].
  - destruct (PyDict.get m (PyDict.set m _ d)); [|by apply dict_set_NoDup].
    by apply dict_set_NoDup, dict_set_NoDup.
Qed.

Lemma visit_get (d : PyDict.t entry) (w : walked) (n : string) :
  PyDict.get n (visit pf d w)
  = if filed_under n w then
      Some (match PyDict.get n d with
            | Some e => extended pf e [w]
            | None =>
                extended pf {| rgb_images := []; ms_images := []; dcim_path := w.1.1 |} [w]
            end)
    else PyDict.get n d.
Proof.
  unfold visit, filed_under. destruct (route_of w) as [m|]; [|done].
  unfold PyDict.mem.
  destruct (PyDict.get m d) as [e|] eqn:Hm.
  - rewrite Hm, dict_get_set. rewrite (String.eqb_sym n m).
    destruct (String.eqb_spec m n) as [->|Hne]; [|done].
    rewrite Hm. unfold extended. cbn. by rewrite !app_nil_r.
  - rewrite dict_get_set, String.eqb_refl, !dict_get_set.
    rewrite (String.eqb_sym n m).
    destruct (String.eqb_spec m n) as [->|Hne]; [|done].
    rewrite Hm. unfold extended. cbn. by rewrite !app_nil_r.
Qed.

Lemma scan_get (walk : list walked) (d : PyDict.t entry) (n : string) :
  PyDict.get n (fold_left (visit pf) walk d)
  = match PyDict.get n d with
    | Some e => Some (extended pf e (filter (fun w => filed_under n w) walk))
    | None => merged pf (filter (fun w => filed_under n w) walk)
    end.
Proof.
  revert d. induction walk as [|w walk IH]; intros d.
  - cbn. destruct (PyDict.get n d); [by rewrite extended_nil|done].
  - cbn [fold_left]. rewrite IH, visit_get, filter_cons.
    destruct (filed_under n w) eqn:Hw.
    + rewrite decide_True by done.
      destruct (PyDict.get n d) as [e|].
      * f_equal. unfold extended. cbn. by rewrite !app_nil_r, <- !app_assoc.
      * cbn [merged]. f_equal. unfold extended. cbn. by rewrite !app_nil_r.
    + rewrite decide_False by (by intros ?). done.
Qed.
End WalkFacts.

(** X10. [scan_dcim_folders_combined] of the RGB+MS single-route script
    files every walked directory under the route number of the first path
    part that names a route, and keeps one dictionary entry per route
    number: the entry of a number holds the RGB and MS images of all
    directories filed under it, concatenated in walk order, and the path of
    the first such directory; a number no directory is filed under has no
    entry. *)
Theorem walk_scan_merges_directories (pf : Os.platform)
    (walk : list RgbMsSingleScan.walked) (n : string) :
  let dcim_folders := RgbMsSingleScan.scan_dcim_folders_combined pf walk in
  NoDup (PyDict.keys dcim_folders)
  /\ PyDict.get n dcim_folders
     = RgbMsSingleScan.merged pf
         (filter (fun w => RgbMsSingleScan.filed_under n w) walk).
Proof.
  intros dcim_folders. subst dcim_folders.
  unfold RgbMsSingleScan.scan_dcim_folders_combined. split.
  - apply fold_left_invariant; [apply NoDup_nil_2|].
    intros acc w Hacc. by apply visit_NoDup.
  - by rewrite scan_get.
Qed.

(** ** The single-route processing functions *)

(** The next engine call of a computation: the one whose history no other
    pending call extends. *)
Ltac pending_first hh :=
  lazymatch hh with
  | ?p ++ [_] =>
      lazymatch goal with
      | |- context [Pipeline.raises _ p _] => fail
      | _ => idtac
      end
  | _ => idtac
  end.

Ltac next_call E :=
  match goal with
  | |- context [Pipeline.raises E ?hh ?o] =>
      pending_first hh;
      let H := fresh "Hcall" in
      destruct (Pipeline.raises E hh o) eqn:H;
      cbv beta iota
  end.

Ltac start_run :=
  unfold Pipeline.try_except, Pipeline.bind, Pipeline.call, Pipeline.read,
    Pipeline.ret, Pipeline.raise;
  cbv beta iota.

Ltac next_read E :=
  match goal with
  | |- context [Pipeline.cameras E ?hh =? 0] =>
      let H := fresh "Hcameras" in
      destruct (Pipeline.cameras E hh =? 0) eqn:H; cbv beta iota
  | |- context [Pipeline.aligned_cameras E ?hh =? 0] =>
      let H := fresh "Haligned" in
      destruct (Pipeline.aligned_cameras E hh =? 0) eqn:H; cbv beta iota
  | |- context [negb (Os.fs_exists ?fs ?p)] =>
      let H := fresh "Hexists" in
      destruct (Os.fs_exists fs p) eqn:H; cbn [negb]; cbv beta iota
  end.

(** The computation has run to its end. *)
Ltac at_end := lazymatch goal with |- (_, _) = _ => idtac end.

(** A run that stopped with [False] inside the listed stages. *)
Ltac stopped stages :=
  eexists _, _; split; [at_end; rewrite <- ?app_assoc; reflexivity|];
  left; split; [reflexivity|];
  cbn [app]; unfold stages; eexists; reflexivity.

Section PipelineFacts.
Import Py Os Pipeline.
Variables (pf : platform) (fs : view) (E : engine).

(** The final save makes at least one document call and returns. *)
Lemma enhanced_save_on_engine (project_path step_name : string) (h : history) :
  exists cs b,
    enhanced_save_project E project_path step_name h
    = (h ++ map OnDocument cs, Return b) /\ cs <> [].
Proof.
  unfold enhanced_save_project, Save.enhanced_save_project_single, Save.fallback.
  cbn [saver_of Engine.chunk_in_doc Engine.run].
  destruct (chunk_in_doc E h).
  - destruct (raises E h (OnDocument (Engine.SaveScoped project_path))) eqn:H1.
    + destruct (raises E (h ++ [OnDocument (Engine.SaveScoped project_path)])
                  (OnDocument (Engine.SavePlain project_path))) eqn:H2;
        cbn; exists [Engine.SaveScoped project_path; Engine.SavePlain project_path];
        eexists; (split; [by rewrite <- app_assoc|done]).
    + cbn. exists [Engine.SaveScoped project_path]. eexists. by split.
  - destruct (raises E h (OnDocument Engine.Append)) eqn:H0.
    + destruct (raises E (h ++ [OnDocument Engine.Append])
                  (OnDocument (Engine.SavePlain project_path))) eqn:H2;
        cbn; exists [Engine.Append; Engine.SavePlain project_path];
        eexists; (split; [by rewrite <- app_assoc|done]).
    + destruct (raises E (h ++ [OnDocument Engine.Append])
                  (OnDocument (Engine.SaveScoped project_path))) eqn:H1.
      * destruct (raises E ((h ++ [OnDocument Engine.Append])
                              ++ [OnDocument (Engine.SaveScoped project_path)])
                    (OnDocument (Engine.SavePlain project_path))) eqn:H2;
          cbn; exists [Engine.Append; Engine.SaveScoped project_path;
                       Engine.SavePlain project_path];
          eexists; (split; [by rewrite <- !app_assoc|done]).
      * cbn. exists [Engine.Append; Engine.SaveScoped project_path].
        eexists. split; [by rewrite <- !app_assoc|done].
Qed.

Lemma rgb_route_runs (route_number : string) (image_files : list string)
    (gcp_base_path project_path project_full_path : string) (h : history) :
  let stages :=
    rgb_stages route_number image_files
      (join pf gcp_base_path ("gcp_route_" +:+ route_number +:+ "" +:+ ".xml"))
      project_full_path (join pf project_path "processing_report_RGB.pdf") in
  exists t b,
    process_rgb_route_try pf fs E route_number image_files gcp_base_path
      project_path project_full_path h = (h ++ t, Return b)
    /\ ((b = false /\ t `prefix_of` stages)
        \/ exists cs, cs <> [] /\
             t = stages ++ map OnDocument cs
                 ++ (if b then [OpenProject project_full_path] else [])).
Proof.
  intros stages. subst stages.
  unfold process_rgb_route_try, import_gcps_from_xml, import_gcps.
  unfold verify_saved_products.
  start_run.
  repeat (first [next_call E | next_read E]; try (stopped rgb_stages)).
  match goal with
  | |- context [enhanced_save_project E ?p ?s ?hh] =>
      destruct (enhanced_save_on_engine p s hh) as (cs & b & Hs & Hcs);
      rewrite Hs; cbv beta iota
  end.
  destruct b; cbn [negb]; cbv beta iota.
  - eexists _, true. split; [at_end; rewrite <- ?app_assoc; reflexivity|].
    right. exists cs. split; [done|]. reflexivity.
  - eexists _, false. split; [at_end; rewrite <- ?app_assoc; reflexivity|].
    right. exists cs. split; [done|]. cbn [app]. by rewrite app_nil_r.
Qed.
End PipelineFacts.

(** X11. The [try] block of [process_rgb_route] never raises, whatever the
    engine does: it returns a boolean, and the engine calls it made are the
    stages of the script in their fixed order (document, chunk, label,
    WGS84, photos, marker import, ETRS89, then matching, alignment, depth
    maps and point cloud, each followed by a save of the chunk, then the
    report).  A run that returns [False] before the final save made a prefix
    of these calls; any other run made all of them, then the calls of
    [enhanced_save_project], and reopened the project for verification
    exactly when it returns [True]. *)
Theorem rgb_route_runs_stages_in_order (pf : Os.platform) (fs : Os.view)
    (E : Pipeline.engine) (route_number : string) (image_files : list string)
    (gcp_base_path project_path project_full_path : string) (h : Pipeline.history) :
  let stages :=
    Pipeline.rgb_stages route_number image_files
      (Os.join pf gcp_base_path ("gcp_route_" +:+ route_number +:+ "" +:+ ".xml"))
      project_full_path (Os.join pf project_path "processing_report_RGB.pdf") in
  exists t b,
    Pipeline.process_rgb_route_try pf fs E route_number image_files gcp_base_path
      project_path project_full_path h = (h ++ t, Py.Return b)
    /\ ((b = false /\ t `prefix_of` stages)
        \/ exists cs, cs <> [] /\
             t = stages ++ map Pipeline.OnDocument cs
                 ++ (if b then [Pipeline.OpenProject project_full_path] else [])).
Proof. apply rgb_route_runs. Qed.

(** A run that returned [False] cannot have returned [True]. *)
Ltac not_this_run :=
  lazymatch goal with |- (_, _) = _ -> _ => intros ?; discriminate end.

Section PipelineGates.
Import Py Os Pipeline.
Variables (pf : platform) (fs : view) (E : engine).

(** X12. [import_gcps_from_xml] of rgb_single and [import_gcps_from_xml_ms]
    of ms_automation: when the route's GCP file does not exist the function
    raises FileNotFoundError without calling the engine; otherwise it calls
    [importMarkers] once, re-raises an engine failure as a RuntimeError that
    carries the engine's message, and on success returns the number of
    markers of the chunk and the number of those that are enabled (one
    counted for each enabled marker), the second never larger than the
    first. *)
Theorem gcp_import_outcome (kind suffix route_number gcp_base_path : string) (h : history) :
  let path := join pf gcp_base_path ("gcp_route_" +:+ route_number +:+ suffix +:+ ".xml") in
  match import_gcps pf fs E kind suffix route_number gcp_base_path h with
  | (h', Raise e) =>
      (fs_exists fs path = false /\ h' = h /\ exists m, e = FileNotFoundError m)
      \/ (fs_exists fs path = true /\ h' = h ++ [ImportMarkers path]
          /\ exists e0, raises E h (ImportMarkers path) = Some e0
                        /\ e = RuntimeError
                                 ("Error importing " +:+ kind +:+ "GCPs from "
                                  +:+ path +:+ ": " +:+ Engine.message e0))
  | (h', Return (imported_count, enabled_count)) =>
      fs_exists fs path = true /\ h' = h ++ [ImportMarkers path]
      /\ raises E h (ImportMarkers path) = None
      /\ imported_count = length (markers E h')
      /\ enabled_count
         = list_sum (map (fun enabled : bool => if enabled then 1 else 0) (markers E h'))
      /\ enabled_count <= imported_count
  end.
Proof.
  intros path. subst path. unfold import_gcps. start_run.
  destruct (fs_exists fs _) eqn:Hex; cbn [negb]; cbv beta iota.
  - destruct (raises E h _) eqn:Hr; cbv beta iota.
    + right. split_and!; try done. by eexists.
    + split_and!; try done; [|apply length_filter].
      generalize (markers E (h ++ [ImportMarkers
        (join pf gcp_base_path ("gcp_route_" +:+ route_number +:+ suffix +:+ ".xml"))])).
      intros ms. induction ms as [|[] ms IH]; [done| |].
      * rewrite filter_cons, decide_True by done. cbn. by rewrite IH.
      * rewrite filter_cons, decide_False by done. exact IH.
  - left. split_and!; try done. by eexists.
Qed.

(** X13. When the [try] block of [process_rgb_route] returns [True], the
    GCP file of the route existed, the chunk had at least one camera after
    [addPhotos] and at least one aligned camera after [alignCameras], every
    one of the seventeen stage calls went through without an exception, and
    the run ended with the calls of [enhanced_save_project] followed by the
    reopening of the saved project. *)
Theorem rgb_route_success_passed_every_gate (route_number : string) (image_files : list string)
    (gcp_base_path project_path project_full_path : string) (h h' : history) :
  let gcp_file_path :=
    join pf gcp_base_path ("gcp_route_" +:+ route_number +:+ "" +:+ ".xml") in
  let stages :=
    rgb_stages route_number image_files gcp_file_path
      project_full_path (join pf project_path "processing_report_RGB.pdf") in
  process_rgb_route_try pf fs E route_number image_files gcp_base_path
    project_path project_full_path h = (h', Return true) ->
  fs_exists fs gcp_file_path = true
  /\ cameras E (h ++ take 5 stages) <> 0
  /\ aligned_cameras E (h ++ take 11 stages) <> 0
  /\ (forall k o, stages !! k = Some o -> raises E (h ++ take k stages) o = None)
  /\ exists cs, cs <> []
       /\ h' = h ++ stages ++ map OnDocument cs ++ [OpenProject project_full_path].
Proof.
  intros gcp_file_path stages. subst gcp_file_path stages.
  unfold process_rgb_route_try, import_gcps_from_xml, import_gcps.
  unfold verify_saved_products.
  start_run.
  repeat (first [next_call E | next_read E]; try not_this_run).
  match goal with
  | |- context [enhanced_save_project E ?p ?s ?hh] =>
      destruct (enhanced_save_on_engine E p s hh) as (cs & b & Hs & Hcs);
      rewrite Hs; cbv beta iota
  end.
  destruct b; cbn [negb]; cbv beta iota; [|not_this_run].
  intros [= <-].
  rewrite <- ?app_assoc in *. cbn [app] in *.
  apply Nat.eqb_neq in Hcameras, Haligned.
  unfold rgb_stages. cbn [take firstn].
  split_and!; try done.
  - intros k o Hk.
    do 17 (destruct k as [|k];
           [cbn in Hk; injection Hk as <-; cbn [take firstn app];
            rewrite ?app_nil_r; assumption|]).
    done.
  - exists cs. split; [done|]. by rewrite <- ?app_assoc.
Qed.
End PipelineGates.

Ltac stopped_ms :=
  eexists _, _; split; [at_end; rewrite <- ?app_assoc; reflexivity|];
  left; split; [reflexivity|];
  unfold Pipeline.ms_stages; eexists; rewrite <- ?app_assoc; cbn [app]; reflexivity.

Section PipelineLoops.
Import Py Os Pipeline.
Variables (pf : platform) (fs : view) (E : engine).

(** A loop of engine calls makes the calls in order up to the first one
    that raises. *)
Lemma for_each_calls {A} (g : A -> op) (l : list A) (h : history) :
  exists t r,
    for_each l (fun x => call E (g x)) h = (h ++ t, r)
    /\ ((r = Return tt /\ t = map g l)
        \/ (exists e, r = Raise e) /\ t `prefix_of` map g l).
Proof.
  revert h. induction l as [|x l IH]; intros h.
  - exists [], (Return tt). cbn. rewrite app_nil_r. split; [done|by left].
  - cbn [for_each]. unfold bind at 1. unfold call at 1.
    destruct (raises E h (g x)) as [e|] eqn:Hr.
    + exists [g x], (Raise e). split; [done|]. right. split; [by eexists|].
      by exists (map g l).
    + destruct (IH (h ++ [g x])) as (t & r & Hrun & Hcase).
      rewrite Hrun. exists (g x :: t), r.
      split; [by rewrite <- app_assoc|].
      destruct Hcase as [[-> ->]|[He Hp]]; [by left|].
      right. split; [done|]. cbn [map]. by apply prefix_cons.
Qed.

Lemma enhanced_save_goes_through (project_path step_name : string) (h : history) :
  (forall hh c, raises E hh (OnDocument c) = None) ->
  exists cs,
    enhanced_save_project E project_path step_name h
    = (h ++ map OnDocument cs, Return true) /\ cs <> [].
Proof.
  intros Hok.
  unfold enhanced_save_project, Save.enhanced_save_project_single, Save.fallback.
  cbn [saver_of Engine.chunk_in_doc Engine.run].
  destruct (chunk_in_doc E h).
  - rewrite Hok. cbn. by exists [Engine.SaveScoped project_path].
  - rewrite !Hok. cbn. exists [Engine.Append; Engine.SaveScoped project_path].
    split; [by rewrite <- !app_assoc|done].
Qed.

(** X14. The [try] block of [process_ms_route] never raises and makes its
    engine calls in the fixed order of the script: the set-up calls, one
    [camera.group = None] assignment per camera added, the marker import,
    ETRS89, then matching, alignment, depth maps and point cloud, each
    followed by a save of the chunk, then the report, the calls of
    [enhanced_save_project] and, when it returns [True], the reopening of the
    project.  A run that returns [False] before the final save made a prefix
    of the stage calls. *)
Theorem ms_route_runs_stages_in_order (route_number : string) (image_files : list string)
    (gcp_base_path project_path project_full_path : string) (h : history) :
  let listed :=
    cameras E (h ++ [NewDocument; AddChunk;
                     SetLabel ("Route_" +:+ route_number +:+ "_MS");
                     SetCrs "EPSG::4326"; AddPhotos image_files]) in
  let stages :=
    ms_stages route_number image_files listed
      (join pf gcp_base_path ("gcp_route_" +:+ route_number +:+ "_MS" +:+ ".xml"))
      project_full_path (join pf project_path "processing_report_MS.pdf") in
  exists t b,
    process_ms_route_try pf fs E route_number image_files gcp_base_path
      project_path project_full_path h = (h ++ t, Return b)
    /\ ((b = false /\ t `prefix_of` stages)
        \/ exists cs, cs <> [] /\
             t = stages ++ map OnDocument cs
                 ++ (if b then [OpenProject project_full_path] else [])).
Proof.
  intros listed stages. subst listed stages.
  replace (h ++ [NewDocument; AddChunk;
                 SetLabel ("Route_" +:+ route_number +:+ "_MS");
                 SetCrs "EPSG::4326"; AddPhotos image_files])
    with (((((h ++ [NewDocument]) ++ [AddChunk])
             ++ [SetLabel ("Route_" +:+ route_number +:+ "_MS")])
            ++ [SetCrs "EPSG::4326"]) ++ [AddPhotos image_files])
    by (rewrite <- ?app_assoc; reflexivity).
  unfold process_ms_route_try, import_gcps_from_xml_ms, import_gcps.
  unfold verify_saved_products.
  start_run.
  repeat (first [next_call E | next_read E]; try stopped_ms).
  all: match goal with
       | |- context [for_each ?l _ ?hh] =>
           destruct (for_each_calls ClearCameraGroup l hh) as (t0 & r0 & Hloop & Hcase)
       end.
  all: unfold call in Hloop; rewrite Hloop; cbv beta iota.
  all: destruct Hcase as [[-> ->]|[[e ->] [k Hk]]]; cbv beta iota.
  all: try (eexists _, _; split; [at_end; rewrite <- ?app_assoc; reflexivity|];
            left; split; [reflexivity|];
            unfold ms_stages; rewrite Hk; eexists;
            rewrite <- ?app_assoc; cbn [app]; reflexivity).
  all: repeat (first [next_call E | next_read E]; try stopped_ms).
  match goal with
  | |- context [enhanced_save_project E ?p ?s ?hh] =>
      destruct (enhanced_save_on_engine E p s hh) as (cs & b & Hs & Hcs);
      rewrite Hs; cbv beta iota
  end.
  destruct b; cbn [negb]; cbv beta iota.
  - eexists _, true. split; [at_end; rewrite <- ?app_assoc; reflexivity|].
    right. exists cs. split; [done|].
    unfold ms_stages. rewrite <- ?app_assoc. reflexivity.
  - eexists _, false. split; [at_end; rewrite <- ?app_assoc; reflexivity|].
    right. exists cs. split; [done|].
    unfold ms_stages. rewrite <- ?app_assoc. cbn [app]. by rewrite app_nil_r.
Qed.
End PipelineLoops.

Ltac stopped_setup :=
  eexists; split; [at_end; rewrite <- ?app_assoc; reflexivity|];
  eexists; cbn [app]; reflexivity.

Section PipelineStops.
Import Py Os Pipeline.
Variables (pf : platform) (fs : view) (E : engine).

Lemma rgb_route_without_gcp_file (route_number : string) (image_files : list string)
    (gcp_base_path project_path project_full_path : string) (h : history) :
  fs_exists fs (join pf gcp_base_path ("gcp_route_" +:+ route_number +:+ "" +:+ ".xml"))
  = false ->
  exists t,
    process_rgb_route_try pf fs E route_number image_files gcp_base_path
      project_path project_full_path h = (h ++ t, Return false)
    /\ t `prefix_of` [NewDocument; AddChunk;
                      SetLabel ("Route_" +:+ route_number +:+ "_RGB");
                      SetCrs "EPSG::4326"; AddPhotos image_files].
Proof.
  intros Hmissing.
  unfold process_rgb_route_try, import_gcps_from_xml, import_gcps.
  rewrite Hmissing. cbn [negb].
  start_run.
  repeat (first [next_call E | next_read E]; try stopped_setup).
Qed.

Lemma ms_route_without_gcp_file (route_number : string) (image_files : list string)
    (gcp_base_path project_path project_full_path : string) (h : history) :
  fs_exists fs (join pf gcp_base_path ("gcp_route_" +:+ route_number +:+ "_MS" +:+ ".xml"))
  = false ->
  exists t,
    process_ms_route_try pf fs E route_number image_files gcp_base_path
      project_path project_full_path h = (h ++ t, Return false)
    /\ t `prefix_of`
         [NewDocument; AddChunk; SetLabel ("Route_" +:+ route_number +:+ "_MS");
          SetCrs "EPSG::4326"; AddPhotos image_files]
         ++ map ClearCameraGroup
              (seq 0 (cameras E
                        (h ++ [NewDocument; AddChunk;
                               SetLabel ("Route_" +:+ route_number +:+ "_MS");
                               SetCrs "EPSG::4326"; AddPhotos image_files]))).
Proof.
  intros Hmissing.
  replace (h ++ [NewDocument; AddChunk;
                 SetLabel ("Route_" +:+ route_number +:+ "_MS");
                 SetCrs "EPSG::4326"; AddPhotos image_files])
    with (((((h ++ [NewDocument]) ++ [AddChunk])
             ++ [SetLabel ("Route_" +:+ route_number +:+ "_MS")])
            ++ [SetCrs "EPSG::4326"]) ++ [AddPhotos image_files])
    by (rewrite <- ?app_assoc; reflexivity).
  unfold process_ms_route_try, import_gcps_from_xml_ms, import_gcps.
  rewrite Hmissing. cbn [negb].
  start_run.
  repeat (first [next_call E | next_read E]; try stopped_setup).
  match goal with
  | |- context [for_each ?l _ ?hh] =>
      destruct (for_each_calls E ClearCameraGroup l hh) as (t0 & r0 & Hloop & Hcase)
  end.
  unfold call in Hloop; rewrite Hloop; cbv beta iota.
  destruct Hcase as [[-> ->]|[[e ->] [k Hk]]]; cbv beta iota.
  - next_read E.
    + eexists; split; [at_end; rewrite <- ?app_assoc; reflexivity|].
      exists []. rewrite <- ?app_assoc. cbn [app]. by rewrite app_nil_r.
    + eexists; split; [at_end; rewrite <- ?app_assoc; reflexivity|].
      exists []. rewrite <- ?app_assoc. cbn [app]. by rewrite app_nil_r.
  - eexists; split; [at_end; rewrite <- ?app_assoc; reflexivity|].
    rewrite <- ?app_assoc in Hk. rewrite <- ?app_assoc. cbn [app] in *.
    rewrite Hk. exists k. rewrite <- ?app_assoc. reflexivity.
Qed.

Lemma for_each_calls_ok {A} (g : A -> op) (l : list A) (h : history) :
  (forall hh o, raises E hh o = None) ->
  for_each l (fun x => call E (g x)) h = (h ++ map g l, Return tt).
Proof.
  intros Hok. revert h. induction l as [|x l IH]; intros h.
  - cbn. by rewrite app_nil_r.
  - cbn [for_each]. unfold bind at 1. unfold call at 1.
    rewrite Hok, IH. by rewrite <- app_assoc.
Qed.

(** With no aligned camera the RGB run stops after saving the failed
    state. *)
Lemma rgb_route_unaligned (route_number : string) (image_files : list string)
    (gcp_base_path project_path project_full_path : string) (h : history) :
  (forall hh o, raises E hh o = None) ->
  (forall hh, cameras E hh <> 0) ->
  (forall hh, aligned_cameras E hh = 0) ->
  fs_exists fs (join pf gcp_base_path ("gcp_route_" +:+ route_number +:+ "" +:+ ".xml"))
  = true ->
  process_rgb_route_try pf fs E route_number image_files gcp_base_path
    project_path project_full_path h
  = (h ++ take 12 (rgb_stages route_number image_files
                     (join pf gcp_base_path
                        ("gcp_route_" +:+ route_number +:+ "" +:+ ".xml"))
                     project_full_path
                     (join pf project_path "processing_report_RGB.pdf")),
     Return false).
Proof.
  intros Hok Hcam Hal Hex.
  unfold process_rgb_route_try, import_gcps_from_xml, import_gcps.
  rewrite Hex. cbn [negb].
  start_run.
  repeat (first [next_call E | next_read E];
          try (by rewrite Hok in *);
          try (by match goal with H : (cameras E _ =? 0) = true |- _ =>
                      apply Nat.eqb_eq in H; apply Hcam in H end);
          try (by match goal with H : (aligned_cameras E _ =? 0) = false |- _ =>
                      apply Nat.eqb_neq in H; rewrite Hal in H end)).
  rewrite <- ?app_assoc. reflexivity.
Qed.

(** The MS run goes on to the end all the same. *)
Lemma ms_route_unaligned (route_number : string) (image_files : list string)
    (gcp_base_path project_path project_full_path : string) (h : history) :
  (forall hh o, raises E hh o = None) ->
  (forall hh, cameras E hh <> 0) ->
  fs_exists fs (join pf gcp_base_path ("gcp_route_" +:+ route_number +:+ "_MS" +:+ ".xml"))
  = true ->
  exists cs,
    process_ms_route_try pf fs E route_number image_files gcp_base_path
      project_path project_full_path h
    = (h ++ ms_stages route_number image_files
              (cameras E (h ++ [NewDocument; AddChunk;
                                SetLabel ("Route_" +:+ route_number +:+ "_MS");
                                SetCrs "EPSG::4326"; AddPhotos image_files]))
              (join pf gcp_base_path
                 ("gcp_route_" +:+ route_number +:+ "_MS" +:+ ".xml"))
              project_full_path
              (join pf project_path "processing_report_MS.pdf")
         ++ map OnDocument cs ++ [OpenProject project_full_path],
       Return true).
Proof.
  intros Hok Hcam Hex.
  replace (h ++ [NewDocument; AddChunk;
                 SetLabel ("Route_" +:+ route_number +:+ "_MS");
                 SetCrs "EPSG::4326"; AddPhotos image_files])
    with (((((h ++ [NewDocument]) ++ [AddChunk])
             ++ [SetLabel ("Route_" +:+ route_number +:+ "_MS")])
            ++ [SetCrs "EPSG::4326"]) ++ [AddPhotos image_files])
    by (rewrite <- ?app_assoc; reflexivity).
  unfold process_ms_route_try, import_gcps_from_xml_ms, import_gcps.
  rewrite Hex. cbn [negb].
  unfold verify_saved_products.
  start_run.
  repeat (first [next_call E | next_read E]; try (by rewrite Hok in * )).
  match goal with
  | |- context [for_each ?l _ ?hh] =>
      pose proof (for_each_calls_ok ClearCameraGroup l hh Hok) as Hloop
  end.
  unfold call in Hloop; rewrite Hloop; cbv beta iota.
  repeat (first [next_call E | next_read E];
          try (by rewrite Hok in * );
          try (by match goal with H : (cameras E _ =? 0) = true |- _ =>
                      apply Nat.eqb_eq in H; apply Hcam in H end)).
  match goal with
  | |- context [enhanced_save_project E ?p ?s ?hh] =>
      destruct (enhanced_save_goes_through E p s hh) as (cs & Hs & Hcs);
      [intros; apply Hok|]; rewrite Hs; cbv beta iota
  end.
  cbn [negb]. exists cs. unfold ms_stages. rewrite <- ?app_assoc. reflexivity.
Qed.
End PipelineStops.

Ltac stopped_raising :=
  eexists _, _; split; [at_end; rewrite <- ?app_assoc; reflexivity|];
  left; eexists; split; [reflexivity|];
  unfold Pipeline.rgb_ms_stages; cbn [app take firstn]; eexists; reflexivity.

Ltac stopped_rgb_ms :=
  eexists _, _; split; [at_end; rewrite <- ?app_assoc; reflexivity|];
  right; left; split; [reflexivity|];
  unfold Pipeline.rgb_ms_stages; eexists; rewrite <- ?app_assoc; cbn [app]; reflexivity.

Section RgbMsPipeline.
Import Py Os Pipeline.
Variables (pf : platform) (fs : view) (E : engine).

(** The optional marker import makes at most one call and never raises. *)
Lemma import_gcps_optional_runs (gcp_file_path : string) (h : history) :
  exists b,
    import_gcps_optional fs E gcp_file_path h
    = (h ++ (if fs_exists fs gcp_file_path then [ImportMarkers gcp_file_path] else []),
       Return b).
Proof.
  unfold import_gcps_optional. start_run.
  destruct (fs_exists fs gcp_file_path); cbn [negb]; cbv beta iota.
  - destruct (raises E h (ImportMarkers gcp_file_path)); by eexists.
  - exists false. by rewrite app_nil_r.
Qed.

Ltac import_step fs E :=
  match goal with
  | |- context [Pipeline.import_gcps_optional fs E ?p ?hh] =>
      let b := fresh "imported" in
      let H := fresh "Himport" in
      destruct (import_gcps_optional_runs p hh) as (b & H);
      rewrite H; clear H; cbv beta iota
  end.

(** X15. [process_combined_route] of the RGB+MS single-route script can
    raise only from its first three calls (creating the document, adding the
    chunk, setting the label), which are outside its [try]; past them it
    returns a boolean.  Its engine calls follow the fixed order of the
    script, the marker import being made exactly when the GCP file exists; a
    run that returns [False] before the final save made a prefix of the
    stage calls. *)
Theorem rgb_ms_route_runs_stages_in_order (route_number : string) (rgb_images ms_images : list string)
    (project_folder gcp_file_path : string) (h : history) :
  let stages :=
    rgb_ms_stages pf route_number (rgb_images ++ ms_images)
      (fs_exists fs gcp_file_path) project_folder gcp_file_path in
  let project_file :=
    join pf project_folder ("route_" +:+ route_number +:+ "_combined.psx") in
  exists t r,
    process_combined_route pf fs E route_number rgb_images ms_images
      project_folder gcp_file_path h = (h ++ t, r)
    /\ ((exists e, r = Raise e /\ t `prefix_of` take 3 stages)
        \/ (r = Return false /\ t `prefix_of` stages)
        \/ exists b cs, r = Return b /\ cs <> [] /\
             t = stages ++ map OnDocument cs
                 ++ (if b then [OpenProject project_file] else [])).
Proof.
  intros stages project_file. subst stages project_file.
  unfold process_combined_route.
  unfold verify_saved_products.
  start_run.
  do 3 (next_call E; [stopped_raising|]).
  repeat (first [next_call E | import_step fs E | next_read E]; try stopped_rgb_ms).
  all: match goal with
       | |- context [enhanced_save_project E ?p ?s ?hh] =>
           destruct (enhanced_save_on_engine E p s hh) as (cs & b & Hs & Hcs);
           rewrite Hs; cbv beta iota
       end.
  all: destruct b; cbn [negb]; cbv beta iota.
  all: eexists _, _; (split; [at_end; rewrite <- ?app_assoc; reflexivity|]);
       right; right; eexists _, cs; (split; [reflexivity|]); (split; [done|]);
       unfold rgb_ms_stages; rewrite <- ?app_assoc; cbn [app];
       rewrite ?app_nil_r; reflexivity.
Qed.

(** X16. In the RGB+MS single-route script ground control points are
    optional: if no engine call other than the marker import raises and
    alignment leaves at least one camera aligned, [process_combined_route]
    runs all its stages and returns [True], whether the GCP file is missing
    or its import fails. *)
Theorem rgb_ms_route_gcps_are_optional (route_number : string)
    (rgb_images ms_images : list string)
    (project_folder gcp_file_path : string) (h : history) :
  (forall hh o, is_marker_import o = false -> raises E hh o = None) ->
  (forall hh, aligned_cameras E hh <> 0) ->
  exists cs,
    process_combined_route pf fs E route_number rgb_images ms_images
      project_folder gcp_file_path h
    = (h ++ rgb_ms_stages pf route_number (rgb_images ++ ms_images)
              (fs_exists fs gcp_file_path) project_folder gcp_file_path
         ++ map OnDocument cs
         ++ [OpenProject
               (join pf project_folder ("route_" +:+ route_number +:+ "_combined.psx"))],
       Return true).
Proof.
  intros Hok Hal.
  unfold process_combined_route.
  unfold verify_saved_products.
  start_run.
  repeat (first [next_call E | import_step fs E | next_read E];
          try (match goal with
               | H : raises E _ _ = Some _ |- _ =>
                   rewrite Hok in H by reflexivity; discriminate H
               end);
          try (by match goal with H : (aligned_cameras E _ =? 0) = true |- _ =>
                      apply Nat.eqb_eq in H; apply Hal in H end)).
  all: match goal with
       | |- context [enhanced_save_project E ?p ?s ?hh] =>
           destruct (enhanced_save_goes_through E p s hh) as (cs & Hs & Hcs);
           [intros; by apply Hok|]; rewrite Hs; cbv beta iota
       end.
  all: cbn [negb]; exists cs; unfold rgb_ms_stages; rewrite <- ?app_assoc;
       cbn [app]; reflexivity.
Qed.
End RgbMsPipeline.

Section WholeRoute.
Import Py Os Pipeline Versioner.
Variables (pf : platform) (fs : view) (E : engine) (makedirs : string -> option exn).

(** X17. [process_rgb_route] always terminates, and an exception leaves it
    only from the set-up of the project folder, which runs before the
    [try] and before any engine call: the NotADirectoryError of
    [os.listdir] when a regular file sits at the name of the first version
    whose folder is not a non-empty directory, or whatever [os.makedirs]
    raises when that folder is absent and cannot be created (the output base
    is a regular file, or not writable).  In every other case the function
    returns a boolean; a route without images returns [False] without any
    engine call, and an engine failure never escapes as an exception. *)
Theorem process_rgb_route_raises_only_in_setup (route_info : RgbSingle.route)
    (output_base gcp_base_path : string) (out : outdir) (h : history) :
  let base := "route_" +:+ RgbSingle.route_number route_info +:+ "_RGB" in
  exists v h' r,
    SingleRun.process_rgb_route pf fs E makedirs route_info output_base gcp_base_path
      out h = Some (h', r)
    /\ 1 <= v
    /\ (forall w, 1 <= w < v -> occupied out (folder_at base w))
    /\ let project_path := join pf output_base (folder_at base v) in
       match r with
       | Raise e =>
           h' = h
           /\ ((out !! folder_at base v = Some File
                /\ e = NotADirectoryError project_path)
               \/ (out !! folder_at base v = None /\ makedirs project_path = Some e))
       | Return b =>
           (out !! folder_at base v = Some (Dir [])
            \/ (out !! folder_at base v = None /\ makedirs project_path = None))
           /\ exists t, h' = h ++ t
                /\ (RgbSingle.image_files route_info = [] -> t = [] /\ b = false)
       end.
Proof.
  intros base. unfold SingleRun.process_rgb_route. fold base.
  destruct (versioned_on_result makedirs pf output_base base out)
    as (v & Hv & Hocc & Hfree & ->).
  exists v.
  assert (Hrun : forall p : project,
    exists h' b,
      match RgbSingle.image_files route_info with
      | [] => Some (h, Return false)
      | (_ :: _) as image_files =>
          Some (process_rgb_route_try pf fs E (RgbSingle.route_number route_info)
                  image_files gcp_base_path (project_path p) (project_full_path p) h)
      end = Some (h', Return b)
      /\ exists t, h' = h ++ t
           /\ (RgbSingle.image_files route_info = [] -> t = [] /\ b = false)).
  { intros p. destruct (RgbSingle.image_files route_info) as [|f fl].
    - exists h, false. split; [done|]. exists []. by rewrite app_nil_r.
    - destruct (rgb_route_runs pf fs E (RgbSingle.route_number route_info) (f :: fl)
                  gcp_base_path (project_path p) (project_full_path p) h)
        as (t & b & Hrun & _).
      exists (h ++ t), b. rewrite Hrun. split; [done|]. by exists t. }
  destruct (out !! folder_at base v) as [[|[|x xs]]|] eqn:Hat.
  - eexists _, _. split; [done|]. split_and!; try done. by left.
  - destruct (Hrun (project_at pf output_base base v)) as (h' & b & -> & Ht).
    exists h', (Return b). split_and!; try done. by left.
  - exfalso. apply Hfree. by exists x, xs.
  - destruct (makedirs (join pf output_base (folder_at base v))) as [e|] eqn:Hmk.
    + eexists _, _. split; [done|]. split_and!; try done. by right.
    + destruct (Hrun (project_at pf output_base base v)) as (h' & b & -> & Ht).
      exists h', (Return b). split_and!; try done. by right.
Qed.
End WholeRoute.

(** X18. A single-route run whose GCP file does not exist returns [False]
    after the set-up calls only: rgb_single, when [gcp_route_<n>.xml] is
    missing, makes at most the five calls up to [addPhotos]; ms_automation,
    when [gcp_route_<n>_MS.xml] is missing, these and the camera-group
    assignments; no markers are imported, nothing is matched or aligned, and
    the project is never saved. *)
Theorem route_without_gcp_file_is_not_processed (pf : Os.platform) (fs : Os.view)
    (E : Pipeline.engine) (route_number : string) (image_files : list string)
    (gcp_base_path project_path project_full_path : string) (h : Pipeline.history) :
  (Os.fs_exists fs
     (Os.join pf gcp_base_path ("gcp_route_" +:+ route_number +:+ "" +:+ ".xml")) = false ->
   exists t,
     Pipeline.process_rgb_route_try pf fs E route_number image_files gcp_base_path
       project_path project_full_path h = (h ++ t, Py.Return false)
     /\ t `prefix_of` [Pipeline.NewDocument; Pipeline.AddChunk;
                       Pipeline.SetLabel ("Route_" +:+ route_number +:+ "_RGB");
                       Pipeline.SetCrs "EPSG::4326"; Pipeline.AddPhotos image_files])
  /\ (Os.fs_exists fs
        (Os.join pf gcp_base_path ("gcp_route_" +:+ route_number +:+ "_MS" +:+ ".xml"))
      = false ->
      exists t,
        Pipeline.process_ms_route_try pf fs E route_number image_files gcp_base_path
          project_path project_full_path h = (h ++ t, Py.Return false)
        /\ t `prefix_of`
             [Pipeline.NewDocument; Pipeline.AddChunk;
              Pipeline.SetLabel ("Route_" +:+ route_number +:+ "_MS");
              Pipeline.SetCrs "EPSG::4326"; Pipeline.AddPhotos image_files]
             ++ map Pipeline.ClearCameraGroup
                  (seq 0 (Pipeline.cameras E
                            (h ++ [Pipeline.NewDocument; Pipeline.AddChunk;
                                   Pipeline.SetLabel ("Route_" +:+ route_number +:+ "_MS");
                                   Pipeline.SetCrs "EPSG::4326";
                                   Pipeline.AddPhotos image_files])))).
Proof.
  split; intros Hmissing.
  - by apply rgb_route_without_gcp_file.
  - by apply ms_route_without_gcp_file.
Qed.

Lemma route_without_gcp_file_is_not_processed_witness :
  let fs := Os.view_of Os.Posix Scenario.dcim_root Scenario.survey in
  exists t,
    Pipeline.process_rgb_route_try Os.Posix fs (Pipeline.cooperative 3) "001"
      ["/data/DCIM/a_D.JPG"] "/data/GCP" "/data/out/route_001_RGB"
      "/data/out/route_001_RGB/route_001_RGB.psx" [] = ([] ++ t, Py.Return false)
    /\ t `prefix_of` [Pipeline.NewDocument; Pipeline.AddChunk;
                      Pipeline.SetLabel ("Route_" +:+ "001" +:+ "_RGB");
                      Pipeline.SetCrs "EPSG::4326";
                      Pipeline.AddPhotos ["/data/DCIM/a_D.JPG"]].
Proof.
  intros fs.
  apply (proj1 (route_without_gcp_file_is_not_processed Os.Posix fs
                  (Pipeline.cooperative 3) "001" ["/data/DCIM/a_D.JPG"] "/data/GCP"
                  "/data/out/route_001_RGB"
                  "/data/out/route_001_RGB/route_001_RGB.psx" [])).
  reflexivity.
Defined.

(** X19. The two single-route scripts differ when alignment leaves no
    camera aligned.  With an engine on which no call raises and [addPhotos]
    leaves at least one camera: rgb_single saves the failed state right
    after [alignCameras] and returns [False], without building depth maps;
    ms_automation only warns, goes through depth maps, point cloud, report
    and final save, and returns [True]. *)
Theorem unaligned_route_rgb_stops_ms_continues (pf : Os.platform) (fs : Os.view)
    (E : Pipeline.engine) (route_number : string) (image_files : list string)
    (gcp_base_path project_path project_full_path : string) (h : Pipeline.history) :
  (forall hh o, Pipeline.raises E hh o = None) ->
  (forall hh, Pipeline.cameras E hh <> 0) ->
  (forall hh, Pipeline.aligned_cameras E hh = 0) ->
  Os.fs_exists fs
    (Os.join pf gcp_base_path ("gcp_route_" +:+ route_number +:+ "" +:+ ".xml")) = true ->
  Os.fs_exists fs
    (Os.join pf gcp_base_path ("gcp_route_" +:+ route_number +:+ "_MS" +:+ ".xml")) = true ->
  Pipeline.process_rgb_route_try pf fs E route_number image_files gcp_base_path
    project_path project_full_path h
  = (h ++ take 12 (Pipeline.rgb_stages route_number image_files
                     (Os.join pf gcp_base_path
                        ("gcp_route_" +:+ route_number +:+ "" +:+ ".xml"))
                     project_full_path
                     (Os.join pf project_path "processing_report_RGB.pdf")),
     Py.Return false)
  /\ exists cs,
       Pipeline.process_ms_route_try pf fs E route_number image_files gcp_base_path
         project_path project_full_path h
       = (h ++ Pipeline.ms_stages route_number image_files
                 (Pipeline.cameras E
                    (h ++ [Pipeline.NewDocument; Pipeline.AddChunk;
                           Pipeline.SetLabel ("Route_" +:+ route_number +:+ "_MS");
                           Pipeline.SetCrs "EPSG::4326";
                           Pipeline.AddPhotos image_files]))
                 (Os.join pf gcp_base_path
                    ("gcp_route_" +:+ route_number +:+ "_MS" +:+ ".xml"))
                 project_full_path
                 (Os.join pf project_path "processing_report_MS.pdf")
            ++ map Pipeline.OnDocument cs
            ++ [Pipeline.OpenProject project_full_path],
          Py.Return true).
Proof.
  intros Hok Hcam Hal Hrgb Hms. split.
  - by apply rgb_route_unaligned.
  - by apply ms_route_unaligned.
Qed.

Lemma unaligned_route_rgb_stops_ms_continues_witness :
  let fs := Scenario.also_existing
              ["/data/GCP/gcp_route_001.xml"; "/data/GCP/gcp_route_001_MS.xml"]
              (Os.view_of Os.Posix Scenario.dcim_root Scenario.survey) in
  (Pipeline.process_rgb_route_try Os.Posix fs (Pipeline.unaligned 3) "001"
     ["/data/DCIM/a_D.JPG"] "/data/GCP" "/data/out/p" "/data/out/p/p.psx" []).2
  = Py.Return false
  /\ exists h',
       Pipeline.process_ms_route_try Os.Posix fs (Pipeline.unaligned 3) "001"
         ["/data/DCIM/a_D.JPG"] "/data/GCP" "/data/out/p" "/data/out/p/p.psx" []
       = (h', Py.Return true).
Proof.
  intros fs.
  destruct (unaligned_route_rgb_stops_ms_continues Os.Posix fs (Pipeline.unaligned 3)
              "001" ["/data/DCIM/a_D.JPG"] "/data/GCP" "/data/out/p"
              "/data/out/p/p.psx" []) as [Hrgb [cs Hms]];
    [reflexivity|intros hh; cbn; lia|reflexivity|reflexivity|reflexivity|].
  split; [by rewrite Hrgb|]. eexists. exact Hms.
Defined.

Lemma rgb_route_success_passed_every_gate_witness :
  let fs := Scenario.also_existing ["/data/GCP/gcp_route_001.xml"]
              (Os.view_of Os.Posix Scenario.dcim_root Scenario.survey) in
  let E := Pipeline.cooperative 3 in
  Os.fs_exists fs "/data/GCP/gcp_route_001.xml" = true
  /\ Pipeline.cameras E
       ([] ++ take 5 (Pipeline.rgb_stages "001" ["/data/DCIM/a_D.JPG"]
                        (Os.join Os.Posix "/data/GCP"
                           ("gcp_route_" +:+ "001" +:+ "" +:+ ".xml"))
                        "/data/out/p/p.psx"
                        (Os.join Os.Posix "/data/out/p" "processing_report_RGB.pdf")))
     <> 0.
Proof.
  intros fs E.
  destruct (rgb_route_success_passed_every_gate Os.Posix fs E "001"
              ["/data/DCIM/a_D.JPG"] "/data/GCP" "/data/out/p" "/data/out/p/p.psx" []
              (Pipeline.process_rgb_route_try Os.Posix fs E "001"
                 ["/data/DCIM/a_D.JPG"] "/data/GCP" "/data/out/p"
                 "/data/out/p/p.psx" []).1)
    as (Hex & Hcam & _); [reflexivity|].
  split; [exact Hex|exact Hcam].
Defined.

Lemma rgb_ms_route_gcps_are_optional_witness :
  let fs := Os.view_of Os.Posix Scenario.dcim_root Scenario.survey in
  exists h',
    Pipeline.process_combined_route Os.Posix fs (Pipeline.rejecting_markers 3) "001"
      ["/data/DCIM/a_D.JPG"] ["/data/DCIM/a_MS_G.TIF"] "/data/out/route_001_Combined"
      "/data/GCP/gcp_route_001.xml" [] = (h', Py.Return true).
Proof.
  intros fs.
  destruct (rgb_ms_route_gcps_are_optional Os.Posix fs (Pipeline.rejecting_markers 3)
              "001" ["/data/DCIM/a_D.JPG"] ["/data/DCIM/a_MS_G.TIF"]
              "/data/out/route_001_Combined" "/data/GCP/gcp_route_001.xml" [])
    as [cs Hrun].
  - intros hh o Ho. cbn. by rewrite Ho.
  - intros hh. cbn. lia.
  - eexists. exact Hrun.
Defined.

(** ** Verification of the saved project *)

Lemma aligned_count_positive (l : list bool) :
  (0 <? length (filter (fun t => t = true) l)) = true <-> true ∈ l.
Proof.
  rewrite Nat.ltb_lt. induction l as [|[|] l IH].
  - cbn. split; [lia|by intros ?%elem_of_nil].
  - rewrite filter_cons_True by done. cbn. split; [intros _; by left|lia].
  - rewrite filter_cons_False by done. rewrite IH. split; [by right|].
    by intros [?|?]%elem_of_cons.
Qed.

(** X20. [verify_saved_products] returns [True] exactly when the saved
    project can be reopened, has a chunk, and its first chunk has at least
    one aligned camera and a point cloud with at least one point.  Missing
    tie points, depth maps or markers are reported but do not change the
    result, further chunks are not looked at, and no exception escapes. *)
Theorem verification_needs_alignment_and_point_cloud
    (opened : Py.outcome (list Verify.saved_chunk)) :
  Verify.verify_saved_products opened = true
  <-> exists test_chunk rest,
        opened = Py.Return (test_chunk :: rest)
        /\ true ∈ Verify.camera_transforms test_chunk
        /\ exists n, Verify.point_cloud test_chunk = Some n /\ 0 < n.
Proof.
  assert (Hchunk : forall c,
    match Verify.critical_missing c with [] => true | _ => false end = true
    <-> true ∈ Verify.camera_transforms c
        /\ exists n, Verify.point_cloud c = Some n /\ 0 < n).
  { intros c. rewrite <- aligned_count_positive.
    assert (Hpc : Verify.positive (Verify.point_cloud c) = true
                  <-> exists n, Verify.point_cloud c = Some n /\ 0 < n).
    { unfold Verify.positive. destruct (Verify.point_cloud c) as [n|].
      - rewrite Nat.ltb_lt. split; [by exists n|]. by intros (? & [= <-] & ?).
      - split; [done|]. by intros (? & ? & _). }
    rewrite <- Hpc.
    unfold Verify.critical_missing, Verify.products_missing, Verify.missing_unless.
    destruct (0 <? length (filter (fun t => t = true) (Verify.camera_transforms c)));
      destruct (Verify.positive (Verify.tie_points c));
      destruct (Verify.positive (Verify.point_cloud c));
      destruct (Verify.positive (Verify.depth_maps c));
      destruct (0 <? Verify.markers c); vm_compute;
      (split; [try done|try done; by intros [? ?]]). }
  destruct opened as [[|c rest]|e]; cbn [Verify.verify_saved_products].
  - split; [done|]. by intros (? & ? & ? & _).
  - rewrite Hchunk. split.
    + intros H. by exists c, rest.
    + by intros (? & ? & [= <- <-] & H).
  - split; [done|]. by intros (? & ? & ? & _).
Qed.

(** ** The multi-route scripts after Step 0 *)

Ltac stopped_import :=
  eexists _, _; split; [at_end; rewrite <- ?app_assoc; reflexivity|];
  right; eexists; split; [reflexivity|];
  unfold Pipeline.import_calls; cbn [app]; eexists; reflexivity.

Section CombinedFacts.
Import Py Os Pipeline.
Context {R : Type} (route_number : R -> string) (image_files : R -> list string).
Variables (E : engine) (tag : string) (downscale : nat) (merge : M unit).

Lemma import_route_runs (route_info : Entry.validated R) (h : history) :
  exists t r,
    import_route_as_chunk route_number image_files E tag route_info h = (h ++ t, r)
    /\ ((exists counts, r = Return counts /\ t = import_calls image_files route_info)
        \/ (exists e, r = Raise e /\ t `prefix_of` import_calls image_files route_info)).
Proof.
  unfold import_route_as_chunk. start_run.
  repeat (first [next_call E | next_read E]; try stopped_import).
  eexists _, _. split; [rewrite <- ?app_assoc; reflexivity|].
  left. eexists. split; reflexivity.
Qed.

Lemma import_routes_runs (valid_routes : list (Entry.validated R))
    (imported : list (nat * nat)) (h : history) :
  exists t r,
    import_routes route_number image_files E tag valid_routes imported h
    = (h ++ t, Return r)
    /\ ((exists counts, r = Some (imported ++ counts)
                        /\ length counts = length valid_routes
                        /\ t = concat (map (import_calls image_files) valid_routes))
        \/ (r = None
            /\ exists done_routes route rest t',
                 valid_routes = done_routes ++ route :: rest
                 /\ t = concat (map (import_calls image_files) done_routes) ++ t'
                 /\ t' `prefix_of` import_calls image_files route)).
Proof.
  revert imported h. induction valid_routes as [|route rest IH]; intros imported h.
  - exists [], (Some imported). cbn. rewrite app_nil_r. split; [done|].
    left. exists []. by rewrite app_nil_r.
  - cbn [import_routes]. unfold bind at 1. unfold try_except at 1. unfold bind at 1.
    destruct (import_route_runs route h) as (t & r & Hrun & Hcase).
    rewrite Hrun.
    destruct Hcase as [(counts & -> & ->)|(e & -> & Hpre)].
    + unfold ret at 1.
      destruct (IH (imported ++ [counts]) (h ++ import_calls image_files route))
        as (t2 & r2 & Hrun2 & Hcase2).
      rewrite Hrun2. exists (import_calls image_files route ++ t2), r2.
      split; [by rewrite <- app_assoc|].
      destruct Hcase2 as [(cs & -> & Hlen & ->)|(-> & dr & rt & rs & t' & -> & -> & Hp)].
      * left. exists (counts :: cs).
        split; [by rewrite <- app_assoc|]. split; [cbn; by rewrite Hlen|done].
      * right. split; [done|].
        exists (route :: dr), rt, rs, t'. split_and!; try done.
    + unfold ret. exists t, None. split; [done|]. right. split; [done|].
      exists [], route, rest, t. by split_and!.
Qed.
End CombinedFacts.

(** X21. The import loop of [process_combined_routes] is all or nothing.
    It never raises; it imports the validated routes in order, each with the
    same six engine calls (chunk, label, WGS84, photos, marker import,
    ETRS89); either every route is imported and the loop yields one pair of
    marker counts per route, or it stops inside the calls of the first route
    whose import fails, makes no call for any later route, and the run
    returns [False]. *)
Theorem route_import_is_all_or_nothing {R : Type} (route_number : R -> string)
    (image_files : R -> list string) (E : Pipeline.engine) (tag : string)
    (valid_routes : list (Entry.validated R)) (h : Pipeline.history) :
  exists t r,
    Pipeline.import_routes route_number image_files E tag valid_routes [] h
    = (h ++ t, Py.Return r)
    /\ ((exists counts, r = Some counts
                        /\ length counts = length valid_routes
                        /\ t = concat (map (Pipeline.import_calls image_files) valid_routes))
        \/ (r = None
            /\ exists done_routes route rest t',
                 valid_routes = done_routes ++ route :: rest
                 /\ t = concat (map (Pipeline.import_calls image_files) done_routes) ++ t'
                 /\ t' `prefix_of` Pipeline.import_calls image_files route)).
Proof.
  destruct (import_routes_runs route_number image_files E tag valid_routes [] h)
    as (t & r & Hrun & Hcase).
  exists t, r. split; [exact Hrun|exact Hcase].
Qed.

Section CombinedRun.
Import Py Os Pipeline.
Context {R : Type} (route_number : R -> string) (image_files : R -> list string).
Variables (E : engine) (tag : string) (downscale : nat) (merge : M unit).

Lemma enhanced_save_combined_runs (project_path step_name : string) (h : history) :
  enhanced_save_combined E project_path step_name h
  = (h ++ [OnDocument (Engine.SavePlain project_path)],
     Return match raises E h (OnDocument (Engine.SavePlain project_path)) with
            | None => true
            | Some _ => false
            end).
Proof.
  unfold enhanced_save_combined, Save.enhanced_save_project_combined.
  cbn [saver_of Engine.run].
  by destruct (raises E h (OnDocument (Engine.SavePlain project_path))).
Qed.

Lemma process_imported_returns (valid_routes : list (Entry.validated R))
    (project_full_path report_path : string) (h : history) :
  exists h' b,
    process_imported route_number image_files E tag downscale merge valid_routes
      project_full_path report_path h = (h', Return b).
Proof.
  unfold process_imported. unfold try_except at 1.
  match goal with |- context [match ?m h with _ => _ end] => destruct (m h) as [h' [b|e]] end;
    by eexists _, _.
Qed.

Lemma process_imported_success (valid_routes : list (Entry.validated R))
    (project_full_path report_path : string) (h h' : history) :
  let save := OnDocument (Engine.SavePlain project_full_path) in
  process_imported route_number image_files E tag downscale merge valid_routes
    project_full_path report_path h = (h', Return true) ->
  exists counts h1 h2,
    raises E h NewDocument = None
    /\ import_routes route_number image_files E tag valid_routes [] (h ++ [NewDocument])
       = (h1, Return (Some counts))
    /\ merge (h1 ++ [save]) = (h2, Return tt)
    /\ aligned_cameras E (h2 ++ [save; MatchPhotos downscale; save; AlignCameras]) <> 0
    /\ has_point_cloud E (h2 ++ [save; MatchPhotos downscale; save; AlignCameras; save;
                                 BuildDepthMaps; save; BuildPointCloud]) = true
    /\ h' = h2 ++ [save; MatchPhotos downscale; save; AlignCameras; save;
                   BuildDepthMaps; save; BuildPointCloud; save;
                   ExportReport report_path; save]
    /\ raises E (h2 ++ [save; MatchPhotos downscale; save; AlignCameras; save;
                        BuildDepthMaps; save; BuildPointCloud; save;
                        ExportReport report_path]) save = None.
Proof.
  intros save. subst save.
  unfold process_imported, save_document.
  start_run.
  next_call E; [not_this_run|].
  destruct (import_routes route_number image_files E tag valid_routes []
              (h ++ [NewDocument])) as [h1 [[counts|]|e]] eqn:Himport;
    cbv beta iota; try not_this_run.
  next_call E; [not_this_run|].
  destruct (merge (h1 ++ [OnDocument (Engine.SavePlain project_full_path)]))
    as [h2 [[]|e]] eqn:Hmerge; cbv beta iota; cbn [negb]; cbv beta iota;
    try not_this_run.
  repeat (first [next_call E | next_read E]; try not_this_run).
  destruct (has_point_cloud E _) eqn:Hcloud; cbn [negb]; cbv beta iota.
  2:{ next_call E; not_this_run. }
  repeat (first [next_call E | next_read E]; try not_this_run).
  rewrite enhanced_save_combined_runs.
  match goal with
  | |- context [raises E ?hh (OnDocument (Engine.SavePlain project_full_path))] =>
      destruct (raises E hh (OnDocument (Engine.SavePlain project_full_path))) eqn:Hlast
  end; cbn [negb]; cbv beta iota; [not_this_run|].
  intros [= <-].
  rewrite <- ?app_assoc in *. cbn [app] in *.
  apply Nat.eqb_neq in Haligned.
  exists counts, h1, h2. by split_and!.
Qed.
End CombinedRun.

(** X22. [process_combined_routes] of the multi-route scripts, from the
    creation of the document on, never raises.  When it returns [True],
    every validated route was imported, the document was saved, the merge
    returned a chunk, and the run then made exactly these calls, none of
    which raised: save, [matchPhotos], save, [alignCameras], save,
    [buildDepthMaps], save, [buildPointCloud], save, [exportReport] and the
    final save; at least one camera was aligned and a point cloud existed.
    Every save is a plain [doc.save(path)]. *)
Theorem combined_run_success_passed_every_gate {R : Type} (route_number : R -> string)
    (image_files : R -> list string) (E : Pipeline.engine) (tag : string)
    (downscale : nat) (merge : Pipeline.M unit)
    (valid_routes : list (Entry.validated R))
    (project_full_path report_path : string) (h : Pipeline.history) :
  let save := Pipeline.OnDocument (Engine.SavePlain project_full_path) in
  let run := Pipeline.process_imported route_number image_files E tag downscale merge
               valid_routes project_full_path report_path h in
  (exists b, run.2 = Py.Return b)
  /\ (run.2 = Py.Return true ->
      exists counts h1 h2,
        Pipeline.import_routes route_number image_files E tag valid_routes []
          (h ++ [Pipeline.NewDocument]) = (h1, Py.Return (Some counts))
        /\ length counts = length valid_routes
        /\ merge (h1 ++ [save]) = (h2, Py.Return tt)
        /\ Pipeline.aligned_cameras E
             (h2 ++ [save; Pipeline.MatchPhotos downscale; save; Pipeline.AlignCameras])
           <> 0
        /\ Pipeline.has_point_cloud E
             (h2 ++ [save; Pipeline.MatchPhotos downscale; save; Pipeline.AlignCameras;
                     save; Pipeline.BuildDepthMaps; save; Pipeline.BuildPointCloud])
           = true
        /\ run.1 = h2 ++ [save; Pipeline.MatchPhotos downscale; save;
                          Pipeline.AlignCameras; save; Pipeline.BuildDepthMaps; save;
                          Pipeline.BuildPointCloud; save;
                          Pipeline.ExportReport report_path; save]).
Proof.
  intros save run. split.
  - destruct (process_imported_returns route_number image_files E tag downscale merge
                valid_routes project_full_path report_path h) as (h' & b & Hrun).
    exists b. subst run. by rewrite Hrun.
  - intros Htrue.
    destruct (process_imported_success route_number image_files E tag downscale merge
                valid_routes project_full_path report_path h run.1)
      as (counts & h1 & h2 & _ & Himport & Hmerge & Hal & Hpc & Hh & _).
    { subst run. rewrite <- Htrue. by destruct (Pipeline.process_imported _ _ _ _ _ _ _ _ _ _). }
    exists counts, h1, h2. split_and!; try done.
    destruct (import_routes_runs route_number image_files E tag valid_routes []
                (h ++ [Pipeline.NewDocument])) as (t & r & Hrun & Hcase).
    rewrite Himport in Hrun. injection Hrun as _ <-.
    destruct Hcase as [(cs & [= ->] & Hlen & _)|[? _]]; done.
Qed.

Lemma combined_run_success_passed_every_gate_witness :
  let route := {| Entry.v_route := "001";
                  Entry.v_gcp_path := "/data/GCP/gcp_route_001.xml";
                  Entry.v_name := "Route_001_RGB" |} in
  exists counts h1,
    Pipeline.import_routes id (fun _ : string => ["/data/DCIM/a_D.JPG"])
      (Pipeline.cooperative 3) "RGB" [route] [] ([] ++ [Pipeline.NewDocument])
    = (h1, Py.Return (Some counts))
    /\ length counts = 1.
Proof.
  intros route.
  destruct (combined_run_success_passed_every_gate id
              (fun _ : string => ["/data/DCIM/a_D.JPG"]) (Pipeline.cooperative 3)
              "RGB" 1 (Pipeline.ret tt) [route] "/data/out/p/p.psx"
              "/data/out/p/report.pdf" []) as [_ H].
  destruct (H eq_refl) as (counts & h1 & h2 & Himport & Hlen & _).
  exists counts, h1. split; [exact Himport|exact Hlen].
Defined.

(** ** The folder grammar *)

Lemma string_app_assoc (a b c : string) : (a +:+ b) +:+ c = a +:+ b +:+ c.
Proof.
  induction a as [|x a IH]; [done|].
  change (String x ((a +:+ b) +:+ c) = String x (a +:+ b +:+ c)). by rewrite IH.
Qed.

(** X23. The folder test of the directory scans accepts exactly the names
    [DJI_<12 to 14 digits>_<3 digits>_<anything>] and returns the three
    digits; a folder name therefore has at most one route number. *)
Theorem folder_grammar_is_exact (folder route : string) :
  (Grammar.match_route_folder folder = Some route
   <-> Policy.route_folder_name folder route)
  /\ (forall route', Policy.route_folder_name folder route ->
                     Policy.route_folder_name folder route' -> route = route').
Proof.
  split.
  - split; [apply match_route_folder_sound|apply match_route_folder_complete].
  - intros route' H1%match_route_folder_complete H2%match_route_folder_complete.
    congruence.
Qed.

(** ** Band counts of the multispectral grouper *)

Section BandCounts.
Import Py Os MsSingle MsSingleCounts.
Variable fs : view.

Lemma count_cons (band f : string) (l : list string) :
  count fs band (f :: l) = (if in_band fs band f then 1 else 0) + count fs band l.
Proof.
  unfold count. rewrite filter_cons.
  destruct (in_band fs band f);
    [rewrite decide_True by done|rewrite decide_False by (by intros ?)];
    reflexivity.
Qed.

Lemma band_counts_step (G : groups) (g n r re : nat) (f : string) :
  (add_file fs (G, [("G", g); ("NIR", n); ("R", r); ("RE", re)]) f).2
  = [("G", (if in_band fs "G" f then 1 else 0) + g);
     ("NIR", (if in_band fs "NIR" f then 1 else 0) + n);
     ("R", (if in_band fs "R" f then 1 else 0) + r);
     ("RE", (if in_band fs "RE" f then 1 else 0) + re)].
Proof.
  unfold add_file, in_band.
  destruct (capture_of fs f) as [[k b]|]; cbn [snd]; [|done].
  cbn [PyDict.get].
  destruct (String.eqb_spec b "G") as [->|HG]; [done|].
  destruct (String.eqb_spec b "NIR") as [->|HN]; [done|].
  destruct (String.eqb_spec b "R") as [->|HR]; [done|].
  destruct (String.eqb_spec b "RE") as [->|HE]; [done|].
  done.
Qed.

Lemma band_counts_fold (l : list string) (G : groups) (g n r re : nat) :
  (fold_left (add_file fs) l (G, [("G", g); ("NIR", n); ("R", r); ("RE", re)])).2
  = [("G", g + count fs "G" l); ("NIR", n + count fs "NIR" l);
     ("R", r + count fs "R" l); ("RE", re + count fs "RE" l)].
Proof.
  revert G g n r re. induction l as [|f l IH]; intros G g n r re.
  - cbn. by rewrite !Nat.add_0_r.
  - cbn [fold_left].
    pose proof (band_counts_step G g n r re f) as Hstep.
    destruct (add_file fs (G, [("G", g); ("NIR", n); ("R", r); ("RE", re)]) f)
      as [G' c'] eqn:E.
    cbn [snd] in Hstep. subst c'. rewrite IH, !count_cons.
    do 3 (f_equal; [f_equal; lia|]). f_equal. f_equal. lia.
Qed.
End BandCounts.

Lemma four_per_key {K : Type} (f : K -> string -> string) (ks : list K) :
  length (concat (map (fun k => map (f k) MsSingle.required_bands) ks))
  = 4 * length ks.
Proof.
  induction ks as [|k ks IH]; [done|].
  cbn [map concat]. rewrite length_app, IH. cbn. lia.
Qed.

Lemma in_band_shows (fs : Os.view) (band f : string) :
  MsSingleCounts.in_band fs band f = true
  <-> exists ts seq, MsPolicy.shows fs f ts seq band.
Proof.
  unfold MsSingleCounts.in_band.
  destruct (MsSingle.capture_of fs f) as [[k b]|] eqn:E.
  - apply capture_of_spec in E as (ts & seq & -> & Hs).
    destruct (String.eqb_spec b band) as [->|Hne]; split; try done.
    + intros _. by exists ts, seq.
    + intros (ts' & seq' & (b1 & Hn1%match_ms_filename_complete & <-)).
      destruct Hs as (b2 & Hn2%match_ms_filename_complete & <-).
      rewrite Hn1 in Hn2. by injection Hn2 as -> -> ->.
  - split; [done|]. intros (ts & seq & Hs).
    assert (MsSingle.capture_of fs f = Some (ts +:+ "_" +:+ seq, band)) as Hc
      by (apply capture_of_spec; by exists ts, seq).
    congruence.
Qed.

Lemma count_band_count (fs : Os.view) (band : string) (l : list string) :
  MsPolicy.band_count fs band l (MsSingleCounts.count fs band l).
Proof.
  induction l as [|f l IH]; [constructor|].
  rewrite count_cons. destruct (MsSingleCounts.in_band fs band f) eqn:E.
  - apply MsPolicy.count_in; [by apply in_band_shows|exact IH].
  - apply MsPolicy.count_out; [|exact IH].
    intros H%in_band_shows. congruence.
Qed.

(** X24. The band counts of the multispectral grouper are kept for the
    four bands G, NIR, R and RE and no other, and they are taken over all
    listed files whose base name follows the file grammar, whether or not
    their capture is complete: [band_counts[b]] is the number of listed
    files that are images of band [b].  Four files are emitted for every
    complete capture set. *)
Theorem grouper_counts (fs : Os.view) (ms_files : list string) :
  let g := MsSingle.group_ms_files fs ms_files in
  PyDict.keys (MsSingle.g_band_counts g) = MsPolicy.bands
  /\ (forall band n,
        PyDict.get band (MsSingle.g_band_counts g) = Some n ->
        MsPolicy.band_count fs band ms_files n)
  /\ length (MsSingle.g_image_files g) = 4 * MsSingle.g_complete_sets g.
Proof.
  intros g.
  assert (Hcounts : MsSingle.g_band_counts g
            = [("G", MsSingleCounts.count fs "G" ms_files);
               ("NIR", MsSingleCounts.count fs "NIR" ms_files);
               ("R", MsSingleCounts.count fs "R" ms_files);
               ("RE", MsSingleCounts.count fs "RE" ms_files)]).
  { subst g. unfold MsSingle.group_ms_files.
    pose proof (band_counts_fold fs ms_files [] 0 0 0 0) as H.
    change (fold_left (MsSingle.add_file fs) ms_files
              ([], [("G", 0); ("NIR", 0); ("R", 0); ("RE", 0)]))
      with (MsSingle.group_files fs ms_files) in H.
    destruct (MsSingle.group_files fs ms_files) as [G c].
    cbn [snd] in H. subst c.
    by destruct (MsSingle.complete_of G). }
  split_and!.
  - by rewrite Hcounts.
  - intros band n Hget. rewrite Hcounts in Hget. cbn [PyDict.get] in Hget.
    destruct (String.eqb_spec band "G") as [->|_];
      [injection Hget as <-; apply count_band_count|].
    destruct (String.eqb_spec band "NIR") as [->|_];
      [injection Hget as <-; apply count_band_count|].
    destruct (String.eqb_spec band "R") as [->|_];
      [injection Hget as <-; apply count_band_count|].
    destruct (String.eqb_spec band "RE") as [->|_];
      [injection Hget as <-; apply count_band_count|].
    done.
  - subst g. destruct (grouped_fields fs ms_files) as (Hn & Hfiles & _).
    rewrite Hn, Hfiles, (kept_files fs ms_files) by done.
    rewrite four_per_key. by rewrite dict_keys_length.
Qed.

(** ** Project versions *)

Section VersionFacts.
Import Py Os Versioner.
Variables (pf : platform) (output_base base : string).

Lemma file_at_folder_at (v : nat) : file_at base v = folder_at base v +:+ ".psx".
Proof.
  unfold file_at, folder_at. destruct (v =? 1); [done|].
  by rewrite !string_app_assoc.
Qed.
End VersionFacts.

(** X25. Whatever version the versioner settles on, the names it returns
    belong together: the project file is the project folder's name followed
    by [.psx], the project path is the output base joined with the folder
    and the full path is the project path joined with the file; the folder
    carries no version suffix exactly at version 1. *)
Theorem project_names_belong_together (pf : Os.platform) (output_base base : string)
    (out out' : Versioner.outdir) (p : Versioner.project) :
  Versioner.versioned pf output_base base (Versioner.enough out) out
  = Some (Py.Return (p, out')) ->
  Versioner.project_file p = Versioner.project_folder p +:+ ".psx"
  /\ Versioner.project_path p = Os.join pf output_base (Versioner.project_folder p)
  /\ Versioner.project_full_path p
     = Os.join pf (Versioner.project_path p) (Versioner.project_file p)
  /\ Versioner.project_folder p = Versioner.folder_at base (Versioner.version p)
  /\ 1 <= Versioner.version p
  /\ (Versioner.version p = 1 <-> Versioner.project_folder p = base).
Proof.
  intros H. apply versioned_spec in H as (v & Hv & _ & _ & Hr).
  assert (Hp : p = Versioner.project_at pf output_base base v).
  { destruct (out !! Versioner.folder_at base v) as [[|es]|]; [done| |];
      by injection Hr as -> _. }
  subst p. cbn. split_and!; try done.
  - apply file_at_folder_at.
  - split.
    + by intros ->.
    + intros Hb. change base with (Versioner.folder_at base 1) in Hb at 2.
      by apply folder_at_inj in Hb.
Qed.

Lemma project_names_belong_together_witness :
  let p := Versioner.project_at Os.Posix "/data/out" "route_005_RGB" 2 in
  Versioner.project_file p = Versioner.project_folder p +:+ ".psx"
  /\ Versioner.project_path p = Os.join Os.Posix "/data/out" (Versioner.project_folder p)
  /\ Versioner.project_full_path p
     = Os.join Os.Posix (Versioner.project_path p) (Versioner.project_file p)
  /\ Versioner.project_folder p = Versioner.folder_at "route_005_RGB" (Versioner.version p)
  /\ 1 <= Versioner.version p
  /\ (Versioner.version p = 1 <-> Versioner.project_folder p = "route_005_RGB").
Proof.
  intros p.
  apply (project_names_belong_together Os.Posix "/data/out" "route_005_RGB"
           Scenario.processed_005
           (<["route_005_RGB_v2" := Versioner.Dir []]> Scenario.processed_005) p).
  vm_compute. reflexivity.
Defined.

(** X26. A version is never handed out again once its folder holds files:
    if the versioner returned a project and that project's folder has since
    received entries, a later call for the same base name, whatever else
    sits in the output directory, returns a strictly higher version (or
    raises because a regular file is in the way). *)
Theorem used_version_is_not_reused (pf : Os.platform) (output_base base : string)
    (out out' later : Versioner.outdir) (p : Versioner.project)
    (r : Py.outcome (Versioner.project * Versioner.outdir)) :
  Versioner.versioned pf output_base base (Versioner.enough out) out
  = Some (Py.Return (p, out')) ->
  (forall w, 1 <= w <= Versioner.version p ->
             Versioner.occupied later (Versioner.folder_at base w)) ->
  Versioner.versioned pf output_base base (Versioner.enough later) later = Some r ->
  match r with
  | Py.Return (p2, _) => Versioner.version p < Versioner.version p2
  | Py.Raise e => exists path, e = Py.NotADirectoryError path
  end.
Proof.
  intros H Hocc H2.
  apply versioned_spec in H2 as (v2 & Hv2 & _ & Hfree2 & ->).
  assert (Hlt : Versioner.version p < v2).
  { destruct (Nat.lt_ge_cases (Versioner.version p) v2) as [?|Hle]; [done|].
    exfalso. apply Hfree2, Hocc. lia. }
  destruct (later !! Versioner.folder_at base v2) as [[|es]|]; [by eexists|done|done].
Qed.

Lemma used_version_is_not_reused_witness :
  Versioner.version (Versioner.project_at Os.Posix "/data/out" "route_005_RGB" 1)
  < Versioner.version (Versioner.project_at Os.Posix "/data/out" "route_005_RGB" 2).
Proof.
  apply (used_version_is_not_reused Os.Posix "/data/out" "route_005_RGB"
           ∅ {[ "route_005_RGB" := Versioner.Dir [] ]} Scenario.processed_005
           (Versioner.project_at Os.Posix "/data/out" "route_005_RGB" 1)
           (Py.Return
              (Versioner.project_at Os.Posix "/data/out" "route_005_RGB" 2,
               <["route_005_RGB_v2" := Versioner.Dir []]> Scenario.processed_005))).
  - vm_compute. reflexivity.
  - intros w Hw. cbn in Hw. assert (w = 1) as -> by lia.
    exists "route_005_RGB.psx", ["route_005_RGB.files"]. reflexivity.
  - vm_compute. reflexivity.
Defined.

(** ** Cleanup after the merge *)

Section MergeCleanupFacts.
Import Py Engine Merge.
Variable w : wording.

Lemma merge_body_ignores_cleanup (E E' : api) (doc : document) (out : list string)
    (chunks : list chunk) (before tc tm : nat) :
  (forall d cs, mergeChunks E d cs = mergeChunks E' d cs) ->
  (size (coordinate_systems chunks) <= 1
   \/ forall d cs, alignChunks E d cs = alignChunks E' d cs) ->
  (merge_body w E doc out chunks before tc tm).2
  = (merge_body w E' doc out chunks before tc tm).2.
Proof.
  intros Hmerge Halign. unfold merge_body.
  destruct (1 <? size (coordinate_systems chunks)) eqn:Hsize.
  - destruct Halign as [Hle|Ha]; [apply Nat.ltb_lt in Hsize; lia|].
    rewrite Ha. destruct (alignChunks E' doc chunks) as [doc'|e]; [|done].
    rewrite Hmerge.
    destruct (mergeChunks E' doc' chunks) as [doc0|e]; [|done].
    cbv zeta. destruct (length doc0 <=? before); [done|].
    destruct (last (relabel_last (merged_label w) doc0)) as [m|]; [|done].
    destruct (remove_all E _ _ _) as [d3 o4].
    destruct (remove_all E' _ _ _) as [d3' o4'].
    by rewrite !(proj1 (validate_result w _ _ _ _ _)).
  - rewrite Hmerge.
    destruct (mergeChunks E' doc chunks) as [doc0|e]; [|done].
    cbv zeta. destruct (length doc0 <=? before); [done|].
    destruct (last (relabel_last (merged_label w) doc0)) as [m|]; [|done].
    destruct (remove_all E _ _ _) as [d3 o4].
    destruct (remove_all E' _ _ _) as [d3' o4'].
    by rewrite !(proj1 (validate_result w _ _ _ _ _)).
Qed.
End MergeCleanupFacts.

(** X27. The result of [merge_chunks_with_validation], the merged chunk or
    the RuntimeError, does not depend on the cleanup: whether or not the
    original chunks can be removed from the document, the same chunk is
    returned or the same error raised.  Nor does it depend on
    [alignChunks] when the chunks to merge use at most one coordinate
    system, since the function is then not called. *)
Theorem merge_result_ignores_cleanup (w : Merge.wording) (E E' : Engine.api)
    (doc : Engine.document) (chunks : list Engine.chunk) :
  (forall d cs, Engine.mergeChunks E d cs = Engine.mergeChunks E' d cs) ->
  (size (Merge.coordinate_systems chunks) <= 1
   \/ forall d cs, Engine.alignChunks E d cs = Engine.alignChunks E' d cs) ->
  (Merge.merge_chunks_with_validation w E doc chunks).2
  = (Merge.merge_chunks_with_validation w E' doc chunks).2.
Proof.
  intros Hmerge Halign. unfold Merge.merge_chunks_with_validation.
  match goal with
  | |- context [Merge.merge_body w E doc ?o chunks ?b ?tc ?tm] =>
      pose proof (merge_body_ignores_cleanup w E E' doc o chunks b tc tm Hmerge Halign)
        as Hbody;
      destruct (Merge.merge_body w E doc o chunks b tc tm) as [[d1 o1] r1];
      destruct (Merge.merge_body w E' doc o chunks b tc tm) as [[d2 o2] r2]
  end.
  cbn in Hbody. subst r2. by destruct r1.
Qed.

Lemma merge_result_ignores_cleanup_witness :
  (Merge.merge_chunks_with_validation Merge.rgb_wording MergeScenario.faithful
     MergeScenario.imported MergeScenario.imported).2
  = (Merge.merge_chunks_with_validation Merge.rgb_wording
       (MergeCleanup.keeping_originals MergeScenario.faithful)
       MergeScenario.imported MergeScenario.imported).2.
Proof.
  apply merge_result_ignores_cleanup.
  - reflexivity.
  - right. reflexivity.
Defined.
